(** * MD8800 VFD control: protocol encoder and animation engine

    A shallow embedding of [md8800_gui.py]: the [VFD] class (the command
    codec writing to the serial port) and the effect engine of [App]
    (the [_x_start] / [_x_stop] / [_x_tick] methods, the Tk [after]
    timers and the playable snake game), followed by the properties
    established about them.

    Python integers are unbounded, hence [Z]; [&], [|], [^], [<<], [>>]
    are [Z.land], [Z.lor], [Z.lxor], [Z.shiftl], [Z.shiftr].  A Python
    exception that escapes a method is the [None] of an option. *)

From Stdlib Require Import ZArith QArith List Bool Lia String Ascii DecimalString.
From coqutil Require Import Datatypes.RecordSetters.
Import ListNotations.
Import TriangleBracketNotations.
Local Open Scope Z_scope.

(** ** Python primitives used by the program *)

Notation "'let?' x ':=' e 'in' k" :=
  (match e with Some x => k | None => None end)
  (at level 10, x pattern, e at level 100, k at level 200).

Module Py.

Definition len {A} (l : list A) : Z := Z.of_nat (List.length l).

(** [range(n)] and [range(a, b)]. *)
Definition range (n : Z) : list Z := map Z.of_nat (seq 0 (Z.to_nat n)).
Definition range2 (a b : Z) : list Z :=
  map (fun k => a + Z.of_nat k) (seq 0 (Z.to_nat (b - a))).

(** List indexing: negative indices count from the end, anything else
    out of range raises IndexError. *)
Definition norm_index {A} (l : list A) (i : Z) : option nat :=
  if (0 <=? i) && (i <? len l) then Some (Z.to_nat i)
  else if (- len l <=? i) && (i <? 0) then Some (Z.to_nat (len l + i))
  else None.

Definition getitem {A} (l : list A) (i : Z) : option A :=
  let? n := norm_index l i in nth_error l n.

Fixpoint replace_nth {A} (n : nat) (v : A) (l : list A) : list A :=
  match l, n with
  | [], _ => []
  | _ :: t, O => v :: t
  | h :: t, S n' => h :: replace_nth n' v t
  end.

Definition setitem {A} (l : list A) (i : Z) (v : A) : option (list A) :=
  let? n := norm_index l i in Some (replace_nth n v l).

(** [a << n]: ValueError on a negative shift count. *)
Definition lshift (a n : Z) : option Z :=
  if n <? 0 then None else Some (Z.shiftl a n).

(** [a % b]: ZeroDivisionError on [b = 0]; the result has the sign of
    [b], as [Z.modulo]. *)
Definition mod_ (a b : Z) : option Z :=
  if b =? 0 then None else Some (a mod b).

(** [bytes(l)]: ValueError unless every element is in [range(256)]. *)
Definition bytes (l : list Z) : option (list Z) :=
  if forallb (fun x => (0 <=? x) && (x <? 256)) l then Some l else None.

(** Truth value of an [int]. *)
Definition truthy (x : Z) : bool := negb (x =? 0).

(** Tuples of two ints compared with [==], and [x in list]. *)
Definition pair_eqb (p q : Z * Z) : bool :=
  (fst p =? fst q) && (snd p =? snd q).
Definition mem (p : Z * Z) (l : list (Z * Z)) : bool := existsb (pair_eqb p) l.

(** [" " * n], [s[i:j]] for [0 <= i], and [s.encode("ascii", "ignore")]. *)
Definition spaces (n : nat) : string := string_of_list_ascii (repeat " "%char n).
Definition slice (s : string) (i j : Z) : string :=
  substring (Z.to_nat i) (Z.to_nat (j - i)) s.
Definition encode_ascii_ignore (s : string) : list Z :=
  map (fun c => Z.of_nat (nat_of_ascii c))
      (filter (fun c => (nat_of_ascii c <? 128)%nat) (list_ascii_of_string s)).

(** [str(n)] and the format [{n:2d}] (right-aligned in width 2). *)
Definition str_int (n : Z) : string := NilZero.string_of_int (Z.to_int n).
Definition fmt_2d (n : Z) : string :=
  let d := str_int n in (spaces (2 - String.length d) ++ d)%string.

(** monadic left fold of a partial step, a [for] loop that may raise *)
Fixpoint foldM {A B} (f : B -> A -> option B) (l : list A) (b : B) : option B :=
  match l with
  | [] => Some b
  | x :: t => let? b' := f b x in foldM f t b'
  end.

End Py.

(** A Python [datetime], as far as the program reads it. *)
Record datetime := mk_datetime {
  year : Z; month : Z; day : Z; hour : Z; minute : Z; second : Z
}.

(** ** class VFD *)

Module VFD.

(** What [log_cb] receives, up to the rendering of the text. *)
Inductive LogLine :=
| LogConnected
| LogOpenError
| LogTX (b : list Z)
| LogNotConnected
| LogDisconnected.

(** [s] is the serial port: [None], or [Some is_open].  [wire] is
    what the port has accepted, oldest first; a write on an open port
    is taken to succeed (the source logs a failed one and goes on). *)
Record t := mk {
  s : option bool;
  wire : list (list Z);
  log : list LogLine
}.

Definition connected (v : t) : bool :=
  match s v with Some true => true | _ => false end.

(** [open(port)]; [ok] tells whether [serial.Serial] could open it. *)
Definition open (ok : bool) (v : t) : t :=
  if ok then v <| s := Some true |> <| log ::= fun l => l ++ [LogConnected] |>
  else v <| log ::= fun l => l ++ [LogOpenError] |>.

Definition close (v : t) : t :=
  match s v with
  | Some _ => v <| s := None |> <| log ::= fun l => l ++ [LogDisconnected] |>
  | None => v
  end.

Definition send (b : list Z) (v : t) : t :=
  if connected v
  then v <| wire ::= fun w => w ++ [b] |> <| log ::= fun l => l ++ [LogTX b] |>
  else v <| log ::= fun l => l ++ [LogNotConnected] |>.

Definition RESET (v : t) : t := send [0x1F] v.

Definition ESC (code : Z) (params : list Z) (v : t) : option t :=
  let? b := Py.bytes ([0x1B; code] ++ params) in Some (send b v).

Definition mode_2line := ESC 0x20 [].
Definition mode_line1 := ESC 0x21 [].
Definition mode_line2 := ESC 0x22 [].
Definition soft_clear := ESC 0x50 [].
Definition pos1 := ESC 0x51 [].

Definition set_brightness (level : Z) (v : t) : option t :=
  let lvl := Z.max 0 (Z.min 5 level) in ESC 0x40 [lvl] v.

Definition write_text (txt : string) (v : t) : t :=
  send (Py.encode_ascii_ignore txt) v.

Definition clock_set (dt : datetime) (v : t) : option t :=
  let m := minute dt in let h := hour dt in let d := day dt in
  let mo := month dt in let y := year dt in
  ESC 0x00 [m; h; d; mo; Z.land (Z.shiftr y 8) 0xFF; Z.land y 0xFF] v.

Definition icon_brightness (sub level : Z) (v : t) : option t :=
  let lvl := Z.max 0 (Z.min 6 level) in
  ESC 0x30 [Z.land sub 0xFF; Z.land lvl 0xFF] v.

Definition icon_bool (sub : Z) (on : bool) (v : t) : option t :=
  ESC 0x30 [Z.land sub 0xFF; if on then 0x01 else 0x00] v.

Definition set_record := icon_bool 0x08.
Definition set_email_white := icon_bool 0x09.
Definition set_email_red := icon_bool 0x0A.

Definition set_volume_level (level : Z) (v : t) : option t :=
  let lvl := Z.max 0 (Z.min 8 level) in
  let? v := Py.foldM (fun v sub => icon_bool sub false v)
              [0x0B; 0x0C; 0x0D; 0x0E; 0x0F; 0x10; 0x11; 0x12] v in
  let bar_ids := [0x0B; 0x0C; 0x0D; 0x0E; 0x0F; 0x10; 0x11] in
  let? v := Py.foldM (fun v i => let? sub := Py.getitem bar_ids i in
                                 icon_bool sub true v)
              (Py.range (Z.min lvl 7)) v in
  icon_bool 0x12 (lvl =? 8) v.

Definition set_wifi_level (level : Z) (v : t) : option t :=
  let lvl := Z.max 0 (Z.min 3 level) in
  let? v := Py.foldM (fun v sub => icon_bool sub false v) [0x15; 0x16; 0x17] v in
  let? v := if 1 <=? lvl then icon_bool 0x15 true v else Some v in
  let? v := if 2 <=? lvl then icon_bool 0x16 true v else Some v in
  if 3 <=? lvl then icon_bool 0x17 true v else Some v.

(** Mini-matrix (ESC 31 + 9 cols).  The device wants the columns right
    to left. *)
Definition mm_send_cols (cols9_left_to_right : list Z) (v : t) : option t :=
  let cols := rev cols9_left_to_right in
  let? b := Py.bytes ([0x1B; 0x31] ++ map (fun c => Z.land c 0x7F) cols) in
  Some (send b v).

Definition mm_clear (v : t) : t := send ([0x1B; 0x31] ++ repeat 0 9) v.

End VFD.

(** ** class App: state *)

(** The methods handed to [after]; a [lambda] closing over its arguments
    carries them. *)
Inductive Callback :=
| cb_clock_text_tick
| cb_clock_sync_tick
| cb_vol_sweep_tick (lvl step : Z)
| cb_wifi_scan_tick (state : Z)
| cb_icon_wave_tick (lvl step : Z)
| cb_marquee_tick
| cb_cylon_tick (pos step : Z)
| cb_spin_tick
| cb_twinkle_tick
| cb_icon_carousel_tick
| cb_icon_pulse_tick
| cb_email_blink_tick
| cb_record_blink_tick
| cb_text_bounce_tick
| cb_rain_tick
| cb_snake_tick
| cb_ball_tick
| cb_stickman_tick
| cb_gol_tick
| cb_clock_bars_tick
| cb_snake_game_tick.

Record Loops := mk_loops {
  loop_clock_text : bool;
  loop_clock_sync : bool;
  loop_vol_sweep : bool;
  loop_wifi_scan : bool;
  loop_icon_wave : bool;
  loop_marquee : bool;
  loop_cylon : bool;
  loop_spin : bool;
  loop_twinkle : bool;
  loop_cpu_meter : bool;
  loop_icon_carousel : bool;
  loop_icon_pulse : bool;
  loop_email_blink : bool;
  loop_record_blink : bool;
  loop_text_bounce : bool;
  loop_mini_rain : bool;
  loop_mini_snake : bool;
  loop_net_meter : bool;
  loop_disk_meter : bool;
  loop_mem_meter : bool;
  loop_ball : bool;
  loop_stickman : bool;
  loop_gol : bool;
  loop_clock_bars : bool;
  loop_snake_game : bool
}.

Record Periods := mk_periods {
  ms_vol_sweep : Z;
  ms_wifi_scan : Z;
  ms_icon_wave : Z;
  ms_marquee : Z;
  ms_cylon : Z;
  ms_spin : Z;
  ms_twinkle : Z;
  ms_icon_carousel : Z;
  ms_icon_pulse : Z;
  ms_email_blink : Z;
  ms_record_blink : Z;
  ms_text_bounce : Z;
  ms_mini_rain : Z;
  ms_mini_snake : Z;
  ms_ball : Z;
  ms_stickman : Z;
  ms_gol : Z;
  ms_clock_bars : Z;
  ms_snake_game : Z
}.

(** What the engine reads from outside: the Tk variables of the entry
    widgets, the wall clock, and the string [strftime] renders for the
    chosen clock format. *)
Record Host := mk_host {
  clock_line : string;
  clock_rendered : string;
  marquee_line : string;
  marquee_text : string;
  bounce_line : string;
  bounce_text : string;
  now : datetime
}.

(** The attributes of [App] the effects use.  [timers] are the pending
    [after] callbacks, oldest first; [rng] is the sequence of raw draws
    the random module will hand out.  An attribute that only a [_start]
    method creates is [None] before. *)
Record App := mk_app {
  vfd : VFD.t;
  timers : list (Z * Callback);
  rng : list Z;
  host : Host;
  loops : Loops;
  ms : Periods;
  _marquee_offset : option Z;
  _spin_state : option Z;
  _spin_frames : option (list (list Z));
  _twinkle_cols : option (list Z);
  _icon_carousel_idx : option Z;
  _icon_pulse_phase : option Z;
  _email_state : option Z;
  _rec_on : option bool;
  _bounce_dir : Z;
  _bounce_pos : Z;
  _snake_idx : Z;
  _rain_drops : list (Z * Z);
  _ball_pos : Z * Z;
  _ball_vel : Z * Z;
  _stick_col : Z;
  _stick_idx : option Z;
  _gol_grid : list (list Z);
  _g_snake : list (Z * Z);
  _g_dir : Z * Z;
  _g_pending : Z * Z;
  _g_food : Z * Z;
  _g_score : Z;
  _g_paused : bool;
  snake_score_lbl : string
}.

(** ** A state monad with exceptions for the methods of [App] *)

Definition M (A : Type) : Type := App -> option (A * App).

Definition ret {A} (a : A) : M A := fun s => Some (a, s).
Definition bind {A B} (m : M A) (k : A -> M B) : M B :=
  fun s => match m s with Some (a, s') => k a s' | None => None end.
Definition get : M App := fun s => Some (s, s).
Definition modify (f : App -> App) : M unit := fun s => Some (tt, f s).
Definition lift {A} (o : option A) : M A :=
  fun s => match o with Some a => Some (a, s) | None => None end.

Notation "x <- m ;; k" := (bind m (fun x => k))
  (at level 61, m at next level, right associativity).
Notation "m ;; k" := (bind m (fun _ => k))
  (at level 61, right associativity).

(** a [for] loop whose body works on [App] *)
Fixpoint forM {A B} (l : list A) (f : B -> A -> M B) (b : B) : M B :=
  match l with
  | [] => ret b
  | x :: t => b' <- f b x ;; forM t f b'
  end.

(** a call of a [VFD] method on [self.vfd] *)
Definition dev (f : VFD.t -> option VFD.t) : M unit :=
  fun s => let? v := f (vfd s) in Some (tt, s <| vfd := v |>).
Definition dev' (f : VFD.t -> VFD.t) : M unit :=
  modify (fun s => s <| vfd ::= f |>).

(** [self.after(ms, cb)] *)
Definition after (delay : Z) (cb : Callback) : M unit :=
  modify (fun s => s <| timers ::= fun t => t ++ [(delay, cb)] |>).

(** *** module random *)

Definition next_raw : M Z :=
  fun s => match rng s with
           | [] => Some (0, s)
           | x :: t => Some (x, s <| rng := t |>)
           end.

(** [random.random()]: a float [k / 2^53] with [0 <= k < 2^53], kept as
    the exact rational it denotes. *)
Definition random_random : M Q :=
  r <- next_raw ;; ret (Qmake (r mod 9007199254740992) 9007199254740992).

Definition randint (a b : Z) : M Z :=
  r <- next_raw ;; ret (a + r mod (b - a + 1)).

Definition choice {A} (l : list A) : M A :=
  r <- next_raw ;;
  i <- lift (Py.mod_ r (Py.len l)) ;;
  lift (Py.getitem l i).

Definition Qltb (a b : Q) : bool := negb (Qle_bool b a).

(** The doubles written [0.35] and [0.3] in the source. *)
Definition _rain_p : Q := Qmake 3152519739159347 9007199254740992.
Definition rand_grid_p : Q := Qmake 5404319552844595 18014398509481984.

(** ** class App: the effects, in the order of the source *)

(** [cols[c] |= (1 << r)] and [cols[c] ^= (1 << r)] *)
Definition or_bit (cols : list Z) (c r : Z) : option (list Z) :=
  let? old := Py.getitem cols c in
  let? b := Py.lshift 1 r in
  Py.setitem cols c (Z.lor old b).
Definition xor_bit (cols : list Z) (c r : Z) : option (list Z) :=
  let? old := Py.getitem cols c in
  let? b := Py.lshift 1 r in
  Py.setitem cols c (Z.lxor old b).

(** [cols = [0]*9; for (r,c) in cells: cols[c] |= (1 << r)], from a
    given [cols] *)
Definition plot (cells : list (Z * Z)) (cols : list Z) : option (list Z) :=
  Py.foldM (fun cols rc => or_bit cols (snd rc) (fst rc)) cells cols.

(** [max(10, int(1000 / max(1, min(60, fps))))]: the float quotient of
    1000 by 1..60 truncates to the integer quotient. *)
Definition _fps_to_ms (fps : Z) : Z := Z.max 10 (1000 / Z.max 1 (Z.min 60 fps)).

Definition select_line (line : string) : M unit :=
  if String.eqb line "0" then dev VFD.mode_line1 else dev VFD.mode_line2.

(** [str.strip()] on the characters a Rocq string has *)
Definition isspace (c : ascii) : bool :=
  let n := nat_of_ascii c in
  ((9 <=? n) && (n <=? 13) || (28 <=? n) && (n <=? 32)
   || (n =? 133) || (n =? 160))%nat.
Fixpoint lstrip (l : list ascii) : list ascii :=
  match l with
  | c :: t => if isspace c then lstrip t else l
  | [] => []
  end.
Definition strip (txt : string) : string :=
  string_of_list_ascii (rev (lstrip (rev (lstrip (list_ascii_of_string txt))))).

(** [_connect]: [port] is what the combo box holds, [ok] whether the
    port can be opened. *)
Definition _connect (port : string) (ok : bool) : M unit :=
  if String.eqb (strip port) "" then ret tt else
  dev' (VFD.open ok) ;; dev' VFD.RESET ;; dev VFD.mode_2line.
Definition _disconnect : M unit := dev' VFD.close.

(** *** Existing fun modes (same logic as v7) *)

Definition _clock_text_tick : M unit :=
  s <- get ;;
  if negb (loop_clock_text (loops s)) then ret tt else
  let txt := clock_rendered (host s) in
  select_line (clock_line (host s)) ;;
  dev VFD.pos1 ;; dev' (VFD.write_text (Py.slice txt 0 16)) ;;
  after 1000 cb_clock_text_tick.
Definition _clock_text_start : M unit :=
  s <- get ;;
  if loop_clock_text (loops s) then ret tt else
  modify (fun s => s <| loops -> loop_clock_text := true |>) ;; _clock_text_tick.
Definition _clock_text_stop : M unit :=
  modify (fun s => s <| loops -> loop_clock_text := false |>).

Definition _clock_sync_tick : M unit :=
  s <- get ;;
  if negb (loop_clock_sync (loops s)) then ret tt else
  dev (VFD.clock_set (now (host s))) ;;
  after 60000 cb_clock_sync_tick.
Definition _clock_sync_start : M unit :=
  s <- get ;;
  if loop_clock_sync (loops s) then ret tt else
  modify (fun s => s <| loops -> loop_clock_sync := true |>) ;; _clock_sync_tick.
Definition _clock_sync_stop : M unit :=
  modify (fun s => s <| loops -> loop_clock_sync := false |>).

(** [nxt = v + step], turned round beyond [hi] and below 0 *)
Definition bounce_next (hi v step : Z) : Z * Z :=
  let nxt := v + step in
  let '(nxt, step) := if hi <? nxt then (hi - 1, -1) else (nxt, step) in
  if nxt <? 0 then (1, 1) else (nxt, step).

Definition _vol_sweep_tick (lvl step : Z) : M unit :=
  s <- get ;;
  if negb (loop_vol_sweep (loops s)) then ret tt else
  dev (VFD.set_volume_level lvl) ;;
  let '(nxt, step) := bounce_next 8 lvl step in
  after (ms_vol_sweep (ms s)) (cb_vol_sweep_tick nxt step).
Definition _vol_sweep_start : M unit :=
  s <- get ;;
  if loop_vol_sweep (loops s) then ret tt else
  modify (fun s => s <| loops -> loop_vol_sweep := true |>) ;; _vol_sweep_tick 0 1.
Definition _vol_sweep_stop : M unit :=
  modify (fun s => s <| loops -> loop_vol_sweep := false |>).

Definition _wifi_scan_tick (state : Z) : M unit :=
  s <- get ;;
  if negb (loop_wifi_scan (loops s)) then ret tt else
  let seq := [0; 1; 2; 3; 2; 1] in
  i <- lift (Py.mod_ state (Py.len seq)) ;;
  lvl <- lift (Py.getitem seq i) ;;
  dev (VFD.set_wifi_level lvl) ;;
  after (ms_wifi_scan (ms s)) (cb_wifi_scan_tick (state + 1)).
Definition _wifi_scan_start : M unit :=
  s <- get ;;
  if loop_wifi_scan (loops s) then ret tt else
  modify (fun s => s <| loops -> loop_wifi_scan := true |>) ;; _wifi_scan_tick 0.
Definition _wifi_scan_stop : M unit :=
  modify (fun s => s <| loops -> loop_wifi_scan := false |>) ;;
  dev (VFD.set_wifi_level 0).

(** [for sub in range(0x00, 0x08): self.vfd.icon_brightness(sub, lvl)] *)
Definition all_icons (lvl : Z) : M unit :=
  dev (Py.foldM (fun v sub => VFD.icon_brightness sub lvl v) (Py.range2 0x00 0x08)).

Definition _icon_wave_tick (lvl step : Z) : M unit :=
  s <- get ;;
  if negb (loop_icon_wave (loops s)) then ret tt else
  all_icons lvl ;;
  let '(nxt, step) := bounce_next 6 lvl step in
  after (ms_icon_wave (ms s)) (cb_icon_wave_tick nxt step).
Definition _icon_wave_start : M unit :=
  s <- get ;;
  if loop_icon_wave (loops s) then ret tt else
  modify (fun s => s <| loops -> loop_icon_wave := true |>) ;; _icon_wave_tick 0 1.
Definition _icon_wave_stop : M unit :=
  modify (fun s => s <| loops -> loop_icon_wave := false |>) ;; all_icons 0.

Definition _marquee_tick : M unit :=
  s <- get ;;
  if negb (loop_marquee (loops s)) then ret tt else
  let raw := marquee_text (host s) in
  let txt := (Py.spaces 16 ++ raw ++ Py.spaces 16)%string in
  off <- lift (_marquee_offset s) ;;
  i <- lift (Py.mod_ off (Z.of_nat (String.length txt) - 15)) ;;
  let chunk := Py.slice txt i (i + 16) in
  select_line (marquee_line (host s)) ;;
  dev VFD.pos1 ;; dev' (VFD.write_text chunk) ;;
  modify (fun s => s <| _marquee_offset := Some (off + 1) |>) ;;
  after (ms_marquee (ms s)) cb_marquee_tick.
Definition _marquee_start : M unit :=
  s <- get ;;
  if loop_marquee (loops s) then ret tt else
  modify (fun s => s <| loops -> loop_marquee := true |>) ;;
  modify (fun s => s <| _marquee_offset := Some 0 |>) ;;
  _marquee_tick.
Definition _marquee_stop : M unit :=
  modify (fun s => s <| loops -> loop_marquee := false |>).

Definition _cylon_tick (pos step : Z) : M unit :=
  s <- get ;;
  if negb (loop_cylon (loops s)) then ret tt else
  let level := Z.min 7 (Z.max 0 (pos + 1)) in
  dev (VFD.set_volume_level level) ;;
  let '(nxt, step) := bounce_next 6 pos step in
  after (ms_cylon (ms s)) (cb_cylon_tick nxt step).
Definition _cylon_start : M unit :=
  s <- get ;;
  if loop_cylon (loops s) then ret tt else
  modify (fun s => s <| loops -> loop_cylon := true |>) ;; _cylon_tick 0 1.
Definition _cylon_stop : M unit :=
  modify (fun s => s <| loops -> loop_cylon := false |>) ;;
  dev (VFD.set_volume_level 0).

Definition spin_frames : list (list Z) :=
  [ [0x00; 0x08; 0x08; 0x08; 0x7F; 0x08; 0x08; 0x08; 0x00];
    [0x00; 0x00; 0x00; 0x7F; 0x08; 0x7F; 0x00; 0x00; 0x00];
    [0x00; 0x10; 0x10; 0x10; 0x7F; 0x10; 0x10; 0x10; 0x00];
    [0x00; 0x00; 0x00; 0x7F; 0x08; 0x7F; 0x00; 0x00; 0x00] ].

Definition _spin_tick : M unit :=
  s <- get ;;
  if negb (loop_spin (loops s)) then ret tt else
  st <- lift (_spin_state s) ;;
  frames <- lift (_spin_frames s) ;;
  i <- lift (Py.mod_ st (Py.len frames)) ;;
  frame <- lift (Py.getitem frames i) ;;
  dev (VFD.mm_send_cols frame) ;;
  modify (fun s => s <| _spin_state := Some (st + 1) |>) ;;
  after (ms_spin (ms s)) cb_spin_tick.
Definition _spin_start : M unit :=
  s <- get ;;
  if loop_spin (loops s) then ret tt else
  modify (fun s => s <| loops -> loop_spin := true |>) ;;
  modify (fun s => s <| _spin_state := Some 0 |>) ;;
  modify (fun s => s <| _spin_frames := Some spin_frames |>) ;;
  _spin_tick.
Definition _spin_stop : M unit :=
  modify (fun s => s <| loops -> loop_spin := false |>) ;; dev' VFD.mm_clear.

Definition _twinkle_tick : M unit :=
  s <- get ;;
  if negb (loop_twinkle (loops s)) then ret tt else
  cols <- lift (_twinkle_cols s) ;;
  cols <- forM (Py.range 3)
            (fun cols _ => c <- randint 0 8 ;; r <- randint 0 6 ;;
                           lift (xor_bit cols c r)) cols ;;
  let cols := map (fun c => Z.land c 0x7F) cols in
  modify (fun s => s <| _twinkle_cols := Some cols |>) ;;
  dev (VFD.mm_send_cols cols) ;;
  after (ms_twinkle (ms s)) cb_twinkle_tick.
Definition _twinkle_start : M unit :=
  s <- get ;;
  if loop_twinkle (loops s) then ret tt else
  modify (fun s => s <| loops -> loop_twinkle := true |>) ;;
  modify (fun s => s <| _twinkle_cols := Some (repeat 0 9) |>) ;;
  _twinkle_tick.
Definition _twinkle_stop : M unit :=
  modify (fun s => s <| loops -> loop_twinkle := false |>) ;; dev' VFD.mm_clear.

Definition _icon_carousel_tick : M unit :=
  s <- get ;;
  if negb (loop_icon_carousel (loops s)) then ret tt else
  idx <- lift (_icon_carousel_idx s) ;;
  let i := idx mod 8 in
  all_icons 0 ;;
  dev (VFD.icon_brightness (0x00 + i) 6) ;;
  modify (fun s => s <| _icon_carousel_idx := Some (idx + 1) |>) ;;
  after (ms_icon_carousel (ms s)) cb_icon_carousel_tick.
Definition _icon_carousel_start : M unit :=
  s <- get ;;
  if loop_icon_carousel (loops s) then ret tt else
  modify (fun s => s <| loops -> loop_icon_carousel := true |>) ;;
  modify (fun s => s <| _icon_carousel_idx := Some 0 |>) ;;
  _icon_carousel_tick.
Definition _icon_carousel_stop : M unit :=
  modify (fun s => s <| loops -> loop_icon_carousel := false |>) ;; all_icons 0.

Definition _icon_pulse_tick : M unit :=
  s <- get ;;
  if negb (loop_icon_pulse (loops s)) then ret tt else
  phase <- lift (_icon_pulse_phase s) ;;
  dev (Py.foldM (fun v i =>
                   let p := (phase + i * 2) mod 12 in
                   let lvl := if p <=? 6 then p else 12 - p in
                   VFD.icon_brightness (0x00 + i) lvl v) (Py.range 8)) ;;
  modify (fun s => s <| _icon_pulse_phase := Some ((phase + 1) mod 12) |>) ;;
  after (ms_icon_pulse (ms s)) cb_icon_pulse_tick.
Definition _icon_pulse_start : M unit :=
  s <- get ;;
  if loop_icon_pulse (loops s) then ret tt else
  modify (fun s => s <| loops -> loop_icon_pulse := true |>) ;;
  modify (fun s => s <| _icon_pulse_phase := Some 0 |>) ;;
  _icon_pulse_tick.
Definition _icon_pulse_stop : M unit :=
  modify (fun s => s <| loops -> loop_icon_pulse := false |>) ;; all_icons 0.

Definition _email_blink_tick : M unit :=
  s <- get ;;
  if negb (loop_email_blink (loops s)) then ret tt else
  state <- lift (_email_state s) ;;
  let st := state mod 4 in
  dev (VFD.set_email_white ((st =? 1) || (st =? 3))) ;;
  dev (VFD.set_email_red ((st =? 2) || (st =? 3))) ;;
  modify (fun s => s <| _email_state := Some (state + 1) |>) ;;
  after (ms_email_blink (ms s)) cb_email_blink_tick.
Definition _email_blink_start : M unit :=
  s <- get ;;
  if loop_email_blink (loops s) then ret tt else
  modify (fun s => s <| loops -> loop_email_blink := true |>) ;;
  modify (fun s => s <| _email_state := Some 0 |>) ;;
  _email_blink_tick.
Definition _email_blink_stop : M unit :=
  modify (fun s => s <| loops -> loop_email_blink := false |>) ;;
  dev (VFD.set_email_white false) ;; dev (VFD.set_email_red false).

Definition _record_blink_tick : M unit :=
  s <- get ;;
  if negb (loop_record_blink (loops s)) then ret tt else
  on <- lift (_rec_on s) ;;
  modify (fun s => s <| _rec_on := Some (negb on) |>) ;;
  dev (VFD.set_record (negb on)) ;;
  after (ms_record_blink (ms s)) cb_record_blink_tick.
Definition _record_blink_start : M unit :=
  s <- get ;;
  if loop_record_blink (loops s) then ret tt else
  modify (fun s => s <| loops -> loop_record_blink := true |>) ;;
  modify (fun s => s <| _rec_on := Some false |>) ;;
  _record_blink_tick.
Definition _record_blink_stop : M unit :=
  modify (fun s => s <| loops -> loop_record_blink := false |>) ;;
  dev (VFD.set_record false).

Definition _text_bounce_tick : M unit :=
  s <- get ;;
  if negb (loop_text_bounce (loops s)) then ret tt else
  let raw := strip (if String.eqb (bounce_text (host s)) "" then " "
                    else bounce_text (host s)) in
  let txt := Py.slice raw 0 16 in
  let width := 16 in
  let n := Z.max 0 (width - Z.of_nat (String.length txt)) in
  let chunk := (Py.spaces (Z.to_nat (_bounce_pos s)) ++ txt
                ++ Py.spaces (Z.to_nat (n - _bounce_pos s)))%string in
  select_line (bounce_line (host s)) ;;
  dev VFD.pos1 ;; dev' (VFD.write_text (Py.slice chunk 0 16)) ;;
  (if 0 <? n then
     modify (fun s => s <| _bounce_pos ::= fun p => p + _bounce_dir s |>) ;;
     modify (fun s => if n <=? _bounce_pos s
                      then s <| _bounce_pos := n |> <| _bounce_dir := -1 |> else s) ;;
     modify (fun s => if _bounce_pos s <=? 0
                      then s <| _bounce_pos := 0 |> <| _bounce_dir := 1 |> else s)
   else ret tt) ;;
  after (ms_text_bounce (ms s)) cb_text_bounce_tick.
Definition _text_bounce_start : M unit :=
  s <- get ;;
  if loop_text_bounce (loops s) then ret tt else
  modify (fun s => s <| loops -> loop_text_bounce := true |>) ;;
  modify (fun s => s <| _bounce_dir := 1 |> <| _bounce_pos := 0 |>) ;;
  _text_bounce_tick.
Definition _text_bounce_stop : M unit :=
  modify (fun s => s <| loops -> loop_text_bounce := false |>).

(** The first loop of [_rain_tick]: every drop one row down, those
    beyond row 6 dropped. *)
Definition rain_advance (drops : list (Z * Z)) : list (Z * Z) :=
  flat_map (fun rc => let r2 := fst rc + 1 in
                      if r2 <=? 6 then [(r2, snd rc)] else []) drops.

Definition _rain_tick : M unit :=
  s <- get ;;
  if negb (loop_mini_rain (loops s)) then ret tt else
  u <- random_random ;;
  (if Qltb u _rain_p then
     c <- randint 0 8 ;;
     modify (fun s => s <| _rain_drops ::= fun d => d ++ [(0, c)] |>)
   else ret tt) ;;
  modify (fun s => s <| _rain_drops ::= rain_advance |>) ;;
  s <- get ;;
  cols <- lift (plot (_rain_drops s) (repeat 0 9)) ;;
  dev (VFD.mm_send_cols cols) ;;
  after (ms_mini_rain (ms s)) cb_rain_tick.
Definition _rain_start : M unit :=
  s <- get ;;
  if loop_mini_rain (loops s) then ret tt else
  modify (fun s => s <| loops -> loop_mini_rain := true |>) ;;
  modify (fun s => s <| _rain_drops := [] |>) ;;
  _rain_tick.
Definition _rain_stop : M unit :=
  modify (fun s => s <| loops -> loop_mini_rain := false |>) ;;
  dev' VFD.mm_clear ;;
  modify (fun s => s <| _rain_drops := [] |>).

(** [[(r,c) for r in range(7) for c in (range(9) if r%2==0 else reversed(range(9)))]] *)
Definition _snake_path : list (Z * Z) :=
  flat_map (fun r => map (fun c => (r, c))
                         (if r mod 2 =? 0 then Py.range 9 else rev (Py.range 9)))
           (Py.range 7).
Definition _snake_len : Z := 10.

Definition _snake_tick : M unit :=
  s <- get ;;
  if negb (loop_mini_snake (loops s)) then ret tt else
  let head_idx := _snake_idx s in
  let tail_idx := Z.max 0 (head_idx - _snake_len) in
  segment <- lift (Py.foldM (fun seg k =>
                      let? i := Py.mod_ k (Py.len _snake_path) in
                      let? rc := Py.getitem _snake_path i in
                      Some (seg ++ [rc]))
                   (Py.range2 tail_idx (head_idx + 1)) []) ;;
  cols <- lift (plot segment (repeat 0 9)) ;;
  dev (VFD.mm_send_cols cols) ;;
  modify (fun s => s <| _snake_idx ::= fun i => i + 1 |>) ;;
  after (ms_mini_snake (ms s)) cb_snake_tick.
Definition _snake_start : M unit :=
  s <- get ;;
  if loop_mini_snake (loops s) then ret tt else
  modify (fun s => s <| loops -> loop_mini_snake := true |>) ;;
  modify (fun s => s <| _snake_idx := 0 |>) ;;
  _snake_tick.
Definition _snake_stop : M unit :=
  modify (fun s => s <| loops -> loop_mini_snake := false |>) ;; dev' VFD.mm_clear.

(** *** Utility (MM stop & helpers) *)

(** stop all modes that write the mini-matrix *)
Definition _stop_all_mm : M unit :=
  modify (fun s => s <| loops -> loop_spin := false |> <| loops -> loop_twinkle := false |>
                     <| loops -> loop_mini_rain := false |>
                     <| loops -> loop_mini_snake := false |>
                     <| loops -> loop_ball := false |> <| loops -> loop_stickman := false |>
                     <| loops -> loop_gol := false |> <| loops -> loop_clock_bars := false |>
                     <| loops -> loop_snake_game := false |>) ;;
  dev' VFD.mm_clear.

(** [[[1 if random.random() < 0.3 else 0 for _ in range(9)] for __ in range(7)]] *)
Definition _rand_grid : M (list (list Z)) :=
  forM (Py.range 7)
       (fun g _ =>
          row <- forM (Py.range 9)
                   (fun row _ => u <- random_random ;;
                                 ret (row ++ [if Qltb u rand_grid_p then 1 else 0]))
                   [] ;;
          ret (g ++ [row]))
       [].

(** [out[r][c] = v] *)
Definition set2 (out : list (list Z)) (r c v : Z) : option (list (list Z)) :=
  let? row := Py.getitem out r in
  let? row' := Py.setitem row c v in
  Py.setitem out r row'.
Definition get2 (g : list (list Z)) (r c : Z) : option Z :=
  let? row := Py.getitem g r in Py.getitem row c.

(** The two inner loops of [_gol_step]: the live neighbours of [(r, c)]. *)
Definition gol_count (g : list (list Z)) (r c : Z) : option Z :=
  Py.foldM (fun n dr =>
    Py.foldM (fun n dc =>
      if (dr =? 0) && (dc =? 0) then Some n else
      let rr := r + dr in let cc := c + dc in
      if (0 <=? rr) && (rr <? 7) && ((0 <=? cc) && (cc <? 9)) then
        let? x := get2 g rr cc in
        Some (if Py.truthy x then n + 1 else n)
      else Some n) [-1; 0; 1] n) [-1; 0; 1] 0.

Definition _gol_step (g : list (list Z)) : option (list (list Z)) :=
  let out := repeat (repeat 0 9) 7 in
  Py.foldM (fun out r =>
    Py.foldM (fun out c =>
      let? n := gol_count g r c in
      let? x := get2 g r c in
      if Py.truthy x && ((n =? 2) || (n =? 3)) then set2 out r c 1
      else if negb (Py.truthy x) && (n =? 3) then set2 out r c 1
      else Some out) (Py.range 9) out) (Py.range 7) out.

(** [[(r,c) for r in range(7) for c in range(9) if (r,c) not in snake]] *)
Definition free_cells (snake : list (Z * Z)) : list (Z * Z) :=
  filter (fun rc => negb (Py.mem rc snake))
         (flat_map (fun r => map (fun c => (r, c)) (Py.range 9)) (Py.range 7)).

Definition _rand_food (snake : list (Z * Z)) : M (Z * Z) :=
  let free := free_cells snake in
  match free with
  | [] => ret (3, 4)
  | _ => choice free
  end.

(** [_build_stickman_frames]: 4 frames; each 9 columns; bit0 = top row *)
Definition center3 (cols3 : list Z) : list Z := repeat 0 3 ++ cols3 ++ repeat 0 3.
Definition _build_stickman_frames : option (list (list Z)) :=
  let body := [16 (* 0b0010000 *); 56 (* 0b0111000 *); 16 (* 0b0010000 *)] in
  let or_at (f : list Z) (i b : Z) : option (list Z) :=
    let? old := Py.getitem f i in Py.setitem f i (Z.lor old b) in
  let? A := or_at (center3 body) 2 8 (* 0b0001000 *) in
  let? A := or_at A 6 32 (* 0b0100000 *) in
  let? B := or_at (center3 body) 2 24 (* 0b0011000 *) in
  let? B := or_at B 5 32 (* 0b0100000 *) in
  let? C := or_at (center3 body) 4 8 (* 0b0001000 *) in
  let? C := or_at C 6 16 (* 0b0010000 *) in
  let? D := or_at (center3 body) 2 32 (* 0b0100000 *) in
  let? D := or_at D 4 8 (* 0b0001000 *) in
  Some [A; B; C; D].
Definition _stick_frames : list (list Z) :=
  match _build_stickman_frames with Some f => f | None => [] end.

(** *** NEW v8 mini-matrix modes *)

Definition _ball_tick : M unit :=
  s <- get ;;
  if negb (loop_ball (loops s)) then ret tt else
  let '(r, c) := _ball_pos s in
  let '(vr, vc) := _ball_vel s in
  let r2 := r + vr in let c2 := c + vc in
  let '(vr, r2) := if (r2 <? 0) || (6 <? r2) then (- vr, r + - vr) else (vr, r2) in
  let '(vc, c2) := if (c2 <? 0) || (8 <? c2) then (- vc, c + - vc) else (vc, c2) in
  modify (fun s => s <| _ball_pos := (r2, c2) |> <| _ball_vel := (vr, vc) |>) ;;
  cols <- lift (or_bit (repeat 0 9) c2 r2) ;;
  dev (VFD.mm_send_cols cols) ;;
  after (ms_ball (ms s)) cb_ball_tick.
Definition _ball_start : M unit :=
  _stop_all_mm ;;
  modify (fun s => s <| loops -> loop_ball := true |>) ;; _ball_tick.
Definition _ball_stop : M unit :=
  modify (fun s => s <| loops -> loop_ball := false |>) ;; dev' VFD.mm_clear.

(** The copying loop of [_stickman_tick]: the frame slid to [stick_col]. *)
Definition stick_cols (frame : list Z) (stick_col : Z) : option (list Z) :=
  Py.foldM (fun cols i =>
              let src := i - (9 - stick_col) in
              if (0 <=? src) && (src <? 9) then
                let? x := Py.getitem frame src in Py.setitem cols i x
              else Some cols) (Py.range 9) (repeat 0 9).

Definition _stickman_tick : M unit :=
  s <- get ;;
  if negb (loop_stickman (loops s)) then ret tt else
  idx <- lift (_stick_idx s) ;;
  k <- lift (Py.mod_ idx (Py.len _stick_frames)) ;;
  frame <- lift (Py.getitem _stick_frames k) ;;
  (* slide from right to left *)
  modify (fun s => s <| _stick_col ::= fun x => x - 1 |>) ;;
  s <- get ;;
  cols <- lift (stick_cols frame (_stick_col s)) ;;
  dev (VFD.mm_send_cols cols) ;;
  (if _stick_col s <=? 0 then
     modify (fun s => s <| _stick_col := 9 |> <| _stick_idx := Some (idx + 1) |>)
   else ret tt) ;;
  after (ms_stickman (ms s)) cb_stickman_tick.
Definition _stickman_start : M unit :=
  _stop_all_mm ;;
  modify (fun s => s <| loops -> loop_stickman := true |>) ;;
  modify (fun s => s <| _stick_col := 9 |> <| _stick_idx := Some 0 |>) ;;
  _stickman_tick.
Definition _stickman_stop : M unit :=
  modify (fun s => s <| loops -> loop_stickman := false |>) ;; dev' VFD.mm_clear.

Definition _gol_randomize : M unit :=
  g <- _rand_grid ;; modify (fun s => s <| _gol_grid := g |>).
(** The two drawing loops of [_gol_tick]: the columns for a grid. *)
Definition gol_cols (g : list (list Z)) : option (list Z) :=
  Py.foldM (fun cols r =>
    Py.foldM (fun cols c =>
      let? x := get2 g r c in
      if Py.truthy x then or_bit cols c r else Some cols)
    (Py.range 9) cols) (Py.range 7) (repeat 0 9).

Definition _gol_tick : M unit :=
  s <- get ;;
  if negb (loop_gol (loops s)) then ret tt else
  cols <- lift (gol_cols (_gol_grid s)) ;;
  dev (VFD.mm_send_cols cols) ;;
  g <- lift (_gol_step (_gol_grid s)) ;;
  modify (fun s => s <| _gol_grid := g |>) ;;
  after (ms_gol (ms s)) cb_gol_tick.
Definition _gol_start : M unit :=
  _stop_all_mm ;;
  modify (fun s => s <| loops -> loop_gol := true |>) ;; _gol_tick.
Definition _gol_stop : M unit :=
  modify (fun s => s <| loops -> loop_gol := false |>) ;; dev' VFD.mm_clear.

(** [bars(val, maxval)]: [h = int(round((val/maxval)*7))].  For
    [0 <= val <= maxval] and [maxval] 23 or 59 the quotient is never
    half-way between two integers, so rounding the double is rounding the
    rational. *)
Definition bars (val maxval : Z) : option (list Z) :=
  let h := (14 * val + maxval) / (2 * maxval) in
  let? col := Py.foldM (fun col i => let? b := Py.lshift 1 i in Some (Z.lor col b))
                (Py.range h) 0 in
  Some (repeat col 3).
Definition _clock_bars_tick : M unit :=
  s <- get ;;
  if negb (loop_clock_bars (loops s)) then ret tt else
  let t := now (host s) in
  bh <- lift (bars (hour t) 23) ;;
  bm <- lift (bars (minute t) 59) ;;
  bs <- lift (bars (second t) 59) ;;
  let cols := bh ++ bm ++ bs in
  dev (VFD.mm_send_cols (firstn 9 cols)) ;;
  after (ms_clock_bars (ms s)) cb_clock_bars_tick.
Definition _clock_bars_start : M unit :=
  _stop_all_mm ;;
  modify (fun s => s <| loops -> loop_clock_bars := true |>) ;; _clock_bars_tick.
Definition _clock_bars_stop : M unit :=
  modify (fun s => s <| loops -> loop_clock_bars := false |>) ;; dev' VFD.mm_clear.

(** *** Playable Snake Game *)

Definition _show_snake_score : M unit :=
  s <- get ;;
  modify (fun s => s <| snake_score_lbl := ("Score: " ++ Py.str_int (_g_score s))%string |>) ;;
  dev VFD.mode_line1 ;; dev VFD.pos1 ;;
  dev' (VFD.write_text (Py.slice ("SNAKE SCORE:" ++ Py.fmt_2d (_g_score s))%string 0 16)) ;;
  dev VFD.mode_line2 ;; dev VFD.pos1 ;;
  dev' (VFD.write_text (Py.slice "Arrows / D-pad   " 0 16)).

Definition _status_text (txt : string) : M unit :=
  dev VFD.mode_line2 ;; dev VFD.pos1 ;;
  dev' (VFD.write_text (Py.slice (txt ++ Py.spaces 16)%string 0 16)).

Definition pop {A} (l : list A) : option (list A) :=
  match l with [] => None | _ => Some (removelast l) end.

Definition _snake_game_tick : M unit :=
  s <- get ;;
  if negb (loop_snake_game (loops s)) then ret tt else
  if negb (_g_paused s) then
    modify (fun s => s <| _g_dir := _g_pending s |>) ;;
    s <- get ;;
    head <- lift (Py.getitem (_g_snake s) 0) ;;
    let nr := fst head + fst (_g_dir s) in
    let nc := snd head + snd (_g_dir s) in
    (* wall collision -> game over *)
    if negb ((0 <=? nr) && (nr <=? 6) && ((0 <=? nc) && (nc <=? 8)))
       || Py.mem (nr, nc) (_g_snake s)
    then
      _status_text "Game Over!" ;;
      modify (fun s => s <| loops -> loop_snake_game := false |>)
      (* return *)
    else
      let new_head := (nr, nc) in
      modify (fun s => s <| _g_snake ::= fun l => new_head :: l |>) ;;
      (if Py.pair_eqb new_head (_g_food s) then
         modify (fun s => s <| _g_score ::= fun n => n + 1 |>) ;;
         s <- get ;;
         food <- _rand_food (_g_snake s) ;;
         modify (fun s => s <| _g_food := food |>) ;;
         _show_snake_score
       else
         s <- get ;;
         l <- lift (pop (_g_snake s)) ;;
         modify (fun s => s <| _g_snake := l |>)) ;;
      s <- get ;;
      (* draw food, then snake *)
      cols <- lift (or_bit (repeat 0 9) (snd (_g_food s)) (fst (_g_food s))) ;;
      cols <- lift (plot (_g_snake s) cols) ;;
      dev (VFD.mm_send_cols cols) ;;
      s <- get ;;
      after (ms_snake_game (ms s)) cb_snake_game_tick
  else
    after (ms_snake_game (ms s)) cb_snake_game_tick.

Definition _snake_game_start : M unit :=
  _stop_all_mm ;;
  modify (fun s => s <| loops -> loop_snake_game := true |>) ;;
  modify (fun s => s <| _g_paused := false |>) ;;
  _show_snake_score ;;
  _snake_game_tick.

Definition _snake_game_toggle_pause : M unit :=
  s <- get ;;
  if negb (loop_snake_game (loops s)) then ret tt else
  modify (fun s => s <| _g_paused ::= negb |>) ;;
  s <- get ;;
  _status_text (if _g_paused s then "Paused" else "Running").

Definition _snake_game_reset : M unit :=
  modify (fun s => s <| _g_snake := [(3, 2); (3, 1); (3, 0)] |>) ;;
  modify (fun s => s <| _g_dir := (0, 1) |> <| _g_pending := (0, 1) |>) ;;
  s <- get ;;
  food <- _rand_food (_g_snake s) ;;
  modify (fun s => s <| _g_food := food |>) ;;
  modify (fun s => s <| _g_score := 0 |>) ;;
  _show_snake_score ;;
  dev' VFD.mm_clear.

Definition _set_snake_game_fps (fps : Z) : M unit :=
  modify (fun s => s <| ms -> ms_snake_game := _fps_to_ms fps |>).

Definition _snake_key (dr dc : Z) : M unit :=
  s <- get ;;
  (* ignore reverse direction *)
  let '(pr, pc) := _g_dir s in
  if Py.pair_eqb (dr, dc) (- pr, - pc) then ret tt else
  modify (fun s => s <| _g_pending := (dr, dc) |>).

(** ** The effects by name, the Tk event loop *)

Inductive Effect :=
| clock_text | clock_sync | vol_sweep | wifi_scan | icon_wave | marquee
| cylon | spin | twinkle | icon_carousel | icon_pulse | email_blink
| record_blink | text_bounce | mini_rain | mini_snake
| ball | stickman | gol | clock_bars | snake_game.

Definition enabled (e : Effect) (s : App) : bool :=
  let l := loops s in
  match e with
  | clock_text => loop_clock_text l
  | clock_sync => loop_clock_sync l
  | vol_sweep => loop_vol_sweep l
  | wifi_scan => loop_wifi_scan l
  | icon_wave => loop_icon_wave l
  | marquee => loop_marquee l
  | cylon => loop_cylon l
  | spin => loop_spin l
  | twinkle => loop_twinkle l
  | icon_carousel => loop_icon_carousel l
  | icon_pulse => loop_icon_pulse l
  | email_blink => loop_email_blink l
  | record_blink => loop_record_blink l
  | text_bounce => loop_text_bounce l
  | mini_rain => loop_mini_rain l
  | mini_snake => loop_mini_snake l
  | ball => loop_ball l
  | stickman => loop_stickman l
  | gol => loop_gol l
  | clock_bars => loop_clock_bars l
  | snake_game => loop_snake_game l
  end.

Definition start (e : Effect) : M unit :=
  match e with
  | clock_text => _clock_text_start
  | clock_sync => _clock_sync_start
  | vol_sweep => _vol_sweep_start
  | wifi_scan => _wifi_scan_start
  | icon_wave => _icon_wave_start
  | marquee => _marquee_start
  | cylon => _cylon_start
  | spin => _spin_start
  | twinkle => _twinkle_start
  | icon_carousel => _icon_carousel_start
  | icon_pulse => _icon_pulse_start
  | email_blink => _email_blink_start
  | record_blink => _record_blink_start
  | text_bounce => _text_bounce_start
  | mini_rain => _rain_start
  | mini_snake => _snake_start
  | ball => _ball_start
  | stickman => _stickman_start
  | gol => _gol_start
  | clock_bars => _clock_bars_start
  | snake_game => _snake_game_start
  end.

(** The game has no stop method: it ends by Game Over or by another
    mini-matrix mode starting. *)
Definition stop (e : Effect) : M unit :=
  match e with
  | clock_text => _clock_text_stop
  | clock_sync => _clock_sync_stop
  | vol_sweep => _vol_sweep_stop
  | wifi_scan => _wifi_scan_stop
  | icon_wave => _icon_wave_stop
  | marquee => _marquee_stop
  | cylon => _cylon_stop
  | spin => _spin_stop
  | twinkle => _twinkle_stop
  | icon_carousel => _icon_carousel_stop
  | icon_pulse => _icon_pulse_stop
  | email_blink => _email_blink_stop
  | record_blink => _record_blink_stop
  | text_bounce => _text_bounce_stop
  | mini_rain => _rain_stop
  | mini_snake => _snake_stop
  | ball => _ball_stop
  | stickman => _stickman_stop
  | gol => _gol_stop
  | clock_bars => _clock_bars_stop
  | snake_game => ret tt
  end.


Definition run_callback (cb : Callback) : M unit :=
  match cb with
  | cb_clock_text_tick => _clock_text_tick
  | cb_clock_sync_tick => _clock_sync_tick
  | cb_vol_sweep_tick lvl step => _vol_sweep_tick lvl step
  | cb_wifi_scan_tick state => _wifi_scan_tick state
  | cb_icon_wave_tick lvl step => _icon_wave_tick lvl step
  | cb_marquee_tick => _marquee_tick
  | cb_cylon_tick pos step => _cylon_tick pos step
  | cb_spin_tick => _spin_tick
  | cb_twinkle_tick => _twinkle_tick
  | cb_icon_carousel_tick => _icon_carousel_tick
  | cb_icon_pulse_tick => _icon_pulse_tick
  | cb_email_blink_tick => _email_blink_tick
  | cb_record_blink_tick => _record_blink_tick
  | cb_text_bounce_tick => _text_bounce_tick
  | cb_rain_tick => _rain_tick
  | cb_snake_tick => _snake_tick
  | cb_ball_tick => _ball_tick
  | cb_stickman_tick => _stickman_tick
  | cb_gol_tick => _gol_tick
  | cb_clock_bars_tick => _clock_bars_tick
  | cb_snake_game_tick => _snake_game_tick
  end.

Definition Callback_eq_dec (a b : Callback) : {a = b} + {a <> b}.
Proof. decide equality; apply Z.eq_dec. Defined.

(** the first pending timer for [cb] taken out of the list *)
Fixpoint take_timer (cb : Callback) (t : list (Z * Callback))
  : option (list (Z * Callback)) :=
  match t with
  | [] => None
  | (d, cb') :: t' =>
      if Callback_eq_dec cb cb' then Some t'
      else let? r := take_timer cb t' in Some ((d, cb') :: r)
  end.

(** A pending [after] callback comes due: Tk removes it and calls it. *)
Definition fire (cb : Callback) : M unit :=
  s <- get ;;
  match take_timer cb (timers s) with
  | Some t' => modify (fun s => s <| timers := t' |>) ;; run_callback cb
  | None => ret tt
  end.

(** The four arrow keys, and the D-pad buttons, as bound in the source. *)
Inductive Key := key_left | key_right | key_up | key_down.
Definition key_dir (k : Key) : Z * Z :=
  match k with
  | key_left => (- 0, -1)
  | key_right => (0, 1)
  | key_up => (-1, 0)
  | key_down => (1, 0)
  end.

Inductive Event :=
| ev_connect (port : string) (ok : bool)
| ev_disconnect
| ev_start (e : Effect)
| ev_stop (e : Effect)
| ev_key (k : Key)
| ev_pause
| ev_reset
| ev_gol_randomize
| ev_timer (cb : Callback).

Definition handle (ev : Event) : M unit :=
  match ev with
  | ev_connect port ok => _connect port ok
  | ev_disconnect => _disconnect
  | ev_start e => start e
  | ev_stop e => stop e
  | ev_key k => _snake_key (fst (key_dir k)) (snd (key_dir k))
  | ev_pause => _snake_game_toggle_pause
  | ev_reset => _snake_game_reset
  | ev_gol_randomize => _gol_randomize
  | ev_timer cb => fire cb
  end.

Fixpoint run (evs : list Event) (s : App) : option App :=
  match evs with
  | [] => Some s
  | ev :: rest => let? r := handle ev s in run rest (snd r)
  end.

(** [App.__init__], as far as the effects are concerned: the attributes
    as assigned before the two random draws, then the random grid and
    the first food. *)
Definition init_fields (h : Host) (draws : list Z) : App :=
  {|
    vfd := VFD.mk None [] [];
    timers := [];
    rng := draws;
    host := h;
    loops := mk_loops false false false false false false false false false
                      false false false false false false false false false
                      false false false false false false false;
    ms := {| ms_vol_sweep := 120; ms_wifi_scan := 160; ms_icon_wave := 140;
             ms_marquee := 120; ms_cylon := 120; ms_spin := 120;
             ms_twinkle := 100; ms_icon_carousel := 160; ms_icon_pulse := 120;
             ms_email_blink := 300; ms_record_blink := 350;
             ms_text_bounce := 120; ms_mini_rain := 120; ms_mini_snake := 140;
             ms_ball := 100; ms_stickman := 120; ms_gol := 200;
             ms_clock_bars := 500; ms_snake_game := 140 |};
    _marquee_offset := None; _spin_state := None; _spin_frames := None;
    _twinkle_cols := None; _icon_carousel_idx := None;
    _icon_pulse_phase := None; _email_state := None; _rec_on := None;
    _bounce_dir := 1; _bounce_pos := 0; _snake_idx := 0; _rain_drops := [];
    _ball_pos := (3, 4); _ball_vel := (1, 1);
    _stick_col := -3; _stick_idx := None;
    _gol_grid := [];
    _g_snake := [(3, 2); (3, 1); (3, 0)];
    _g_dir := (0, 1); _g_pending := (0, 1);
    _g_food := (0, 0); _g_score := 0; _g_paused := false;
    snake_score_lbl := "Score: 0"
  |}.

Definition __init__ (h : Host) (draws : list Z) : option App :=
  let? r := (g <- _rand_grid ;;
             modify (fun s => s <| _gol_grid := g |>) ;;
             s <- get ;;
             food <- _rand_food (_g_snake s) ;;
             modify (fun s => s <| _g_food := food |>)) (init_fields h draws) in
  Some (snd r).

(** ** Spec-side notions used in the statements *)

(** Decoding the six parameter bytes of a clock-set command, the year
    recombined big-endian. *)
Definition clock_decode (b : list Z) : option datetime :=
  match b with
  | [m; h; d; mo; yhi; ylo] => Some (mk_datetime (yhi * 256 + ylo) mo d h m 0)
  | _ => None
  end.

(** A [datetime] as Python builds them. *)
Definition valid_datetime (dt : datetime) : Prop :=
  1 <= year dt <= 9999 /\ 1 <= month dt <= 12 /\ 1 <= day dt <= 31 /\
  0 <= hour dt <= 23 /\ 0 <= minute dt <= 59 /\ 0 <= second dt <= 59.

(** The bytes of a mini-matrix frame for the logical columns [cols]. *)
Definition mm_frame (cols : list Z) : list Z :=
  [0x1B; 0x31] ++ map (fun c => Z.land c 0x7F) (rev cols).

(** A Game-of-Life grid: 7 rows of 9 cells; [cell] reads one. *)
Definition is_grid (g : list (list Z)) : Prop :=
  List.length g = 7%nat /\ Forall (fun row => List.length row = 9%nat) g.
Definition cell (g : list (list Z)) (r c : Z) : Z :=
  nth (Z.to_nat c) (nth (Z.to_nat r) g []) 0.
Definition alive (g : list (list Z)) (r c : Z) : bool := Py.truthy (cell g r c).
Definition in_grid (r c : Z) : bool :=
  (0 <=? r) && (r <? 7) && ((0 <=? c) && (c <? 9)).

(** Conway's rule on the bounded grid, as the specification words it:
    the Moore neighbourhood is the up to 8 cells around [(r, c)] that
    lie on the grid. *)
Definition moore (r c : Z) : list (Z * Z) :=
  filter (fun p => in_grid (fst p) (snd p))
         [(r - 1, c - 1); (r - 1, c); (r - 1, c + 1);
          (r, c - 1); (r, c + 1);
          (r + 1, c - 1); (r + 1, c); (r + 1, c + 1)].
Definition live_neighbours (g : list (list Z)) (r c : Z) : Z :=
  Z.of_nat (List.length (filter (fun p => alive g (fst p) (snd p)) (moore r c))).
Definition conway (g : list (list Z)) (r c : Z) : Z :=
  let n := live_neighbours g r c in
  if alive g r c then (if (n =? 2) || (n =? 3) then 1 else 0)
  else (if n =? 3 then 1 else 0).

(** [out[r][c] = v] on a grid, without the range checks *)
Definition upd2 (out : list (list Z)) (r c v : Z) : list (list Z) :=
  Py.replace_nth (Z.to_nat r)
    (Py.replace_nth (Z.to_nat c) v (nth (Z.to_nat r) out [])) out.

Definition gol_block : list (list Z) :=
  [ [0; 0; 0; 0; 0; 0; 0; 0; 0];
    [0; 0; 0; 1; 1; 0; 0; 0; 0];
    [0; 0; 0; 1; 1; 0; 0; 0; 0];
    [0; 0; 0; 0; 0; 0; 0; 0; 0];
    [0; 0; 0; 0; 0; 0; 0; 0; 0];
    [0; 0; 0; 0; 0; 0; 0; 0; 0];
    [0; 0; 0; 0; 0; 0; 0; 0; 0] ].
Definition gol_blinker_h : list (list Z) :=
  [ [0; 0; 0; 0; 0; 0; 0; 0; 0];
    [0; 0; 0; 0; 0; 0; 0; 0; 0];
    [0; 0; 0; 1; 1; 1; 0; 0; 0];
    [0; 0; 0; 0; 0; 0; 0; 0; 0];
    [0; 0; 0; 0; 0; 0; 0; 0; 0];
    [0; 0; 0; 0; 0; 0; 0; 0; 0];
    [0; 0; 0; 0; 0; 0; 0; 0; 0] ].
Definition gol_blinker_v : list (list Z) :=
  [ [0; 0; 0; 0; 0; 0; 0; 0; 0];
    [0; 0; 0; 0; 1; 0; 0; 0; 0];
    [0; 0; 0; 0; 1; 0; 0; 0; 0];
    [0; 0; 0; 0; 1; 0; 0; 0; 0];
    [0; 0; 0; 0; 0; 0; 0; 0; 0];
    [0; 0; 0; 0; 0; 0; 0; 0; 0];
    [0; 0; 0; 0; 0; 0; 0; 0; 0] ].

(** ** The snake game: notions used in the statements *)

Definition in_bounds (p : Z * Z) : bool :=
  (0 <=? fst p) && (fst p <=? 6) && ((0 <=? snd p) && (snd p <=? 8)).

(** What every tick relies on: a non-empty snake on the grid, food on
    the grid. *)
Definition game_wf (s : App) : Prop :=
  _g_snake s <> [] /\
  Forall (fun p => in_bounds p = true) (_g_snake s) /\
  in_bounds (_g_food s) = true.

Definition neg_dir (d : Z * Z) : Z * Z := (- fst d, - snd d).
Definition is_dir (d : Z * Z) : Prop :=
  d = (0, -1) \/ d = (0, 1) \/ d = (-1, 0) \/ d = (1, 0).

(** The cell the head moves to on a tick that applies the pending
    direction. *)
Definition next_head (s : App) : Z * Z :=
  match _g_snake s with
  | hd :: _ => (fst hd + fst (_g_pending s), snd hd + snd (_g_pending s))
  | [] => (0, 0)
  end.
Definition collides (s : App) : bool :=
  negb (in_bounds (next_head s)) || Py.mem (next_head s) (_g_snake s).

(** What [_status_text("Game Over!")] sends. *)
Definition game_over_sends (v : VFD.t) : VFD.t :=
  VFD.send (Py.encode_ascii_ignore "Game Over!      ")
    (VFD.send [0x1B; 0x51] (VFD.send [0x1B; 0x22] v)).

(** What [_show_snake_score] sends for a score. *)
Definition score_sends (score : Z) (v : VFD.t) : VFD.t :=
  VFD.send (Py.encode_ascii_ignore "Arrows / D-pad  ")
    (VFD.send [0x1B; 0x51] (VFD.send [0x1B; 0x22]
      (VFD.send (Py.encode_ascii_ignore
                   (Py.slice ("SNAKE SCORE:" ++ Py.fmt_2d score)%string 0 16))
        (VFD.send [0x1B; 0x51] (VFD.send [0x1B; 0x21] v))))).

Definition mm_clear_frame : list Z := [0x1B; 0x31; 0; 0; 0; 0; 0; 0; 0; 0; 0].

(** The events of a game: the arrow keys, Start, Pause/Resume, Reset and
    the game's timer coming due. *)
Definition game_event (ev : Event) : Prop :=
  match ev with
  | ev_key _ | ev_pause | ev_reset | ev_start snake_game
  | ev_timer cb_snake_game_tick => True
  | _ => False
  end.

Definition on_grid (p : Z * Z) : Prop := 0 <= fst p <= 6 /\ 0 <= snd p <= 8.

Definition same_game (s s' : App) : Prop :=
  _g_snake s' = _g_snake s /\ _g_dir s' = _g_dir s /\
  _g_pending s' = _g_pending s /\ _g_food s' = _g_food s /\
  _g_score s' = _g_score s.

(** What one call of [_snake_game_tick] does to the game: nothing (the
    game is off or paused), Game Over, a move, or a move that eats. *)
Inductive tick_rel (s s' : App) : Prop :=
| tick_idle : same_game s s' -> tick_rel s s'
| tick_over :
    collides s = true ->
    _g_snake s' = _g_snake s -> _g_dir s' = _g_pending s ->
    _g_pending s' = _g_pending s -> _g_food s' = _g_food s ->
    _g_score s' = _g_score s -> tick_rel s s'
| tick_move :
    collides s = false -> next_head s <> _g_food s ->
    _g_snake s' = next_head s :: removelast (_g_snake s) ->
    _g_dir s' = _g_pending s -> _g_pending s' = _g_pending s ->
    _g_food s' = _g_food s -> _g_score s' = _g_score s -> tick_rel s s'
| tick_eat :
    collides s = false -> next_head s = _g_food s ->
    _g_snake s' = next_head s :: _g_snake s ->
    _g_dir s' = _g_pending s -> _g_pending s' = _g_pending s ->
    in_bounds (_g_food s') = true ->
    (free_cells (_g_snake s') <> [] -> In (_g_food s') (free_cells (_g_snake s'))) ->
    (free_cells (_g_snake s') = [] -> _g_food s' = (3, 4)) ->
    _g_score s' = _g_score s + 1 -> tick_rel s s'.

(** The direction discipline, and the food kept off the snake while a
    cell is free. *)
Definition dir_inv (s : App) : Prop :=
  is_dir (_g_dir s) /\ is_dir (_g_pending s) /\
  _g_pending s <> neg_dir (_g_dir s).
Definition food_inv (s : App) : Prop :=
  free_cells (_g_snake s) <> [] -> ~ In (_g_food s) (_g_snake s).

(** Along a run: after every event the stored pending direction is not
    the reverse of the current one, and no event other than Reset (which
    starts a new game) turns the current direction into its reverse. *)
Fixpoint never_reverses (evs : list Event) (s : App) : Prop :=
  match evs with
  | [] => True
  | ev :: rest =>
      exists s', handle ev s = Some (tt, s') /\
                 _g_pending s' <> neg_dir (_g_dir s') /\
                 (ev <> ev_reset -> _g_dir s' <> neg_dir (_g_dir s)) /\
                 (_g_dir s' = _g_dir s \/ _g_dir s' = _g_pending s \/ ev = ev_reset) /\
                 never_reverses rest s'
  end.

(** A host to run examples on, and a game in progress. *)
Definition demo_host : Host :=
  mk_host "0" "12:30:45" "0" "HELLO" "1" "HI" (mk_datetime 2026 11 3 12 30 45).
Definition demo_connected (h : Host) (draws : list Z) : App :=
  (init_fields h draws) <| vfd := VFD.mk (Some true) [] [] |>
                        <| _gol_grid := gol_block |> <| _g_food := (3, 4) |>.
Definition demo_game : App :=
  (demo_connected demo_host []) <| loops -> loop_snake_game := true |>.

(** A game that fills the grid: the snake is steered along a path
    through all 63 cells and the food always lands on the next cell of
    the path.  [full_grid_draws] are the raw draws: 63 for the random
    grid of [__init__], then the index of each food cell among the free
    cells. *)
Definition full_grid_draws : list Z :=
  repeat 0 63 ++
  [
    28; 28; 28; 28; 28; 26; 17; 8; 7; 6; 5; 4; 3; 2; 1; 0;
    0; 0; 0; 0; 0; 0; 0; 0; 7; 6; 5; 4; 3; 2; 1; 0;
    0; 0; 0; 0; 0; 0; 0; 0; 0; 0; 8; 7; 6; 5; 4; 3;
    2; 1; 0; 0; 0; 0; 0; 0; 0; 0; 0; 0
  ].
Definition full_grid_events : list Event :=
  [
    ev_start snake_game; ev_timer cb_snake_game_tick;
    ev_timer cb_snake_game_tick; ev_timer cb_snake_game_tick;
    ev_timer cb_snake_game_tick; ev_timer cb_snake_game_tick;
    ev_key key_up; ev_timer cb_snake_game_tick;
    ev_timer cb_snake_game_tick; ev_timer cb_snake_game_tick;
    ev_key key_left; ev_timer cb_snake_game_tick;
    ev_timer cb_snake_game_tick; ev_timer cb_snake_game_tick;
    ev_timer cb_snake_game_tick; ev_timer cb_snake_game_tick;
    ev_timer cb_snake_game_tick; ev_timer cb_snake_game_tick;
    ev_timer cb_snake_game_tick; ev_key key_down;
    ev_timer cb_snake_game_tick; ev_key key_right;
    ev_timer cb_snake_game_tick; ev_timer cb_snake_game_tick;
    ev_timer cb_snake_game_tick; ev_timer cb_snake_game_tick;
    ev_timer cb_snake_game_tick; ev_timer cb_snake_game_tick;
    ev_timer cb_snake_game_tick; ev_key key_down;
    ev_timer cb_snake_game_tick; ev_key key_left;
    ev_timer cb_snake_game_tick; ev_timer cb_snake_game_tick;
    ev_timer cb_snake_game_tick; ev_timer cb_snake_game_tick;
    ev_timer cb_snake_game_tick; ev_timer cb_snake_game_tick;
    ev_timer cb_snake_game_tick; ev_key key_down;
    ev_timer cb_snake_game_tick; ev_timer cb_snake_game_tick;
    ev_key key_right; ev_timer cb_snake_game_tick;
    ev_timer cb_snake_game_tick; ev_timer cb_snake_game_tick;
    ev_timer cb_snake_game_tick; ev_timer cb_snake_game_tick;
    ev_timer cb_snake_game_tick; ev_timer cb_snake_game_tick;
    ev_timer cb_snake_game_tick; ev_key key_down;
    ev_timer cb_snake_game_tick; ev_key key_left;
    ev_timer cb_snake_game_tick; ev_timer cb_snake_game_tick;
    ev_timer cb_snake_game_tick; ev_timer cb_snake_game_tick;
    ev_timer cb_snake_game_tick; ev_timer cb_snake_game_tick;
    ev_timer cb_snake_game_tick; ev_timer cb_snake_game_tick;
    ev_key key_down; ev_timer cb_snake_game_tick;
    ev_key key_right; ev_timer cb_snake_game_tick;
    ev_timer cb_snake_game_tick; ev_timer cb_snake_game_tick;
    ev_timer cb_snake_game_tick; ev_timer cb_snake_game_tick;
    ev_timer cb_snake_game_tick; ev_timer cb_snake_game_tick;
    ev_timer cb_snake_game_tick
  ].

Definition game_inv (s : App) : Prop := game_wf s /\ dir_inv s /\ food_inv s.

(** The 63 cells of the mini-matrix, row by row. *)
Definition all_cells : list (Z * Z) :=
  flat_map (fun r => map (fun c => (r, c)) (Py.range 9)) (Py.range 7).
Definition cell_eq_dec (p q : Z * Z) : {p = q} + {p <> q}.
Proof. decide equality; apply Z.eq_dec. Defined.

(** The claim that the food never lies on the snake, over all runs of
    game events from a fresh [App]. *)
Definition food_never_on_snake : Prop :=
  forall h draws evs s0 s,
    __init__ h draws = Some s0 -> Forall game_event evs ->
    run evs s0 = Some s -> ~ In (_g_food s) (_g_snake s).

(** ** Rain: notions used in the statements *)

(** The drop a tick spawns, if any: one at row 0 of a drawn column when
    [random.random() < self._rain_p]. *)
Definition rain_spawn (s : App) : list (Z * Z) :=
  match random_random s with
  | Some (u, s1) =>
      if Qltb u _rain_p then
        match randint 0 8 s1 with
        | Some (c, _) => [(0, c)]
        | None => []
        end
      else []
  | None => []
  end.

(** The dot at row [r], column [c] of a mini-matrix frame on the wire:
    column [c] travels in byte [2 + (8 - c)], row [r] is bit [r]. *)
Definition frame_bit (frame : list Z) (r c : Z) : bool :=
  Z.testbit (nth (Z.to_nat (10 - c)) frame 0) r.

(** The claim that a drop spawned on a tick shows at row 0 of the frame
    of that tick. *)
Definition rain_spawn_shows_at_row_0 : Prop :=
  forall s s' c,
    enabled mini_rain s = true -> VFD.connected (vfd s) = true ->
    Forall (fun p => in_bounds p = true) (_rain_drops s) ->
    _rain_tick s = Some (tt, s') -> In (0, c) (rain_spawn s) ->
    frame_bit (last (VFD.wire (vfd s')) []) 0 c = true.

Definition demo_rain : App :=
  (demo_connected demo_host [0; 4]) <| loops -> loop_mini_rain := true |>.

(** ** Starting an effect: notions used in the statements *)

Definition ball_wf (s : App) : Prop :=
  in_bounds (_ball_pos s) = true /\
  (fst (_ball_vel s) = 1 \/ fst (_ball_vel s) = -1) /\
  (snd (_ball_vel s) = 1 \/ snd (_ball_vel s) = -1).

(** What the ticks of the v8 mini-matrix modes rely on. *)
Definition mm_wf (s : App) : Prop :=
  ball_wf s /\ is_grid (_gol_grid s) /\ game_wf s.



(** Starting [e] while it is enabled does nothing at all. *)
Definition start_idempotent (e : Effect) : Prop :=
  forall s, enabled e s = true -> start e s = Some (tt, s).

(** The modes of the v8 version, which stop the others on start, and the
    modes kept from v7, whose start is guarded by the enabled flag. *)
Definition v8_modes : list Effect := [ball; stickman; gol; clock_bars; snake_game].
Definition v7_modes : list Effect :=
  [clock_text; clock_sync; vol_sweep; wifi_scan; icon_wave; marquee; cylon;
   spin; twinkle; icon_carousel; icon_pulse; email_blink; record_blink;
   text_bounce; mini_rain; mini_snake].

(** The state [_snake_game_start] calls the first tick in. *)
Definition snake_start_state (s : App) : App :=
  s <| loops -> loop_spin := false |> <| loops -> loop_twinkle := false |>
    <| loops -> loop_mini_rain := false |> <| loops -> loop_mini_snake := false |>
    <| loops -> loop_ball := false |> <| loops -> loop_stickman := false |>
    <| loops -> loop_gol := false |> <| loops -> loop_clock_bars := false |>
    <| loops -> loop_snake_game := true |>
    <| _g_paused := false |>
    <| snake_score_lbl := ("Score: " ++ Py.str_int (_g_score s))%string |>
    <| vfd := score_sends (_g_score s) (VFD.mm_clear (vfd s)) |>.

Definition demo_gol : App :=
  (demo_connected demo_host []) <| loops -> loop_gol := true |>.
Definition demo_ball : App :=
  (demo_connected demo_host []) <| loops -> loop_ball := true |>
                                <| timers := [(100, cb_ball_tick)] |>.

(** ** Further parts of the program *)

(** *** Module-level helpers: [hexstr] and [parse_hex] *)

(** [f"{b:02X}"] for an element [b] of a [bytes], which is in [range(256)]. *)
Definition hex_upper : list ascii := list_ascii_of_string "0123456789ABCDEF".
Definition fmt_02X (b : Z) : string :=
  string_of_list_ascii [nth (Z.to_nat (b / 16)) hex_upper "?"%char;
                        nth (Z.to_nat (b mod 16)) hex_upper "?"%char].

(** [sep.join(l)] *)
Fixpoint str_join (sep : string) (l : list string) : string :=
  match l with
  | [] => ""
  | [x] => x
  | x :: t => x ++ sep ++ str_join sep t
  end.

Definition hexstr (bs : list Z) : string := str_join " " (map fmt_02X bs).

(** [s.replace(a, b)] for one-character [a] and [b] *)
Definition str_replace (a b : ascii) (s : string) : string :=
  string_of_list_ascii
    (map (fun c => if Ascii.eqb c a then b else c) (list_ascii_of_string s)).

(** [s.split()]: the maximal runs of characters that are not white
    space; [cur] is the run being read, last character first. *)
Fixpoint split_from (cur : list ascii) (l : list ascii) : list string :=
  match l with
  | [] => match cur with [] => [] | _ => [string_of_list_ascii (rev cur)] end
  | c :: t =>
      if isspace c then
        match cur with
        | [] => split_from [] t
        | _ => string_of_list_ascii (rev cur) :: split_from [] t
        end
      else split_from (c :: cur) t
  end.
Definition str_split (s : string) : list string :=
  split_from [] (list_ascii_of_string s).

(** [int(x, 16)] on a string with no white space at either end (the
    program passes stripped strings and pieces of [split()], so the
    white space [int] would skip is never there): an optional sign, an
    optional [0x] or [0X], then hex digits with single underscores
    allowed between them and after the prefix.  ValueError otherwise. *)
Definition hex_val (c : ascii) : option Z :=
  let n := Z.of_nat (nat_of_ascii c) in
  if (48 <=? n) && (n <=? 57) then Some (n - 48)
  else if (97 <=? n) && (n <=? 102) then Some (n - 87)
  else if (65 <=? n) && (n <=? 70) then Some (n - 55)
  else None.
Fixpoint hex_digits (l : list ascii) (acc : Z) (prev_underscore : bool) : option Z :=
  match l with
  | [] => if prev_underscore then None else Some acc
  | c :: t =>
      if Ascii.eqb c "_" then
        if prev_underscore then None else hex_digits t acc true
      else
        let? d := hex_val c in hex_digits t (acc * 16 + d) false
  end.
Definition int16 (x : string) : option Z :=
  let l := list_ascii_of_string x in
  let '(sign, l) :=
    match l with
    | "+"%char :: t => (1, t)
    | "-"%char :: t => (-1, t)
    | _ => (1, l)
    end in
  let l :=
    match l with
    | "0"%char :: "x"%char :: t | "0"%char :: "X"%char :: t =>
        match t with "_"%char :: t' => t' | _ => t end
    | _ => l
    end in
  match l with
  | [] => None
  | "_"%char :: _ => None
  | _ => let? v := hex_digits l 0 false in Some (sign * v)
  end.

Fixpoint mapM {A B} (f : A -> option B) (l : list A) : option (list B) :=
  match l with
  | [] => Some []
  | x :: t => let? y := f x in let? r := mapM f t in Some (y :: r)
  end.

Definition parse_hex (s : string) : option (list Z) :=
  let s := str_replace ";" " " (str_replace "," " " (strip s)) in
  if String.eqb s "" then Some [] else
  let? l := mapM int16 (str_split s) in Py.bytes l.

(** *** Custom / RAW, the mini-matrix editor *)

(** [e_code], [e_params], [e_raw] are what the entry fields hold,
    [mm_cells] the values of the 7 x 9 check boxes. *)
Definition _send_esc_custom (e_code e_params : string) : M unit :=
  match int16 (strip e_code) with
  | None => ret tt (* messagebox.showerror("ESC", "Bad ESC code hex"); return *)
  | Some code =>
      params <- lift (parse_hex e_params) ;;
      dev (VFD.ESC code params)
  end.

Definition _send_raw (e_raw : string) : M unit :=
  data <- lift (parse_hex e_raw) ;; dev' (VFD.send data).

Definition _send_mm_from_grid (mm_cells : list (list Z)) : M unit :=
  cols <- lift (Py.foldM (fun cols c =>
                  let? v := Py.foldM (fun v r =>
                              let? x := get2 mm_cells r c in
                              if Py.truthy x then
                                let? b := Py.lshift 1 r in Some (Z.lor v b)
                              else Some v) (Py.range 7) 0 in
                  Some (cols ++ [Z.land v 0x7F])) (Py.range 9) []) ;;
  dev (VFD.mm_send_cols cols).

(** ** The device side of the icon commands *)

(** The value an icon has after the frames [w] have gone out: that of
    the last [ESC 30 sub val] addressed to it. *)
Definition icon_value (w : list (list Z)) (sub : Z) : option Z :=
  fold_left (fun acc f =>
               match f with
               | [0x1B; 0x30; a; val] => if a =? sub then Some val else acc
               | _ => acc
               end) w None.

(** ** The event loop with the widgets and the clock changing *)

(** Between two events the user may edit the entry fields and time
    passes: every event comes with what the host reads at that moment. *)
Fixpoint run_hosted (evs : list (Host * Event)) (s : App) : option App :=
  match evs with
  | [] => Some s
  | (h, ev) :: rest =>
      let? r := handle ev (s <| host := h |>) in run_hosted rest (snd r)
  end.

(** ** What the handlers rely on, and keep *)

(** An attribute that only a [_start] creates is there whenever the mode
    is enabled. *)
Definition attrs_inv (s : App) : Prop :=
  (loop_marquee (loops s) = true -> exists off, _marquee_offset s = Some off) /\
  (loop_spin (loops s) = true ->
   (exists st, _spin_state s = Some st) /\ _spin_frames s = Some spin_frames) /\
  (loop_twinkle (loops s) = true ->
   exists cols, _twinkle_cols s = Some cols /\ List.length cols = 9%nat) /\
  (loop_icon_carousel (loops s) = true -> exists i, _icon_carousel_idx s = Some i) /\
  (loop_icon_pulse (loops s) = true -> exists p, _icon_pulse_phase s = Some p) /\
  (loop_email_blink (loops s) = true -> exists st, _email_state s = Some st) /\
  (loop_record_blink (loops s) = true -> exists on, _rec_on s = Some on) /\
  (loop_stickman (loops s) = true -> exists i, _stick_idx s = Some i).

(** The rain: drops on rows 1..6, the oldest (lowest) first, no two on
    one row. *)
Fixpoint rows_descend (drops : list (Z * Z)) : Prop :=
  match drops with
  | p :: (q :: _) as t => fst q < fst p /\ rows_descend t
  | _ => True
  end.
Definition rain_wf (drops : list (Z * Z)) : Prop :=
  Forall (fun p => 1 <= fst p <= 6 /\ 0 <= snd p <= 8) drops /\
  rows_descend drops.

(** The snake: a chain of neighbouring cells, no cell twice, three cells
    at score 0 and one more for each point. *)
Definition adjacent (p q : Z * Z) : Prop :=
  Z.abs (fst p - fst q) + Z.abs (snd p - snd q) = 1.
Fixpoint chain (l : list (Z * Z)) : Prop :=
  match l with
  | p :: (q :: _) as t => adjacent p q /\ chain t
  | _ => True
  end.
Definition snake_inv (s : App) : Prop :=
  NoDup (_g_snake s) /\ chain (_g_snake s) /\
  _g_score s = Py.len (_g_snake s) - 3 /\ 0 <= _g_score s.

Definition app_inv (s : App) : Prop :=
  attrs_inv s /\ rain_wf (_rain_drops s) /\ mm_wf s /\
  dir_inv s /\ food_inv s /\ snake_inv s.

(** What has gone out between two states of the port: [send]s only. *)
Inductive sends (v : VFD.t) : VFD.t -> Prop :=
| sends_refl : sends v v
| sends_step (b : list Z) (v' : VFD.t) : sends v v' -> sends v (VFD.send b v').

(** A handler returns, keeps [app_inv], and all it does to the port is
    send. *)
Definition handler_ok (m : M unit) : Prop :=
  forall s, app_inv s -> valid_datetime (now (host s)) ->
    exists s', m s = Some (tt, s') /\ app_inv s' /\ sends (vfd s) (vfd s').

(** The state [_stop_all_mm] leaves. *)
Definition stop_all_state (s : App) : App :=
  s <| loops -> loop_spin := false |> <| loops -> loop_twinkle := false |>
    <| loops -> loop_mini_rain := false |> <| loops -> loop_mini_snake := false |>
    <| loops -> loop_ball := false |> <| loops -> loop_stickman := false |>
    <| loops -> loop_gol := false |> <| loops -> loop_clock_bars := false |>
    <| loops -> loop_snake_game := false |>
    <| vfd ::= VFD.mm_clear |>.

(** What an event does to the port: [_connect] opens it (or gives up on
    a blank port name) and then sends; [_disconnect] closes it; every
    other handler only sends. *)
Definition port_step (ev : Event) (v v' : VFD.t) : Prop :=
  match ev with
  | ev_connect port ok => v' = v \/ sends (VFD.open ok v) v'
  | ev_disconnect => v' = VFD.close v
  | _ => sends v v'
  end.

(** The hosts of a run hand out proper datetimes. *)
Definition hosts_ok (evs : list (Host * Event)) : Prop :=
  Forall (fun p => valid_datetime (now (fst p))) evs.

(** No event of the run opens the port. *)
Definition never_opens (evs : list (Host * Event)) : Prop :=
  Forall (fun p => match snd p with ev_connect _ true => False | _ => True end) evs.

(** ** Timers and the modes they belong to *)

(** The mode a timer callback belongs to. *)
Definition callback_effect (cb : Callback) : Effect :=
  match cb with
  | cb_clock_text_tick => clock_text
  | cb_clock_sync_tick => clock_sync
  | cb_vol_sweep_tick _ _ => vol_sweep
  | cb_wifi_scan_tick _ => wifi_scan
  | cb_icon_wave_tick _ _ => icon_wave
  | cb_marquee_tick => marquee
  | cb_cylon_tick _ _ => cylon
  | cb_spin_tick => spin
  | cb_twinkle_tick => twinkle
  | cb_icon_carousel_tick => icon_carousel
  | cb_icon_pulse_tick => icon_pulse
  | cb_email_blink_tick => email_blink
  | cb_record_blink_tick => record_blink
  | cb_text_bounce_tick => text_bounce
  | cb_rain_tick => mini_rain
  | cb_snake_tick => mini_snake
  | cb_ball_tick => ball
  | cb_stickman_tick => stickman
  | cb_gol_tick => gol
  | cb_clock_bars_tick => clock_bars
  | cb_snake_game_tick => snake_game
  end.

(** The rows [bars(val, maxval)] lights, counted from the top:
    [int(round((val/maxval)*7))]. *)
Definition bar_height (val maxval : Z) : Z := (14 * val + maxval) / (2 * maxval).

(** States to run examples on. *)
Definition demo_stickman : App :=
  (demo_connected demo_host []) <| loops -> loop_stickman := true |>
                                <| _stick_col := 9 |> <| _stick_idx := Some 0 |>.
Definition demo_twinkle : App :=
  (demo_connected demo_host []) <| loops -> loop_twinkle := true |>
                                <| timers := [(100, cb_twinkle_tick)] |>.
Definition demo_path_snake : App :=
  (demo_connected demo_host []) <| loops -> loop_mini_snake := true |>
                                <| _snake_idx := 12 |>.
Definition demo_sweep : App :=
  (demo_connected demo_host []) <| loops -> loop_vol_sweep := true |>.
Definition demo_clock_bars : App :=
  (demo_connected demo_host []) <| loops -> loop_clock_bars := true |>.
Definition demo_carousel : App :=
  (demo_connected demo_host []) <| loops -> loop_icon_carousel := true |>
                                <| _icon_carousel_idx := Some 10 |>.
Definition demo_marquee : App :=
  (demo_connected demo_host []) <| loops -> loop_marquee := true |>
                                <| _marquee_offset := Some 16 |>.

(** * Properties *)

(** ** Python primitives *)

Lemma land_7F_range (c : Z) : 0 <= Z.land c 0x7F <= 0x7F.
Proof.
  change 0x7F with (Z.ones 7). rewrite Z.land_ones by lia.
  change (Z.ones 7) with 127. pose proof (Z.mod_pos_bound c (2 ^ 7)). lia.
Qed.

Lemma bytes_ok (l : list Z) :
  Forall (fun x => 0 <= x < 256) l -> Py.bytes l = Some l.
Proof.
  intros H. unfold Py.bytes.
  replace (forallb _ l) with true; [reflexivity|].
  symmetry. apply forallb_forall. rewrite Forall_forall in H.
  intros x Hx. specialize (H x Hx). lia.
Qed.

Lemma getitem_nth {A} (l : list A) (i : Z) :
  0 <= i < Py.len l -> Py.getitem l i = nth_error l (Z.to_nat i).
Proof.
  intros H. unfold Py.getitem, Py.norm_index.
  replace ((0 <=? i) && (i <? Py.len l)) with true by lia. reflexivity.
Qed.

Lemma setitem_replace {A} (l : list A) (i : Z) (v : A) :
  0 <= i < Py.len l -> Py.setitem l i v = Some (Py.replace_nth (Z.to_nat i) v l).
Proof.
  intros H. unfold Py.setitem, Py.norm_index.
  replace ((0 <=? i) && (i <? Py.len l)) with true by lia. reflexivity.
Qed.

Lemma length_replace_nth {A} (n : nat) (v : A) (l : list A) :
  List.length (Py.replace_nth n v l) = List.length l.
Proof.
  revert n; induction l as [|h t IH]; intros [|n]; cbn; auto.
Qed.

Lemma nth_replace_nth {A} (n m : nat) (v d : A) (l : list A) :
  (n < List.length l)%nat ->
  nth m (Py.replace_nth n v l) d = if Nat.eqb m n then v else nth m l d.
Proof.
  revert n m; induction l as [|h t IH]; intros [|n] [|m] H; cbn in *;
    try lia; auto.
  apply IH. lia.
Qed.

Lemma nth_error_nth_some {A} (l : list A) (n : nat) (d : A) :
  (n < List.length l)%nat -> nth_error l n = Some (nth n l d).
Proof. intros H. apply nth_error_nth'. exact H. Qed.

Lemma foldM_total {A B} (f : B -> A -> option B) (g : B -> A -> B) (l : list A) :
  (forall b x, In x l -> f b x = Some (g b x)) ->
  forall b, Py.foldM f l b = Some (fold_left g l b).
Proof.
  induction l as [|x t IH]; intros H b; cbn; [reflexivity|].
  rewrite H by (left; reflexivity). apply IH.
  intros b' y Hy. apply H. right; exact Hy.
Qed.

(** A loop invariant over the part of the list already visited. *)
Lemma foldM_invariant {A B} (f : B -> A -> option B) (I : list A -> B -> Prop)
      (l : list A) :
  (forall done x b, I done b -> In x l ->
                    exists b', f b x = Some b' /\ I (done ++ [x]) b') ->
  forall b, I [] b -> exists b', Py.foldM f l b = Some b' /\ I l b'.
Proof.
  intros Hstep.
  assert (G : forall rest done b, incl rest l -> I done b ->
                exists b', Py.foldM f rest b = Some b' /\ I (done ++ rest) b').
  { induction rest as [|x t IH]; intros done b Hin Hb; cbn.
    - exists b. rewrite app_nil_r. auto.
    - destruct (Hstep done x b Hb) as (b' & E & Hb').
      { apply Hin. left; reflexivity. }
      rewrite E. destruct (IH (done ++ [x]) b') as (b'' & E' & Hb'').
      { intros y Hy. apply Hin. right; exact Hy. }
      { exact Hb'. }
      exists b''. rewrite <- app_assoc in Hb''. auto. }
  intros b Hb. apply (G l [] b); [apply incl_refl | exact Hb].
Qed.

(** ** VFD: the command codec *)

Lemma ESC_ok (code : Z) (params : list Z) (v : VFD.t) :
  0 <= code < 256 -> Forall (fun x => 0 <= x < 256) params ->
  VFD.ESC code params v = Some (VFD.send ([0x1B; code] ++ params) v).
Proof.
  intros Hc Hp. unfold VFD.ESC. rewrite bytes_ok; [reflexivity|].
  cbn. repeat constructor; try lia. exact Hp.
Qed.

Lemma wire_send (b : list Z) (v : VFD.t) :
  VFD.wire (VFD.send b v)
  = if VFD.connected v then VFD.wire v ++ [b] else VFD.wire v.
Proof. unfold VFD.send. destruct v as [p w l]. destruct (VFD.connected _); reflexivity. Qed.

Lemma connected_send (b : list Z) (v : VFD.t) :
  VFD.connected (VFD.send b v) = VFD.connected v.
Proof.
  unfold VFD.send. destruct v as [p w l]. unfold VFD.connected. cbn.
  destruct p as [[|]|]; reflexivity.
Qed.

Lemma mm_send_cols_ok (cols : list Z) (v : VFD.t) :
  VFD.mm_send_cols cols v = Some (VFD.send (mm_frame cols) v).
Proof.
  unfold VFD.mm_send_cols, mm_frame. rewrite bytes_ok; [reflexivity|].
  cbn. repeat constructor; try lia.
  apply Forall_forall. intros x Hx. apply in_map_iff in Hx.
  destruct Hx as (c & <- & _). pose proof (land_7F_range c). lia.
Qed.

(** C1. For every list of 9 column values [mm_send_cols] sends one frame
    of exactly 11 bytes: the header 0x1B 0x31, then the 9 columns in
    reversed order (data byte [i] is column [8 - i]), each masked to 7
    bits and so at most 0x7F; on an open port that frame is what goes on
    the wire. *)
Theorem C1_mm_send_cols_frame (cols : list Z) (v : VFD.t) :
  List.length cols = 9%nat ->
  exists frame,
    VFD.mm_send_cols cols v = Some (VFD.send frame v) /\
    List.length frame = 11%nat /\
    firstn 2 frame = [0x1B; 0x31] /\
    skipn 2 frame = map (fun c => Z.land c 0x7F) (rev cols) /\
    (forall i, (i < 9)%nat ->
               nth (2 + i) frame 0 = Z.land (nth (8 - i) cols 0) 0x7F /\
               0 <= nth (2 + i) frame 0 <= 0x7F) /\
    (VFD.connected v = true ->
     VFD.wire (VFD.send frame v) = VFD.wire v ++ [frame]).
Proof.
  intros Hlen. exists (mm_frame cols).
  split; [apply mm_send_cols_ok|].
  destruct cols as [|c0 [|c1 [|c2 [|c3 [|c4 [|c5 [|c6 [|c7 [|c8 [|? ?]]]]]]]]]];
    try discriminate Hlen.
  repeat split; try reflexivity.
  - do 9 (destruct i as [|i]; [reflexivity|]). lia.
  - do 9 (destruct i as [|i]; [cbn; apply land_7F_range|]). lia.
  - do 9 (destruct i as [|i]; [cbn; apply land_7F_range|]). lia.
  - intros Hc. rewrite wire_send, Hc. reflexivity.
Qed.

Lemma C1_mm_send_cols_frame_witness :
  exists frame,
    VFD.mm_send_cols [1; 2; 3; 4; 5; 6; 7; 8; 0xFF] (VFD.mk (Some true) [] [])
    = Some (VFD.send frame (VFD.mk (Some true) [] [])) /\
    frame = [0x1B; 0x31; 0x7F; 8; 7; 6; 5; 4; 3; 2; 1].
Proof.
  destruct (C1_mm_send_cols_frame [1; 2; 3; 4; 5; 6; 7; 8; 0xFF]
              (VFD.mk (Some true) [] []) eq_refl)
    as (frame & E & _ & H2 & Hd & _).
  exists frame. split; [exact E|].
  rewrite <- (firstn_skipn 2 frame), H2, Hd. reflexivity.
Defined.

(** C8. For a datetime with a 4-digit year, [clock_set] sends the escape
    byte, the code 0x00 and exactly the six bytes minute, hour, day,
    month, year high byte, year low byte; decoding the six bytes, the
    year as [hi * 256 + lo], gives back minute, hour, day, month and
    year. *)
Theorem C8_clock_set_roundtrip (dt : datetime) (v : VFD.t) :
  valid_datetime dt -> 1000 <= year dt <= 9999 ->
  exists yhi ylo,
    VFD.clock_set dt v
    = Some (VFD.send [0x1B; 0x00; minute dt; hour dt; day dt; month dt; yhi; ylo] v) /\
    0 <= yhi < 256 /\ 0 <= ylo < 256 /\
    yhi * 256 + ylo = year dt /\
    exists dt',
      clock_decode [minute dt; hour dt; day dt; month dt; yhi; ylo] = Some dt' /\
      minute dt' = minute dt /\ hour dt' = hour dt /\ day dt' = day dt /\
      month dt' = month dt /\ year dt' = year dt.
Proof.
  intros (Hy & Hmo & Hd & Hh & Hm & _) Hy4.
  assert (Ehi : Z.land (Z.shiftr (year dt) 8) 0xFF = year dt / 256).
  { change 0xFF with (Z.ones 8). rewrite Z.land_ones, Z.shiftr_div_pow2 by lia.
    change (2 ^ 8) with 256. apply Z.mod_small.
    split; [apply Z.div_pos; lia | apply Z.div_lt_upper_bound; lia]. }
  assert (Elo : Z.land (year dt) 0xFF = year dt mod 256).
  { change 0xFF with (Z.ones 8). rewrite Z.land_ones by lia. reflexivity. }
  pose proof (Z.mod_pos_bound (year dt) 256 ltac:(lia)) as Hlo.
  pose proof (Z.div_mod (year dt) 256 ltac:(lia)) as Hdm.
  assert (Hhi : 0 <= year dt / 256 < 256).
  { split; [apply Z.div_pos; lia | apply Z.div_lt_upper_bound; lia]. }
  exists (year dt / 256), (year dt mod 256).
  split.
  { unfold VFD.clock_set. rewrite Ehi, Elo. rewrite ESC_ok; [reflexivity| lia |].
    repeat constructor; lia. }
  repeat split; try lia.
  eexists. split; [reflexivity|]. cbn. repeat split; lia.
Qed.

Lemma C8_clock_set_roundtrip_witness :
  exists yhi ylo,
    VFD.clock_set (mk_datetime 2026 11 3 12 30 45) (VFD.mk (Some true) [] [])
    = Some (VFD.send [0x1B; 0x00; 30; 12; 3; 11; yhi; ylo] (VFD.mk (Some true) [] [])) /\
    yhi * 256 + ylo = 2026.
Proof.
  destruct (C8_clock_set_roundtrip (mk_datetime 2026 11 3 12 30 45)
              (VFD.mk (Some true) [] []))
    as (yhi & ylo & E & _ & _ & Hy & _).
  - unfold valid_datetime; cbn; lia.
  - cbn; lia.
  - exists yhi, ylo. split; [exact E | exact Hy].
Defined.

(** ** Game of Life *)

Lemma In_range (x n : Z) : In x (Py.range n) <-> 0 <= x < n.
Proof.
  unfold Py.range. rewrite in_map_iff. split.
  - intros (k & <- & Hk). apply in_seq in Hk. lia.
  - intros H. exists (Z.to_nat x). split; [lia|]. apply in_seq. lia.
Qed.

Lemma range_mem (x n : Z) :
  0 <= x < n -> existsb (Z.eqb x) (Py.range n) = true.
Proof.
  intros H. apply existsb_exists. exists x. split; [|apply Z.eqb_refl].
  apply In_range. exact H.
Qed.

Lemma existsb_snoc (x y : Z) (l : list Z) :
  existsb (Z.eqb x) (l ++ [y]) = existsb (Z.eqb x) l || (x =? y).
Proof. rewrite existsb_app. cbn. rewrite orb_false_r. reflexivity. Qed.

Lemma grid_row (g : list (list Z)) (r : Z) :
  is_grid g -> 0 <= r < 7 ->
  Py.getitem g r = Some (nth (Z.to_nat r) g []) /\
  List.length (nth (Z.to_nat r) g []) = 9%nat.
Proof.
  intros [Hl Hr] H. split.
  - rewrite getitem_nth by (unfold Py.len; lia).
    apply nth_error_nth_some. lia.
  - rewrite Forall_forall in Hr. apply Hr. apply nth_In. lia.
Qed.

Lemma get2_cell (g : list (list Z)) (r c : Z) :
  is_grid g -> 0 <= r < 7 -> 0 <= c < 9 -> get2 g r c = Some (cell g r c).
Proof.
  intros Hg Hr Hc. destruct (grid_row g r Hg Hr) as [E Hl].
  unfold get2, cell. rewrite E.
  rewrite getitem_nth by (unfold Py.len; lia).
  apply nth_error_nth_some. lia.
Qed.

Lemma set2_upd2 (out : list (list Z)) (r c v : Z) :
  is_grid out -> 0 <= r < 7 -> 0 <= c < 9 -> set2 out r c v = Some (upd2 out r c v).
Proof.
  intros Hg Hr Hc. destruct (grid_row out r Hg Hr) as [E Hl].
  unfold set2, upd2. rewrite E.
  rewrite setitem_replace by (unfold Py.len; lia).
  apply setitem_replace. destruct Hg as [Hlen _]. unfold Py.len; lia.
Qed.

Lemma Forall_replace_nth {A} (P : A -> Prop) (n : nat) (v : A) (l : list A) :
  Forall P l -> P v -> Forall P (Py.replace_nth n v l).
Proof.
  intros Hl Hv. revert n. induction Hl as [|h t Hh Ht IH]; intros [|n]; cbn;
    constructor; auto.
Qed.

Lemma is_grid_upd2 (out : list (list Z)) (r c v : Z) :
  is_grid out -> 0 <= r < 7 -> is_grid (upd2 out r c v).
Proof.
  intros Hg Hr. destruct (grid_row out r Hg Hr) as [_ Hl].
  destruct Hg as [Hlen Hrows]. unfold upd2. split.
  - rewrite length_replace_nth. exact Hlen.
  - apply Forall_replace_nth; [exact Hrows|].
    rewrite length_replace_nth. exact Hl.
Qed.

Lemma cell_upd2 (out : list (list Z)) (r c v r' c' : Z) :
  is_grid out -> 0 <= r < 7 -> 0 <= c < 9 -> 0 <= r' < 7 -> 0 <= c' < 9 ->
  cell (upd2 out r c v) r' c'
  = if (r' =? r) && (c' =? c) then v else cell out r' c'.
Proof.
  intros Hg Hr Hc Hr' Hc'. destruct (grid_row out r Hg Hr) as [_ Hl].
  destruct Hg as [Hlen _]. unfold cell, upd2.
  rewrite nth_replace_nth by lia.
  destruct (Z.eqb_spec r' r) as [->|Hne].
  - rewrite Nat.eqb_refl. rewrite nth_replace_nth by lia.
    destruct (Z.eqb_spec c' c) as [->|Hnc].
    + rewrite Nat.eqb_refl. reflexivity.
    + replace (Nat.eqb _ _) with false; [reflexivity|].
      symmetry. apply Nat.eqb_neq. lia.
  - replace (Nat.eqb _ _) with false; [reflexivity|].
    symmetry. apply Nat.eqb_neq. lia.
Qed.

Lemma cell_zeros (r c : Z) :
  0 <= r < 7 -> 0 <= c < 9 -> cell (repeat (repeat 0 9) 7) r c = 0.
Proof.
  intros Hr Hc. unfold cell.
  assert (Hn : (Z.to_nat r < 7)%nat) by lia.
  assert (Hm : (Z.to_nat c < 9)%nat) by lia.
  revert Hn Hm. generalize (Z.to_nat r) (Z.to_nat c). intros n m Hn Hm.
  do 7 (destruct n as [|n]; [do 9 (destruct m as [|m]; [reflexivity|]); lia|]).
  lia.
Qed.

(** The contribution of one offset to the neighbour count. *)
Lemma filter_filter_count {A} (p q : A -> bool) (l : list A) (n : Z) :
  n + Z.of_nat (List.length (filter p (filter q l)))
  = fold_left (fun n x => n + (if q x && p x then 1 else 0)) l n.
Proof.
  revert n. induction l as [|x t IH]; intros n; cbn; [lia|].
  rewrite <- IH. destruct (q x); cbn; [destruct (p x); cbn|]; lia.
Qed.

Section GameOfLife.

(** The grid the step is taken from. *)
Variable g : list (list Z).
Hypothesis Hg : is_grid g.

Lemma gol_count_eq (r c : Z) :
  gol_count g r c = Some (live_neighbours g r c).
Proof.
  unfold gol_count.
  set (k := fun dr dc : Z =>
              if (dr =? 0) && (dc =? 0) then 0
              else if in_grid (r + dr) (c + dc) && alive g (r + dr) (c + dc)
                   then 1 else 0).
  rewrite (foldM_total _ (fun n dr => fold_left (fun n dc => n + k dr dc) [-1; 0; 1] n)).
  - unfold live_neighbours, moore.
    rewrite <- (Z.add_0_l (Z.of_nat _)), filter_filter_count.
    subst k. cbn.
    change (r + -1) with (r - 1). change (c + -1) with (c - 1).
    rewrite !Z.add_0_r. reflexivity.
  - intros n dr _. apply foldM_total. intros m dc _. subst k. cbv beta.
    destruct ((dr =? 0) && (dc =? 0)); [rewrite Z.add_0_r; reflexivity|].
    fold (in_grid (r + dr) (c + dc)).
    destruct (in_grid (r + dr) (c + dc)) eqn:E; cbn [andb].
    + unfold in_grid in E. rewrite get2_cell by (try exact Hg; lia).
      unfold alive. destruct (Py.truthy _); [reflexivity|].
      rewrite Z.add_0_r. reflexivity.
    + rewrite Z.add_0_r. reflexivity.
Qed.

Lemma conway_01 (r c : Z) : conway g r c = 0 \/ conway g r c = 1.
Proof.
  unfold conway. destruct (alive g r c);
    [destruct ((_ =? 2) || (_ =? 3)) | destruct (_ =? 3)]; auto.
Qed.

(** One iteration of the body of the two outer loops of [_gol_step]. *)
Lemma gol_cell_step (out : list (list Z)) (r c : Z) :
  is_grid out -> 0 <= r < 7 -> 0 <= c < 9 ->
  (let? n := gol_count g r c in
   let? x := get2 g r c in
   if Py.truthy x && ((n =? 2) || (n =? 3)) then set2 out r c 1
   else if negb (Py.truthy x) && (n =? 3) then set2 out r c 1
   else Some out)
  = Some (if conway g r c =? 1 then upd2 out r c 1 else out).
Proof.
  intros Ho Hr Hc. rewrite gol_count_eq, get2_cell by assumption.
  unfold conway. fold (alive g r c).
  destruct (alive g r c); cbn [andb negb].
  - destruct ((_ =? 2) || (_ =? 3)); cbn; [apply set2_upd2; assumption|].
    reflexivity.
  - destruct (_ =? 3); cbn; [apply set2_upd2; assumption | reflexivity].
Qed.

(** The grid [_gol_step] returns holds, cell by cell, Conway's rule
    evaluated on the input grid. *)
Lemma gol_step_spec :
  exists out, _gol_step g = Some out /\ is_grid out /\
              forall r c, 0 <= r < 7 -> 0 <= c < 9 -> cell out r c = conway g r c.
Proof.
  unfold _gol_step.
  set (I := fun (doneR : list Z) (out : list (list Z)) =>
              is_grid out /\
              forall r c, 0 <= r < 7 -> 0 <= c < 9 ->
                          cell out r c
                          = if existsb (Z.eqb r) doneR then conway g r c else 0).
  destruct (foldM_invariant
              (fun out r =>
                 Py.foldM (fun out c =>
                   let? n := gol_count g r c in
                   let? x := get2 g r c in
                   if Py.truthy x && ((n =? 2) || (n =? 3)) then set2 out r c 1
                   else if negb (Py.truthy x) && (n =? 3) then set2 out r c 1
                   else Some out) (Py.range 9) out)
              I (Py.range 7)) with (b := repeat (repeat 0 9) 7)
    as (out & E & Ho & Hcells).
  - (* one row *)
    intros doneR r out [Ho Hcells] Hr. apply In_range in Hr.
    set (J := fun (doneC : list Z) (out : list (list Z)) =>
                is_grid out /\
                forall r' c', 0 <= r' < 7 -> 0 <= c' < 9 ->
                  cell out r' c'
                  = if existsb (Z.eqb r') doneR
                       || ((r' =? r) && existsb (Z.eqb c') doneC)
                    then conway g r' c' else 0).
    destruct (foldM_invariant
                (fun out c =>
                   let? n := gol_count g r c in
                   let? x := get2 g r c in
                   if Py.truthy x && ((n =? 2) || (n =? 3)) then set2 out r c 1
                   else if negb (Py.truthy x) && (n =? 3) then set2 out r c 1
                   else Some out) J (Py.range 9)) with (b := out)
      as (out' & E' & Ho' & Hcells').
    + intros doneC c o [Hgo Hco] Hc. apply In_range in Hc.
      rewrite gol_cell_step by assumption. eexists. split; [reflexivity|].
      split.
      * destruct (conway g r c =? 1); [apply is_grid_upd2|]; assumption.
      * intros r' c' Hr' Hc'. rewrite existsb_snoc.
        specialize (Hco r' c' Hr' Hc').
        assert (Hupd : cell (if conway g r c =? 1 then upd2 o r c 1 else o) r' c'
                       = if (conway g r c =? 1) && ((r' =? r) && (c' =? c))
                         then 1 else cell o r' c').
        { destruct (conway g r c =? 1); [apply cell_upd2; assumption | reflexivity]. }
        rewrite Hupd, Hco.
        clear Hupd Hco.
        destruct (conway_01 r c) as [K|K];
          destruct (Z.eqb_spec r' r) as [->|_];
          destruct (Z.eqb_spec c' c) as [->|_];
          destruct (existsb (Z.eqb _) doneR);
          destruct (existsb (Z.eqb _) doneC);
          rewrite ?K; reflexivity.
    + split; [exact Ho|]. intros r' c' Hr' Hc'. cbn [existsb].
      rewrite andb_false_r, orb_false_r. apply Hcells; assumption.
    + exists out'. split; [exact E'|]. split; [exact Ho'|].
      intros r' c' Hr' Hc'. rewrite Hcells' by assumption.
      rewrite existsb_snoc, (range_mem c' 9) by assumption.
      rewrite andb_true_r. reflexivity.
  - split.
    + split; [reflexivity|]. repeat constructor.
    + intros r c Hr Hc. apply cell_zeros; assumption.
  - exists out. split; [exact E|]. split; [exact Ho|].
    intros r c Hr Hc. rewrite Hcells by assumption.
    rewrite (range_mem r 7) by assumption. reflexivity.
Qed.

End GameOfLife.

(** C7. One Game-of-Life step on a 7x9 grid returns a new 7x9 grid whose
    every cell is Conway's rule on the input grid, the neighbours counted
    on the input over the Moore neighbourhood without wrap-around (a live
    cell stays with 2 or 3 live neighbours, a dead cell is born with
    exactly 3); a 2x2 block is a fixed point and a 3-cell blinker comes
    back after two steps, not after one. *)
Theorem C7_gol_step_conway :
  (forall g, is_grid g ->
     exists out, _gol_step g = Some out /\ is_grid out /\
       forall r c, 0 <= r < 7 -> 0 <= c < 9 ->
         cell out r c
         = let n := live_neighbours g r c in
           if alive g r c then (if (n =? 2) || (n =? 3) then 1 else 0)
           else (if n =? 3 then 1 else 0)) /\
  live_neighbours gol_block 0 0 = 0 /\
  live_neighbours gol_block 1 3 = 3 /\
  live_neighbours (repeat (repeat 1 9) 7) 0 0 = 3 /\
  live_neighbours (repeat (repeat 1 9) 7) 0 4 = 5 /\
  live_neighbours (repeat (repeat 1 9) 7) 3 4 = 8 /\
  _gol_step gol_block = Some gol_block /\
  _gol_step gol_blinker_h = Some gol_blinker_v /\
  _gol_step gol_blinker_v = Some gol_blinker_h /\
  gol_blinker_v <> gol_blinker_h.
Proof.
  split; [exact gol_step_spec|].
  repeat split; try reflexivity. discriminate.
Qed.

Lemma C7_gol_step_conway_witness :
  exists out, _gol_step gol_block = Some out /\ cell out 1 3 = 1 /\ cell out 0 0 = 0.
Proof.
  destruct (proj1 C7_gol_step_conway gol_block) as (out & E & _ & H).
  - split; [reflexivity|]. repeat constructor.
  - exists out. split; [exact E|]. split.
    + rewrite H by lia. reflexivity.
    + rewrite H by lia. reflexivity.
Defined.

(** ** The snake game *)

Arguments VFD.send : simpl never.
Arguments Py.fmt_2d : simpl never.
Arguments Py.str_int : simpl never.
Arguments Py.slice : simpl never.
Arguments Py.encode_ascii_ignore : simpl never.
Arguments plot : simpl never.
Arguments or_bit : simpl never.
Arguments free_cells : simpl never.
Arguments Py.mem : simpl never.
Arguments in_bounds : simpl never.
Arguments _rand_food : simpl never.
Arguments _show_snake_score : simpl never.
Arguments _status_text : simpl never.
Arguments VFD.mm_send_cols : simpl never.
Arguments game_over_sends : simpl never.
Arguments score_sends : simpl never.

Ltac open_app s :=
  destruct s as [s_vfd s_timers s_rng s_host s_loops s_ms s_moff s_spin
                 s_frames s_twinkle s_carousel s_pulse s_email s_rec s_bdir
                 s_bpos s_sidx s_drops s_ball s_vel s_scol s_stick s_grid
                 g_snake g_dir g_pending g_food g_score g_paused s_lbl];
  destruct s_loops as [l_clock_text l_clock_sync l_vol_sweep l_wifi_scan
                       l_icon_wave l_marquee l_cylon l_spin l_twinkle
                       l_cpu_meter l_icon_carousel l_icon_pulse l_email_blink
                       l_record_blink l_text_bounce l_mini_rain l_mini_snake
                       l_net_meter l_disk_meter l_mem_meter l_ball l_stickman
                       l_gol l_clock_bars l_snake_game];
  destruct s_ms;
  cbn in *; unfold constant in *.

Lemma or_bit_ok (cols : list Z) (r c : Z) :
  List.length cols = 9%nat -> in_bounds (r, c) = true ->
  or_bit cols c r
  = Some (Py.replace_nth (Z.to_nat c)
            (Z.lor (nth (Z.to_nat c) cols 0) (Z.shiftl 1 r)) cols).
Proof.
  intros Hl Hb. unfold in_bounds in Hb. cbn [fst snd] in Hb. unfold or_bit.
  rewrite getitem_nth by (unfold Py.len; lia).
  rewrite (nth_error_nth_some cols _ 0) by lia.
  unfold Py.lshift. replace (r <? 0) with false by lia.
  apply setitem_replace. unfold Py.len; lia.
Qed.

Lemma plot_ok (cells : list (Z * Z)) :
  Forall (fun p => in_bounds p = true) cells ->
  forall cols, List.length cols = 9%nat ->
  exists cols', plot cells cols = Some cols' /\ List.length cols' = 9%nat.
Proof.
  unfold plot. induction 1 as [|[r c] t Hp Ht IH]; intros cols Hl; cbn [Py.foldM].
  - eauto.
  - cbn [fst snd]. rewrite or_bit_ok by assumption.
    apply IH. rewrite length_replace_nth. exact Hl.
Qed.

Lemma status_game_over (s : App) :
  _status_text "Game Over!" s = Some (tt, s <| vfd := game_over_sends (vfd s) |>).
Proof. destruct s. reflexivity. Qed.

Lemma show_snake_score_eq (s : App) :
  _show_snake_score s
  = Some (tt, s <| snake_score_lbl := ("Score: " ++ Py.str_int (_g_score s))%string |>
                <| vfd := score_sends (_g_score s) (vfd s) |>).
Proof. destruct s. reflexivity. Qed.

Lemma in_free_cells (p : Z * Z) (snake : list (Z * Z)) :
  In p (free_cells snake) <-> in_bounds p = true /\ Py.mem p snake = false.
Proof.
  unfold free_cells. rewrite filter_In, in_flat_map. split.
  - intros [(r & Hr & Hp) Hm]. apply in_map_iff in Hp. destruct Hp as (c & <- & Hc).
    apply In_range in Hr. apply In_range in Hc. split.
    + unfold in_bounds. cbn. lia.
    + destruct (Py.mem _ _); [discriminate | reflexivity].
  - intros [Hb Hm]. destruct p as [r c]. unfold in_bounds in Hb. cbn in Hb. split.
    + exists r. split; [apply In_range; lia|]. apply in_map. apply In_range. lia.
    + rewrite Hm. reflexivity.
Qed.

Lemma choice_ok {A} (l : list A) (s : App) :
  l <> [] ->
  exists x rng', choice l s = Some (x, s <| rng := rng' |>) /\ In x l.
Proof.
  intros Hne. unfold choice, bind, next_raw, lift, Py.mod_.
  assert (Hlen : 0 < Py.len l).
  { unfold Py.len. destruct l; [congruence | cbn; lia]. }
  assert (G : forall r, exists x, Py.getitem l (r mod Py.len l) = Some x /\ In x l).
  { intros r. pose proof (Z.mod_pos_bound r (Py.len l) Hlen) as Hb.
    rewrite getitem_nth by exact Hb.
    destruct (nth_error l (Z.to_nat (r mod Py.len l))) as [x|] eqn:E.
    - exists x. split; [reflexivity|]. eapply nth_error_In; eauto.
    - apply nth_error_None in E. unfold Py.len in *. lia. }
  assert (Hz : (Py.len l =? 0) = false) by (apply Z.eqb_neq; lia).
  open_app s. destruct s_rng as [|x0 rest]; cbn; rewrite Hz.
  - destruct (G 0) as (x & E & Hx). rewrite Zmod_0_l in E. rewrite E.
    exists x, []. split; [reflexivity | exact Hx].
  - destruct (G x0) as (x & E & Hx). rewrite E.
    exists x, rest. split; [reflexivity | exact Hx].
Qed.

Lemma rand_food_ok (snake : list (Z * Z)) (s : App) :
  exists food rng',
    _rand_food snake s = Some (food, s <| rng := rng' |>) /\
    in_bounds food = true /\
    (free_cells snake <> [] -> In food (free_cells snake)) /\
    (free_cells snake = [] -> food = (3, 4)).
Proof.
  unfold _rand_food. destruct (free_cells snake) as [|p t] eqn:E.
  - exists (3, 4), (rng s). split; [destruct s; reflexivity|].
    split; [reflexivity|]. split; [congruence | reflexivity].
  - destruct (choice_ok (p :: t) s ltac:(discriminate)) as (x & rng' & Ec & Hx).
    exists x, rng'. split; [exact Ec|].
    split; [rewrite <- E in Hx; apply in_free_cells in Hx; tauto|].
    split; [intros _; exact Hx | discriminate].
Qed.

Lemma snake_tick_game_over (s : App) :
  enabled snake_game s = true -> _g_paused s = false -> _g_snake s <> [] ->
  collides s = true ->
  _snake_game_tick s
  = Some (tt, s <| _g_dir := _g_pending s |>
                <| vfd := game_over_sends (vfd s) |>
                <| loops -> loop_snake_game := false |>).
Proof.
  intros He Hp Hne Hc. unfold collides, next_head in Hc.
  open_app s. subst. destruct g_snake as [|hd tl]; [congruence|].
  unfold _snake_game_tick, bind, get, modify, lift. cbn.
  unfold in_bounds in Hc. cbn [fst snd] in Hc. rewrite Hc.
  rewrite status_game_over. reflexivity.
Qed.

Lemma snake_tick_disabled (s : App) :
  enabled snake_game s = false -> _snake_game_tick s = Some (tt, s).
Proof. intros He. open_app s. subst. reflexivity. Qed.

Lemma snake_tick_paused (s : App) :
  enabled snake_game s = true -> _g_paused s = true ->
  _snake_game_tick s
  = Some (tt, s <| timers ::= fun t => t ++ [(ms_snake_game (ms s), cb_snake_game_tick)] |>).
Proof. intros He Hp. open_app s. subst. reflexivity. Qed.

Lemma removelast_forall {A} (P : A -> Prop) (l : list A) :
  Forall P l -> Forall P (removelast l).
Proof.
  induction 1 as [|x t Hx Ht IH]; cbn; [constructor|].
  destruct t; [constructor | constructor; assumption].
Qed.

Lemma in_bounds_next_head (s : App) :
  collides s = false -> in_bounds (next_head s) = true.
Proof.
  unfold collides. intros H. apply orb_false_elim in H. destruct H as [H _].
  destruct (in_bounds (next_head s)); [reflexivity | discriminate].
Qed.

Lemma snake_tick_move (s : App) :
  enabled snake_game s = true -> _g_paused s = false -> game_wf s ->
  collides s = false -> Py.pair_eqb (next_head s) (_g_food s) = false ->
  exists cols,
    _snake_game_tick s
    = Some (tt, s <| _g_dir := _g_pending s |>
                  <| _g_snake := next_head s :: removelast (_g_snake s) |>
                  <| vfd := VFD.send (mm_frame cols) (vfd s) |>
                  <| timers ::= fun t => t ++ [(ms_snake_game (ms s), cb_snake_game_tick)] |>) /\
    (let? c0 := or_bit (repeat 0 9) (snd (_g_food s)) (fst (_g_food s)) in
     plot (next_head s :: removelast (_g_snake s)) c0) = Some cols.
Proof.
  intros He Hp (Hne & Hin & Hfood) Hc Hfd.
  pose proof (in_bounds_next_head s Hc) as Hnh.
  destruct (_g_food s) as [fr fc] eqn:Ef.
  pose proof (or_bit_ok (repeat 0 9) fr fc eq_refl Hfood) as Eo.
  destruct (plot_ok (next_head s :: removelast (_g_snake s))) with
    (cols := Py.replace_nth (Z.to_nat fc)
               (Z.lor (nth (Z.to_nat fc) (repeat 0 9) 0) (Z.shiftl 1 fr)) (repeat 0 9))
    as (cols & Epl & _).
  { constructor; [exact Hnh | apply removelast_forall; exact Hin]. }
  { rewrite length_replace_nth. reflexivity. }
  exists cols. cbn [fst snd]. rewrite Eo. split; [|exact Epl].
  revert Epl Eo Hc Hfd. unfold collides, next_head.
  open_app s. subst. destruct g_snake as [|hd tl]; [congruence|].
  intros Epl Eo Hc Hfd.
  unfold _snake_game_tick, bind, get, modify, lift, after, dev. cbn.
  unfold in_bounds in Hc. cbn [fst snd] in Hc. rewrite Hc.
  rewrite Hfd. cbn. rewrite Eo. cbn in Epl. rewrite Epl.
  rewrite mm_send_cols_ok. reflexivity.
Qed.

Lemma snake_tick_eat (s : App) :
  enabled snake_game s = true -> _g_paused s = false -> game_wf s ->
  collides s = false -> Py.pair_eqb (next_head s) (_g_food s) = true ->
  exists food rng' cols,
    _snake_game_tick s
    = Some (tt, s <| _g_dir := _g_pending s |>
                  <| _g_snake := next_head s :: _g_snake s |>
                  <| _g_score := _g_score s + 1 |>
                  <| rng := rng' |>
                  <| _g_food := food |>
                  <| snake_score_lbl := ("Score: " ++ Py.str_int (_g_score s + 1))%string |>
                  <| vfd := VFD.send (mm_frame cols) (score_sends (_g_score s + 1) (vfd s)) |>
                  <| timers ::= fun t => t ++ [(ms_snake_game (ms s), cb_snake_game_tick)] |>) /\
    in_bounds food = true /\
    (free_cells (next_head s :: _g_snake s) <> [] ->
     In food (free_cells (next_head s :: _g_snake s))) /\
    (free_cells (next_head s :: _g_snake s) = [] -> food = (3, 4)) /\
    (let? c0 := or_bit (repeat 0 9) (snd food) (fst food) in
     plot (next_head s :: _g_snake s) c0) = Some cols.
Proof.
  intros He Hp (Hne & Hin & Hfood) Hc Hfd.
  pose proof (in_bounds_next_head s Hc) as Hnh.
  set (s1 := s <| _g_dir := _g_pending s |>
               <| _g_snake := next_head s :: _g_snake s |>
               <| _g_score := _g_score s + 1 |>).
  destruct (rand_food_ok (next_head s :: _g_snake s) s1)
    as ([fr fc] & rng' & Erf & Hfb & Hfree & Hfull).
  pose proof (or_bit_ok (repeat 0 9) fr fc eq_refl Hfb) as Eo.
  destruct (plot_ok (next_head s :: _g_snake s)) with
    (cols := Py.replace_nth (Z.to_nat fc)
               (Z.lor (nth (Z.to_nat fc) (repeat 0 9) 0) (Z.shiftl 1 fr)) (repeat 0 9))
    as (cols & Epl & _).
  { constructor; [exact Hnh | exact Hin]. }
  { rewrite length_replace_nth. reflexivity. }
  exists (fr, fc), rng', cols. cbn [fst snd]. rewrite Eo.
  split; [|repeat split; assumption].
  subst s1. revert Erf Epl Eo Hc Hfd. unfold collides, next_head.
  open_app s. subst. destruct g_snake as [|hd tl]; [congruence|].
  intros Erf Epl Eo Hc Hfd.
  unfold _snake_game_tick, bind, get, modify, lift, after, dev. cbn.
  unfold in_bounds in Hc. cbn [fst snd] in Hc. rewrite Hc.
  rewrite Hfd. cbn. unfold constant in Erf. rewrite Erf. cbn. rewrite show_snake_score_eq. cbn.
  rewrite Eo. cbn in Epl. rewrite Epl.
  rewrite mm_send_cols_ok. reflexivity.
Qed.

Lemma pair_eqb_eq (p q : Z * Z) : Py.pair_eqb p q = true <-> p = q.
Proof.
  destruct p as [a b], q as [c d]. unfold Py.pair_eqb. cbn. split.
  - intros H. apply andb_prop in H. destruct H as [H1 H2].
    apply Z.eqb_eq in H1, H2. congruence.
  - intros [= -> ->]. rewrite !Z.eqb_refl. reflexivity.
Qed.

Lemma pair_eqb_neq (p q : Z * Z) : Py.pair_eqb p q = false <-> p <> q.
Proof.
  rewrite <- pair_eqb_eq. destruct (Py.pair_eqb p q); split; congruence.
Qed.

Lemma mem_In (p : Z * Z) (l : list (Z * Z)) : Py.mem p l = true <-> In p l.
Proof.
  unfold Py.mem. rewrite existsb_exists. split.
  - intros (q & Hq & E). apply pair_eqb_eq in E. subst. exact Hq.
  - intros H. exists p. split; [exact H | apply pair_eqb_eq; reflexivity].
Qed.

Lemma in_bounds_on_grid (p : Z * Z) : in_bounds p = true <-> on_grid p.
Proof. unfold in_bounds, on_grid. lia. Qed.

Lemma collides_true (s : App) :
  collides s = true <-> (~ on_grid (next_head s) \/ In (next_head s) (_g_snake s)).
Proof.
  unfold collides. rewrite orb_true_iff, negb_true_iff, mem_In.
  rewrite <- in_bounds_on_grid. destruct (in_bounds (next_head s)); intuition congruence.
Qed.

Lemma collides_false (s : App) :
  collides s = false <-> (on_grid (next_head s) /\ ~ In (next_head s) (_g_snake s)).
Proof.
  rewrite <- in_bounds_on_grid, <- mem_In. unfold collides.
  destruct (in_bounds (next_head s)), (Py.mem (next_head s) (_g_snake s));
    cbn; intuition congruence.
Qed.

(** Every call of the tick from a well-formed game returns, and does one
    of the four things of [tick_rel]. *)
Lemma snake_tick_rel (s : App) :
  game_wf s ->
  exists s', _snake_game_tick s = Some (tt, s') /\ tick_rel s s' /\
             _g_paused s' = _g_paused s.
Proof.
  intros Hwf.
  destruct (enabled snake_game s) eqn:He.
  2:{ exists s. split; [apply snake_tick_disabled; exact He|].
      split; [apply tick_idle; repeat split | reflexivity]. }
  destruct (_g_paused s) eqn:Hp.
  { eexists. split; [apply snake_tick_paused; assumption|].
    split; [apply tick_idle; destruct s; repeat split | destruct s; exact Hp]. }
  destruct (collides s) eqn:Hc.
  { eexists. split; [apply snake_tick_game_over; try assumption; apply Hwf|].
    split; [apply tick_over; try exact Hc; destruct s; reflexivity
           | destruct s; exact Hp]. }
  destruct (Py.pair_eqb (next_head s) (_g_food s)) eqn:Hf.
  - destruct (snake_tick_eat s He Hp Hwf Hc Hf)
      as (food & rng' & cols & E & Hb & Hfree & Hfull & _).
    eexists. split; [exact E|].
    apply pair_eqb_eq in Hf.
    split; [apply tick_eat; try assumption; destruct s; try reflexivity; assumption
           | destruct s; exact Hp].
  - destruct (snake_tick_move s He Hp Hwf Hc Hf) as (cols & E & _).
    eexists. split; [exact E|].
    apply pair_eqb_neq in Hf.
    split; [apply tick_move; try assumption; destruct s; reflexivity
           | destruct s; exact Hp].
Qed.

Lemma same_game_wf (s s' : App) : same_game s s' -> game_wf s -> game_wf s'.
Proof.
  intros (E1 & _ & _ & E4 & _). unfold game_wf. rewrite E1, E4. auto.
Qed.

Lemma tick_rel_pre (s1 s s' : App) :
  same_game s s1 -> tick_rel s1 s' -> tick_rel s s'.
Proof.
  intros (E1 & E2 & E3 & E4 & E5) H.
  assert (En : next_head s1 = next_head s).
  { unfold next_head. rewrite E1, E3. reflexivity. }
  assert (Ec : collides s1 = collides s).
  { unfold collides. rewrite En, E1. reflexivity. }
  destruct H as [(F1 & F2 & F3 & F4 & F5) | | |].
  - apply tick_idle. repeat split; congruence.
  - apply tick_over; congruence.
  - apply tick_move; congruence.
  - apply tick_eat; try assumption; congruence.
Qed.

Lemma In_removelast {A} (x : A) (l : list A) : In x (removelast l) -> In x l.
Proof.
  induction l as [|a t IH]; cbn; [auto|].
  destruct t; cbn in *; [tauto|]. intros [H|H]; auto.
Qed.

Lemma tick_rel_wf (s s' : App) : game_wf s -> tick_rel s s' -> game_wf s'.
Proof.
  intros Hwf H. destruct H as [H | Hc E1 E2 E3 E4 E5 | Hc Hf E1 E2 E3 E4 E5
                              | Hc Hf E1 E2 E3 Hb Hfree Hfull E5].
  - eapply same_game_wf; eauto.
  - destruct Hwf as (Hne & Hin & Hfood). unfold game_wf. rewrite E1, E4. auto.
  - destruct Hwf as (Hne & Hin & Hfood). unfold game_wf. rewrite E1, E4.
    split; [discriminate|]. split; [|exact Hfood].
    constructor; [apply in_bounds_next_head; exact Hc|].
    apply removelast_forall. exact Hin.
  - destruct Hwf as (Hne & Hin & Hfood). unfold game_wf. rewrite E1.
    split; [discriminate|]. split; [|exact Hb].
    constructor; [apply in_bounds_next_head; exact Hc | exact Hin].
Qed.

Lemma is_dir_not_neg (d : Z * Z) : is_dir d -> d <> neg_dir d.
Proof. intros [-> | [-> | [-> | ->]]]; discriminate. Qed.

Lemma tick_rel_dir (s s' : App) :
  dir_inv s -> tick_rel s s' ->
  dir_inv s' /\ _g_dir s' <> neg_dir (_g_dir s) /\
  (_g_dir s' = _g_dir s \/ _g_dir s' = _g_pending s).
Proof.
  intros (Hd & Hp & Hn) H.
  assert (G : (_g_dir s' = _g_dir s \/ _g_dir s' = _g_pending s) /\
              _g_pending s' = _g_pending s).
  { destruct H as [(_ & E2 & E3 & _) | | |]; auto. }
  destruct G as [G Ep]. unfold dir_inv. rewrite Ep.
  destruct G as [E|E]; rewrite E.
  - repeat split; auto. apply is_dir_not_neg. exact Hd.
  - repeat split; auto. apply is_dir_not_neg. exact Hp.
Qed.

Lemma tick_rel_food (s s' : App) :
  game_wf s -> food_inv s -> tick_rel s s' -> food_inv s'.
Proof.
  intros Hwf Hfi H. destruct H as [(E1 & _ & _ & E4 & _) | Hc E1 E2 E3 E4 E5
                                  | Hc Hf E1 E2 E3 E4 E5
                                  | Hc Hf E1 E2 E3 Hb Hfree Hfull E5];
    unfold food_inv in *.
  - rewrite E1, E4. exact Hfi.
  - rewrite E1, E4. exact Hfi.
  - rewrite E1, E4. intros _ [Hh|Ht].
    + apply Hf. exact Hh.
    + apply In_removelast in Ht. revert Ht. apply Hfi.
      apply collides_false in Hc. destruct Hc as [Hg Hni].
      intros Hnil.
      assert (Hin : In (next_head s) (free_cells (_g_snake s))).
      { apply in_free_cells. split; [apply in_bounds_on_grid; exact Hg|].
        destruct (Py.mem (next_head s) (_g_snake s)) eqn:Em; [|reflexivity].
        apply mem_In in Em. contradiction. }
      rewrite Hnil in Hin. exact Hin.
  - intros Hne Hin. specialize (Hfree Hne). apply in_free_cells in Hfree.
    destruct Hfree as [_ Hm]. apply mem_In in Hin. congruence.
Qed.

(** *** the handlers of the game events *)

Lemma snake_key_rel (dr dc : Z) (s : App) :
  exists s', _snake_key dr dc s = Some (tt, s') /\
             _g_snake s' = _g_snake s /\ _g_dir s' = _g_dir s /\
             _g_food s' = _g_food s /\ _g_score s' = _g_score s /\
             (_g_pending s' = _g_pending s \/
              (_g_pending s' = (dr, dc) /\ (dr, dc) <> neg_dir (_g_dir s))).
Proof.
  unfold _snake_key, bind, get.
  destruct (_g_dir s) as [pr pc] eqn:Ed.
  destruct (Py.pair_eqb (dr, dc) (- pr, - pc)) eqn:E.
  - exists s. cbn. rewrite Ed. repeat split; auto.
  - eexists. split; [reflexivity|]. destruct s; cbn in *.
    repeat split; try assumption. right. split; [reflexivity|].
    apply pair_eqb_neq in E. exact E.
Qed.

Lemma toggle_pause_rel (s : App) :
  exists s', _snake_game_toggle_pause s = Some (tt, s') /\ same_game s s'.
Proof.
  unfold _snake_game_toggle_pause, bind, get.
  destruct (loop_snake_game (loops s)); cbn [negb].
  - open_app s. destruct g_paused; eexists; (split; [reflexivity|]);
      repeat split.
  - exists s. split; [reflexivity | repeat split].
Qed.

Lemma free_cells_start : free_cells [(3, 2); (3, 1); (3, 0)] <> [].
Proof. vm_compute. discriminate. Qed.

Lemma reset_rel (s : App) :
  exists s', _snake_game_reset s = Some (tt, s') /\
             _g_snake s' = [(3, 2); (3, 1); (3, 0)] /\
             _g_dir s' = (0, 1) /\ _g_pending s' = (0, 1) /\
             _g_score s' = 0 /\
             In (_g_food s') (free_cells [(3, 2); (3, 1); (3, 0)]).
Proof.
  set (s1 := s <| _g_snake := [(3, 2); (3, 1); (3, 0)] |>
               <| _g_dir := (0, 1) |> <| _g_pending := (0, 1) |>).
  destruct (rand_food_ok [(3, 2); (3, 1); (3, 0)] s1)
    as (food & rng' & E & _ & Hfree & _).
  specialize (Hfree free_cells_start).
  subst s1. revert E. open_app s. unfold constant. intros E.
  unfold _snake_game_reset, bind, get, modify. cbn.
  rewrite E. cbn. rewrite show_snake_score_eq. cbn.
  eexists. split; [reflexivity|]. cbn. repeat split. exact Hfree.
Qed.

Lemma snake_start_rel (s : App) :
  game_wf s ->
  exists s', _snake_game_start s = Some (tt, s') /\ tick_rel s s'.
Proof.
  intros Hwf.
  set (s1 := s <| loops -> loop_spin := false |> <| loops -> loop_twinkle := false |>
               <| loops -> loop_mini_rain := false |>
               <| loops -> loop_mini_snake := false |>
               <| loops -> loop_ball := false |> <| loops -> loop_stickman := false |>
               <| loops -> loop_gol := false |> <| loops -> loop_clock_bars := false |>
               <| loops -> loop_snake_game := false |>
               <| vfd ::= VFD.mm_clear |>
               <| loops -> loop_snake_game := true |>
               <| _g_paused := false |>
               <| snake_score_lbl := ("Score: " ++ Py.str_int (_g_score s))%string |>
               <| vfd ::= score_sends (_g_score s) |>).
  assert (Hsame : same_game s s1) by (destruct s; repeat split).
  destruct (snake_tick_rel s1) as (s' & E & Hrel & _).
  { eapply same_game_wf; eauto. }
  exists s'. split; [|eapply tick_rel_pre; eauto].
  rewrite <- E. subst s1. clear. open_app s.
  unfold _snake_game_start, _stop_all_mm, bind, modify, dev'. cbn.
  rewrite show_snake_score_eq. reflexivity.
Qed.

Lemma fire_tick_rel (s : App) :
  game_wf s ->
  exists s', fire cb_snake_game_tick s = Some (tt, s') /\ tick_rel s s'.
Proof.
  intros Hwf. unfold fire, bind, get.
  destruct (take_timer cb_snake_game_tick (timers s)) as [t'|].
  - set (s1 := s <| timers := t' |>).
    assert (Hsame : same_game s s1) by (destruct s; repeat split).
    destruct (snake_tick_rel s1) as (s' & E & Hrel & _).
    { eapply same_game_wf; eauto. }
    exists s'. split; [|eapply tick_rel_pre; eauto].
    rewrite <- E. reflexivity.
  - exists s. split; [reflexivity|]. apply tick_idle. repeat split.
Qed.

(** *** [__init__] *)

Lemma set_rng_twice (s : App) (r1 r2 : list Z) :
  s <| rng := r1 |> <| rng := r2 |> = s <| rng := r2 |>.
Proof. destruct s; reflexivity. Qed.

Lemma set_rng_same (s : App) : s = s <| rng := rng s |>.
Proof. destruct s; reflexivity. Qed.

Lemma next_raw_ok (s : App) :
  exists x rng', next_raw s = Some (x, s <| rng := rng' |>).
Proof.
  unfold next_raw. destruct (rng s) as [|x t] eqn:E.
  - exists 0, (rng s). rewrite <- set_rng_same. reflexivity.
  - exists x, t. reflexivity.
Qed.

Lemma forM_rng {A B} (f : B -> A -> M B) (l : list A) :
  (forall b x s, exists b' rng', f b x s = Some (b', s <| rng := rng' |>)) ->
  forall b s, exists b' rng', forM l f b s = Some (b', s <| rng := rng' |>).
Proof.
  intros Hf. induction l as [|x t IH]; intros b s; cbn [forM].
  - exists b, (rng s). unfold ret. rewrite <- set_rng_same. reflexivity.
  - unfold bind. destruct (Hf b x s) as (b1 & r1 & E1). rewrite E1.
    destruct (IH b1 (s <| rng := r1 |>)) as (b2 & r2 & E2). rewrite E2.
    exists b2, r2. rewrite set_rng_twice. reflexivity.
Qed.

Lemma rand_grid_ok (s : App) :
  exists g rng', _rand_grid s = Some (g, s <| rng := rng' |>).
Proof.
  unfold _rand_grid. apply forM_rng. intros g _ s1. unfold bind.
  destruct (forM_rng
              (fun row (_ : Z) => u <- random_random ;;
                 ret (row ++ [if Qltb u rand_grid_p then 1 else 0]))
              (Py.range 9)) with (b := @nil Z) (s := s1) as (row & r & E).
  { intros b _ s2. unfold bind, random_random, bind, ret.
    destruct (next_raw_ok s2) as (x & r & E). rewrite E. eauto. }
  unfold bind in E. rewrite E. unfold ret. eauto.
Qed.

Lemma init_ok (h : Host) (draws : list Z) :
  exists s0, __init__ h draws = Some s0 /\ game_inv s0 /\
             enabled snake_game s0 = false /\ VFD.connected (vfd s0) = false.
Proof.
  unfold __init__, bind.
  destruct (rand_grid_ok (init_fields h draws)) as (g & r & E). rewrite E.
  unfold modify, get.
  set (s1 := (init_fields h draws) <| rng := r |> <| _gol_grid := g |>).
  destruct (rand_food_ok [(3, 2); (3, 1); (3, 0)] s1)
    as (food & r' & Ef & Hb & Hfree & _).
  specialize (Hfree free_cells_start).
  change (_g_snake _) with [(3, 2); (3, 1); (3, 0)].
  fold s1. rewrite Ef. eexists. split; [reflexivity|].
  cbn. split; [|split; reflexivity].
  split; [|split].
  - split; [discriminate|]. split; [repeat constructor | exact Hb].
  - unfold dir_inv, is_dir. cbn. split; [auto|]. split; [auto | discriminate].
  - unfold food_inv, constant. cbn -[In]. intros _ Hin.
    apply in_free_cells in Hfree. destruct Hfree as [_ Hm].
    apply (proj2 (mem_In _ _)) in Hin. congruence.
Qed.

Lemma same_game_inv (s s' : App) : same_game s s' -> game_inv s -> game_inv s'.
Proof.
  intros Hs (Hwf & Hd & Hf). pose proof Hs as (E1 & E2 & E3 & E4 & E5).
  split; [eapply same_game_wf; eauto|].
  unfold dir_inv, food_inv in *. rewrite E1, E2, E3, E4. auto.
Qed.

Lemma tick_rel_inv (s s' : App) :
  game_inv s -> tick_rel s s' ->
  game_inv s' /\ _g_dir s' <> neg_dir (_g_dir s) /\
  (_g_dir s' = _g_dir s \/ _g_dir s' = _g_pending s).
Proof.
  intros (Hwf & Hd & Hf) H.
  destruct (tick_rel_dir s s' Hd H) as (Hd' & Hn & Hor).
  split; [|split; assumption].
  split; [eapply tick_rel_wf; eauto|].
  split; [exact Hd' | eapply tick_rel_food; eauto].
Qed.

Lemma is_dir_key (k : Key) : is_dir (key_dir k).
Proof. unfold is_dir. destruct k; cbn; auto. Qed.

(** One event of a game, from a state of a game: the handler returns, the
    state stays one of a game, and the current direction is not turned
    round (unless the game is reset). *)
Lemma game_step (ev : Event) (s : App) :
  game_event ev -> game_inv s ->
  exists s', handle ev s = Some (tt, s') /\ game_inv s' /\
             (ev <> ev_reset -> _g_dir s' <> neg_dir (_g_dir s)) /\
             (_g_dir s' = _g_dir s \/ _g_dir s' = _g_pending s \/ ev = ev_reset).
Proof.
  intros Hev Hinv. pose proof Hinv as (Hwf & (Hd & Hp & Hn) & Hf).
  destruct ev as [port ok| |e|e|k| | | |cb]; try contradiction.
  - (* Start *)
    destruct e; try contradiction. cbn [handle start].
    destruct (snake_start_rel s Hwf) as (s' & E & Hrel).
    destruct (tick_rel_inv s s' Hinv Hrel) as (Hinv' & Hn' & Hor).
    exists s'. split; [exact E|]. split; [exact Hinv'|].
    split; [intros _; exact Hn' | tauto].
  - (* a key *)
    cbn [handle].
    destruct (snake_key_rel (fst (key_dir k)) (snd (key_dir k)) s)
      as (s' & E & E1 & E2 & E4 & E5 & Hpend).
    rewrite <- surjective_pairing in Hpend.
    exists s'. split; [exact E|]. rewrite E2. split; [|split].
    + split; [|split].
      * destruct Hwf as (Hne & Hin & Hfood). unfold game_wf. rewrite E1, E4. auto.
      * unfold dir_inv. rewrite E2.
        destruct Hpend as [Ep | [Ep Hnk]]; rewrite Ep; repeat split; auto.
        apply is_dir_key.
      * unfold food_inv. rewrite E1, E4. exact Hf.
    + intros _. apply is_dir_not_neg. exact Hd.
    + auto.
  - (* Pause/Resume *)
    cbn [handle]. destruct (toggle_pause_rel s) as (s' & E & Hs).
    exists s'. split; [exact E|]. split; [eapply same_game_inv; eauto|].
    destruct Hs as (_ & E2 & _). rewrite E2. split; [|auto].
    intros _. apply is_dir_not_neg. exact Hd.
  - (* Reset *)
    cbn [handle]. destruct (reset_rel s) as (s' & E & E1 & E2 & E3 & E5 & Hfood).
    exists s'. split; [exact E|]. split; [|split; [congruence | auto]].
    apply in_free_cells in Hfood. destruct Hfood as [Hb Hm].
    split; [|split].
    + unfold game_wf. rewrite E1. split; [discriminate|].
      split; [repeat constructor | exact Hb].
    + unfold dir_inv, is_dir. rewrite E2, E3. split; [auto|].
      split; [auto | discriminate].
    + unfold food_inv. rewrite E1. intros _ Hin.
      apply (proj2 (mem_In _ _)) in Hin. congruence.
  - (* the game's timer *)
    destruct cb; try contradiction. cbn [handle].
    destruct (fire_tick_rel s Hwf) as (s' & E & Hrel).
    destruct (tick_rel_inv s s' Hinv Hrel) as (Hinv' & Hn' & Hor).
    exists s'. split; [exact E|]. split; [exact Hinv'|].
    split; [intros _; exact Hn' | tauto].
Qed.

Lemma game_run (evs : list Event) :
  Forall game_event evs ->
  forall s, game_inv s ->
  never_reverses evs s /\ exists s', run evs s = Some s' /\ game_inv s'.
Proof.
  induction 1 as [|ev rest Hev Hrest IH]; intros s Hinv; cbn [never_reverses run].
  - split; [exact I | eauto].
  - destruct (game_step ev s Hev Hinv) as (s1 & E & Hinv1 & Hn & Hor).
    destruct (IH s1 Hinv1) as (Hnr & s' & Er & Hinv').
    rewrite E. cbn [snd]. split; [|eauto].
    exists s1. repeat split; try assumption. apply Hinv1.
Qed.



Lemma NoDup_all_cells : NoDup all_cells.
Proof.
  assert (H : nodup cell_eq_dec all_cells = all_cells) by (vm_compute; reflexivity).
  rewrite <- H. apply NoDup_nodup.
Qed.

(** A snake that leaves no cell free has at least 63 cells. *)
Lemma free_cells_nil_length (snake : list (Z * Z)) :
  free_cells snake = [] -> (63 <= List.length snake)%nat.
Proof.
  intros Hnil. change 63%nat with (List.length all_cells).
  apply NoDup_incl_length; [apply NoDup_all_cells|].
  intros p Hp. apply mem_In.
  destruct (Py.mem p snake) eqn:Em; [reflexivity|].
  assert (Hin : In p (free_cells snake)).
  { unfold free_cells. apply filter_In. split; [exact Hp|]. rewrite Em. reflexivity. }
  rewrite Hnil in Hin. destruct Hin.
Qed.

(** C6, as first stated, fails: in the game that fills the grid the last
    food is put on the snake. *)
Lemma C6_counterexample : ~ food_never_on_snake.
Proof.
  intros H.
  destruct (run full_grid_events
              (match __init__ demo_host full_grid_draws with
               | Some s0 => s0 | None => init_fields demo_host [] end))
    as [s|] eqn:E; [|vm_compute in E; discriminate].
  apply (H demo_host full_grid_draws full_grid_events _ s eq_refl).
  - repeat (constructor; [exact I|]). constructor.
  - exact E.
  - vm_compute in E. injection E as <-. vm_compute. tauto.
Qed.

(** C6. From a fresh [App], after any sequence of game events (keys,
    Start, Pause/Resume, Reset, ticks, food relocated on eating among
    them) every handler has returned and, as long as the snake has fewer
    than 63 cells, the food is on no cell of the snake. *)
Theorem C6_food_off_snake (h : Host) (draws : list Z) (evs : list Event) :
  Forall game_event evs ->
  exists s0 s,
    __init__ h draws = Some s0 /\ run evs s0 = Some s /\
    ((List.length (_g_snake s) < 63)%nat -> ~ In (_g_food s) (_g_snake s)) /\
    (free_cells (_g_snake s) <> [] -> ~ In (_g_food s) (_g_snake s)).
Proof.
  intros Hevs. destruct (init_ok h draws) as (s0 & E & Hinv & _).
  destruct (game_run evs Hevs s0 Hinv) as (_ & s & Er & (_ & _ & Hf)).
  exists s0, s. split; [exact E|]. split; [exact Er|]. split; [|exact Hf].
  intros Hlen. apply Hf. intros Hnil.
  apply free_cells_nil_length in Hnil. lia.
Qed.

Lemma C6_food_off_snake_witness :
  exists s0 s,
    __init__ demo_host [0; 0; 5] = Some s0 /\
    run [ev_start snake_game; ev_key key_down; ev_timer cb_snake_game_tick;
         ev_reset; ev_timer cb_snake_game_tick] s0 = Some s /\
    ((List.length (_g_snake s) < 63)%nat -> ~ In (_g_food s) (_g_snake s)) /\
    (free_cells (_g_snake s) <> [] -> ~ In (_g_food s) (_g_snake s)).
Proof.
  apply (C6_food_off_snake demo_host [0; 0; 5]).
  repeat (constructor; [exact I|]). constructor.
Defined.

Lemma length_removelast_cons {A} (x y : A) (l : list A) :
  List.length (x :: removelast (y :: l)) = List.length (y :: l).
Proof.
  cbn [List.length]. f_equal. revert y.
  induction l as [|a t IH]; intros y; [reflexivity|].
  change (removelast (y :: a :: t)) with (y :: removelast (a :: t)).
  cbn [List.length]. rewrite IH. reflexivity.
Qed.

(** C4. A tick of the running, un-paused game from a well-formed state
    returns, and: with snake [(3,2),(3,1),(3,0)] and the direction (0,1)
    to apply, the head moves to (3,3); when the new head is on the grid
    and not on the snake, the game goes on, and either the new head is
    the food cell and the snake is the old one with the new head in
    front (one longer, the tail kept) and the score is one higher, or it
    is not and the snake is the new head in front of the old snake
    without its last cell (same length) and the score the same; when the
    new head is off the 7x9 grid (as (3,-1)) or on a cell of the snake,
    the game is over: the effect is disabled. *)
Theorem C4_snake_tick (s : App) :
  enabled snake_game s = true -> _g_paused s = false -> game_wf s ->
  exists s',
    _snake_game_tick s = Some (tt, s') /\
    (_g_snake s = [(3, 2); (3, 1); (3, 0)] -> _g_pending s = (0, 1) ->
     next_head s = (3, 3) /\ hd_error (_g_snake s') = Some (3, 3) /\
     enabled snake_game s' = true) /\
    (on_grid (next_head s) -> ~ In (next_head s) (_g_snake s) ->
     enabled snake_game s' = true /\
     hd_error (_g_snake s') = Some (next_head s) /\
     (next_head s = _g_food s ->
      _g_snake s' = next_head s :: _g_snake s /\
      List.length (_g_snake s') = S (List.length (_g_snake s)) /\
      _g_score s' = _g_score s + 1) /\
     (next_head s <> _g_food s ->
      _g_snake s' = next_head s :: removelast (_g_snake s) /\
      List.length (_g_snake s') = List.length (_g_snake s) /\
      _g_score s' = _g_score s)) /\
    (~ on_grid (next_head s) \/ In (next_head s) (_g_snake s) ->
     enabled snake_game s' = false) /\
    (hd_error (_g_snake s) = Some (3, 0) -> _g_pending s = (0, -1) ->
     next_head s = (3, -1) /\ enabled snake_game s' = false).
Proof.
  intros He Hp Hwf.
  assert (G : exists s',
             _snake_game_tick s = Some (tt, s') /\
             (collides s = true -> enabled snake_game s' = false) /\
             (collides s = false ->
              enabled snake_game s' = true /\
              (next_head s = _g_food s ->
               _g_snake s' = next_head s :: _g_snake s /\
               _g_score s' = _g_score s + 1) /\
              (next_head s <> _g_food s ->
               _g_snake s' = next_head s :: removelast (_g_snake s) /\
               _g_score s' = _g_score s))).
  { destruct (collides s) eqn:Hc.
    - eexists. split; [apply snake_tick_game_over; try assumption; apply Hwf|].
      split; [intros _; destruct s; reflexivity | discriminate].
    - destruct (Py.pair_eqb (next_head s) (_g_food s)) eqn:Hf.
      + destruct (snake_tick_eat s He Hp Hwf Hc Hf) as (food & rng' & cols & E & _).
        apply pair_eqb_eq in Hf.
        eexists. split; [exact E|]. split; [discriminate|]. intros _.
        split; [destruct s; exact He|].
        split; [intros _; destruct s; split; reflexivity | congruence].
      + destruct (snake_tick_move s He Hp Hwf Hc Hf) as (cols & E & _).
        apply pair_eqb_neq in Hf.
        eexists. split; [exact E|]. split; [discriminate|]. intros _.
        split; [destruct s; exact He|].
        split; [congruence | intros _; destruct s; split; reflexivity]. }
  destruct G as (s' & E & Hover & Hgo). exists s'. split; [exact E|].
  assert (Hgrid : on_grid (next_head s) -> ~ In (next_head s) (_g_snake s) ->
                  enabled snake_game s' = true /\
                  hd_error (_g_snake s') = Some (next_head s) /\
                  (next_head s = _g_food s ->
                   _g_snake s' = next_head s :: _g_snake s /\
                   List.length (_g_snake s') = S (List.length (_g_snake s)) /\
                   _g_score s' = _g_score s + 1) /\
                  (next_head s <> _g_food s ->
                   _g_snake s' = next_head s :: removelast (_g_snake s) /\
                   List.length (_g_snake s') = List.length (_g_snake s) /\
                   _g_score s' = _g_score s)).
  { intros Hg Hni.
    destruct (Hgo (proj2 (collides_false s) (conj Hg Hni))) as (He' & Heat & Hmove).
    split; [exact He'|]. split; [|split].
    - destruct (cell_eq_dec (next_head s) (_g_food s)) as [Ef|Ef].
      + destruct (Heat Ef) as [-> _]. reflexivity.
      + destruct (Hmove Ef) as [-> _]. reflexivity.
    - intros Ef. destruct (Heat Ef) as [E1 E2]. rewrite E1. auto.
    - intros Ef. destruct (Hmove Ef) as [E1 E2]. rewrite E1.
      split; [reflexivity|]. split; [|exact E2].
      destruct Hwf as (Hne & _). destruct (_g_snake s) as [|y l]; [congruence|].
      apply length_removelast_cons. }
  split; [|split; [exact Hgrid|split]].
  - intros Es Ed.
    assert (En : next_head s = (3, 3)).
    { unfold next_head. rewrite Es, Ed. reflexivity. }
    destruct Hgrid as (He' & Hhd & _).
    + rewrite En. unfold on_grid. cbn. lia.
    + rewrite En, Es. cbn. intros [H|[H|[H|[]]]]; discriminate.
    + rewrite En in Hhd. auto.
  - intros H. apply Hover. apply collides_true. exact H.
  - intros Eh Ed.
    assert (En : next_head s = (3, -1)).
    { unfold next_head. destruct (_g_snake s) as [|y l]; [discriminate|].
      cbn in Eh. injection Eh as ->. rewrite Ed. reflexivity. }
    split; [exact En|]. apply Hover. apply collides_true. left.
    rewrite En. unfold on_grid. cbn. lia.
Qed.

Lemma C4_snake_tick_witness :
  exists s',
    _snake_game_tick demo_game = Some (tt, s') /\
    _g_snake s' = [(3, 3); (3, 2); (3, 1)] /\ enabled snake_game s' = true.
Proof.
  destruct (C4_snake_tick demo_game) as (s' & E & Hex & Hgrid & _).
  - reflexivity.
  - reflexivity.
  - split; [discriminate|]. split; [repeat constructor | reflexivity].
  - exists s'. split; [exact E|].
    destruct Hgrid as (He & _ & _ & Hmove).
    + unfold on_grid. cbn. lia.
    + cbn. intros [H|[H|[H|[]]]]; discriminate.
    + destruct Hmove as (Es & _); [discriminate|]. split; [exact Es | exact He].
Defined.

(** C10. A tick that ends in Game Over (new head off the grid or on a
    cell of the snake) returns the state it was called in with just the
    current direction overwritten by the pending one, the effect
    disabled, and the status text sent to the device: snake, food and
    score are as before, no timer is added, and what goes on the wire is
    the three writes of the status line (select line 2, home, the 16
    characters), none of them a mini-matrix frame. *)
Theorem C10_game_over_tick (s : App) :
  enabled snake_game s = true -> _g_paused s = false -> _g_snake s <> [] ->
  (~ on_grid (next_head s) \/ In (next_head s) (_g_snake s)) ->
  exists s',
    _snake_game_tick s = Some (tt, s') /\
    s' = s <| _g_dir := _g_pending s |>
           <| vfd := game_over_sends (vfd s) |>
           <| loops -> loop_snake_game := false |> /\
    _g_snake s' = _g_snake s /\ _g_food s' = _g_food s /\
    _g_score s' = _g_score s /\ _g_pending s' = _g_pending s /\
    _g_paused s' = _g_paused s /\
    _g_dir s' = _g_pending s /\ enabled snake_game s' = false /\
    timers s' = timers s /\
    VFD.wire (vfd s')
    = (if VFD.connected (vfd s)
       then VFD.wire (vfd s) ++
              [[0x1B; 0x22]; [0x1B; 0x51];
               [71; 97; 109; 101; 32; 79; 118; 101; 114; 33; 32; 32; 32; 32; 32; 32]]
       else VFD.wire (vfd s)) /\
    (forall b, In b (skipn (List.length (VFD.wire (vfd s))) (VFD.wire (vfd s'))) ->
               firstn 2 b <> [0x1B; 0x31]).
Proof.
  intros He Hp Hne Hc. apply collides_true in Hc.
  eexists. split; [apply snake_tick_game_over; assumption|].
  split; [reflexivity|].
  assert (Hw : VFD.wire (game_over_sends (vfd s))
               = if VFD.connected (vfd s)
                 then VFD.wire (vfd s) ++
                        [[0x1B; 0x22]; [0x1B; 0x51];
                         [71; 97; 109; 101; 32; 79; 118; 101; 114; 33;
                          32; 32; 32; 32; 32; 32]]
                 else VFD.wire (vfd s)).
  { unfold game_over_sends. rewrite !wire_send, !connected_send.
    destruct (VFD.connected (vfd s)); [|reflexivity].
    rewrite <- !app_assoc. reflexivity. }
  open_app s. repeat split; try reflexivity; try assumption.
  intros b. rewrite Hw. destruct (VFD.connected s_vfd).
  - rewrite skipn_app, skipn_all, Nat.sub_diag. cbn.
    intros [<-|[<-|[<-|[]]]]; discriminate.
  - rewrite skipn_all. intros [].
Qed.

Lemma C10_game_over_tick_witness :
  exists s',
    _snake_game_tick (demo_game <| _g_snake := [(3, 0); (3, 1); (3, 2)] |>
                                <| _g_pending := (0, -1) |>)
    = Some (tt, s') /\
    _g_snake s' = [(3, 0); (3, 1); (3, 2)] /\ enabled snake_game s' = false.
Proof.
  destruct (C10_game_over_tick
              (demo_game <| _g_snake := [(3, 0); (3, 1); (3, 2)] |>
                         <| _g_pending := (0, -1) |>))
    as (s' & E & _ & Es & _ & _ & _ & _ & _ & He & _).
  - reflexivity.
  - reflexivity.
  - discriminate.
  - left. unfold on_grid. cbn. lia.
  - exists s'. split; [exact E|]. split; [exact Es | exact He].
Defined.

Arguments random_random : simpl never.
Arguments randint : simpl never.
Arguments rain_advance : simpl never.

(** ** Rain *)

Lemma plot_bits (cells : list (Z * Z)) :
  Forall (fun p => in_bounds p = true) cells ->
  forall cols, List.length cols = 9%nat ->
  exists cols',
    plot cells cols = Some cols' /\ List.length cols' = 9%nat /\
    forall r c, 0 <= r -> 0 <= c <= 8 ->
      Z.testbit (nth (Z.to_nat c) cols' 0) r
      = Z.testbit (nth (Z.to_nat c) cols 0) r || Py.mem (r, c) cells.
Proof.
  unfold plot. induction 1 as [|[r0 c0] t Hp Ht IH]; intros cols Hl; cbn [Py.foldM].
  - exists cols. split; [reflexivity|]. split; [exact Hl|].
    intros r c _ _. rewrite orb_false_r. reflexivity.
  - cbn [fst snd]. rewrite or_bit_ok by assumption.
    destruct (IH (Py.replace_nth (Z.to_nat c0)
                    (Z.lor (nth (Z.to_nat c0) cols 0) (Z.shiftl 1 r0)) cols))
      as (cols' & E & Hl' & Hbits).
    { rewrite length_replace_nth. exact Hl. }
    exists cols'. split; [exact E|]. split; [exact Hl'|].
    intros r c Hr Hc. rewrite Hbits by assumption.
    unfold in_bounds in Hp. cbn [fst snd] in Hp.
    rewrite nth_replace_nth by lia.
    unfold Py.mem. cbn [existsb]. fold (Py.mem (r, c) t).
    unfold Py.pair_eqb. cbn [fst snd].
    destruct (Z.eqb_spec c c0) as [->|Hne].
    + rewrite Nat.eqb_refl, Z.lor_spec, Z.shiftl_1_l, Z.pow2_bits_eqb by lia.
      rewrite andb_true_r, (Z.eqb_sym r0 r), orb_assoc. reflexivity.
    + replace (Nat.eqb _ _) with false by (symmetry; apply Nat.eqb_neq; lia).
      rewrite andb_false_r. reflexivity.
Qed.

Lemma nth_zeros (n : nat) : nth n (repeat 0 9) 0 = 0.
Proof. apply nth_repeat. Qed.

(** The dots of the frame sent for [cols] are the low 7 bits of the
    columns. *)
Lemma testbit_land_7F (x r : Z) :
  0 <= r <= 6 -> Z.testbit (Z.land x 0x7F) r = Z.testbit x r.
Proof.
  intros Hr. change 0x7F with (Z.ones 7). rewrite Z.land_ones by lia.
  apply Z.mod_pow2_bits_low. lia.
Qed.

Lemma frame_bit_mm_frame (cols : list Z) (r c : Z) :
  List.length cols = 9%nat -> 0 <= r <= 6 -> 0 <= c <= 8 ->
  frame_bit (mm_frame cols) r c = Z.testbit (nth (Z.to_nat c) cols 0) r.
Proof.
  intros Hl Hr Hc. unfold frame_bit.
  destruct cols as [|c0 [|c1 [|c2 [|c3 [|c4 [|c5 [|c6 [|c7 [|c8 [|? ?]]]]]]]]]];
    try discriminate Hl.
  assert (Hcases : c = 0 \/ c = 1 \/ c = 2 \/ c = 3 \/ c = 4 \/ c = 5 \/
                   c = 6 \/ c = 7 \/ c = 8) by lia.
  repeat (destruct Hcases as [->|Hcases]; [apply testbit_land_7F; exact Hr|]).
  subst c. apply testbit_land_7F. exact Hr.
Qed.

Lemma random_random_ok (s : App) :
  exists u rng', random_random s = Some (u, s <| rng := rng' |>).
Proof.
  unfold random_random, bind, ret. destruct (next_raw_ok s) as (x & r & E).
  rewrite E. eauto.
Qed.

Lemma randint_ok (a b : Z) (s : App) :
  a <= b ->
  exists c rng', randint a b s = Some (c, s <| rng := rng' |>) /\ a <= c <= b.
Proof.
  intros Hab. unfold randint, bind, ret. destruct (next_raw_ok s) as (x & r & E).
  rewrite E. exists (a + x mod (b - a + 1)), r. split; [reflexivity|].
  pose proof (Z.mod_pos_bound x (b - a + 1) ltac:(lia)). lia.
Qed.

Lemma rain_advance_spec (drops : list (Z * Z)) (r c : Z) :
  In (r, c) (rain_advance drops) <-> In (r - 1, c) drops /\ r <= 6.
Proof.
  unfold rain_advance. rewrite in_flat_map. split.
  - intros ([r0 c0] & Hin & H). cbn [fst snd] in H.
    destruct (Z.leb_spec (r0 + 1) 6) as [Hle|Hgt]; [|destruct H].
    destruct H as [[= <- <-]|[]]. split; [|exact Hle].
    replace (r0 + 1 - 1) with r0 by lia. exact Hin.
  - intros [Hin Hle]. exists (r - 1, c). split; [exact Hin|]. cbn [fst snd].
    replace (r - 1 + 1) with r by lia.
    destruct (Z.leb_spec r 6); [left; reflexivity | lia].
Qed.

Lemma rain_advance_bounds (drops : list (Z * Z)) :
  Forall (fun p => in_bounds p = true) drops ->
  Forall (fun p => in_bounds p = true /\ 1 <= fst p) (rain_advance drops).
Proof.
  intros H. apply Forall_forall. intros [r c] Hin.
  apply rain_advance_spec in Hin. destruct Hin as [Hin Hle].
  rewrite Forall_forall in H. specialize (H _ Hin).
  unfold in_bounds in *. cbn [fst snd] in *. lia.
Qed.

(** What a tick of the rain does. *)
Lemma rain_tick_eq (s : App) :
  enabled mini_rain s = true ->
  Forall (fun p => in_bounds p = true) (_rain_drops s) ->
  exists rng' cols,
    _rain_tick s
    = Some (tt, s <| rng := rng' |>
                  <| _rain_drops := rain_advance (_rain_drops s ++ rain_spawn s) |>
                  <| vfd := VFD.send (mm_frame cols) (vfd s) |>
                  <| timers ::= fun t => t ++ [(ms_mini_rain (ms s), cb_rain_tick)] |>) /\
    List.length cols = 9%nat /\
    (forall r c, 0 <= r -> 0 <= c <= 8 ->
       Z.testbit (nth (Z.to_nat c) cols 0) r
       = Py.mem (r, c) (rain_advance (_rain_drops s ++ rain_spawn s))) /\
    (forall p, In p (rain_spawn s) -> fst p = 0 /\ 0 <= snd p <= 8).
Proof.
  intros He Hin.
  destruct (random_random_ok s) as (u & r1 & E1).
  destruct (Qltb u _rain_p) eqn:Hq.
  - destruct (randint_ok 0 8 (s <| rng := r1 |>) ltac:(lia)) as (c & r2 & E2 & Hc).
    assert (Es : rain_spawn s = [(0, c)]).
    { unfold rain_spawn. rewrite E1, Hq, E2. reflexivity. }
    rewrite Es.
    assert (Hall : Forall (fun p => in_bounds p = true)
                          (rain_advance (_rain_drops s ++ [(0, c)]))).
    { eapply Forall_impl; [|apply rain_advance_bounds; apply Forall_app; split;
                             [exact Hin|]].
      - cbn. tauto.
      - constructor; [|constructor]. unfold in_bounds. cbn. lia. }
    destruct (plot_bits _ Hall (repeat 0 9) eq_refl) as (cols & Epl & Hl & Hbits).
    exists r2, cols. split; [|split; [exact Hl|split]].
    + revert E1 E2 Epl. clear - He Hq. open_app s. subst. intros E1 E2 Epl.
      unfold _rain_tick, bind, get, modify, lift, dev, after. cbn.
      rewrite E1, Hq, E2. cbn. unfold constant.
      rewrite Epl, mm_send_cols_ok. reflexivity.
    + intros r0 c0 Hr Hc0. rewrite Hbits by assumption.
      rewrite nth_zeros, Z.testbit_0_l. reflexivity.
    + intros p [<-|[]]. cbn. lia.
  - assert (Es : rain_spawn s = []).
    { unfold rain_spawn. rewrite E1, Hq. reflexivity. }
    rewrite Es, app_nil_r.
    assert (Hall : Forall (fun p => in_bounds p = true) (rain_advance (_rain_drops s))).
    { eapply Forall_impl; [|apply rain_advance_bounds; exact Hin]. cbn. tauto. }
    destruct (plot_bits _ Hall (repeat 0 9) eq_refl) as (cols & Epl & Hl & Hbits).
    exists r1, cols. split; [|split; [exact Hl|split]].
    + revert E1 Epl. clear - He Hq. open_app s. subst. intros E1 Epl.
      unfold _rain_tick, bind, get, modify, lift, dev, after, ret. cbn.
      rewrite E1, Hq. cbn. unfold constant.
      rewrite Epl, mm_send_cols_ok. reflexivity.
    + intros r0 c0 Hr Hc0. rewrite Hbits by assumption.
      rewrite nth_zeros, Z.testbit_0_l. reflexivity.
    + intros p [].
Qed.

(** [_rain_p] is the double nearest to 0.35, just below it. *)
Lemma rain_p_value :
  (_rain_p < 35 # 100)%Q /\ ((35 # 100) - _rain_p < 1 # 18014398509481984)%Q.
Proof. unfold Qlt, Qminus, Qplus, Qopp, _rain_p. cbn. lia. Qed.

(** C9, as first stated, fails: a drop spawned on a tick is moved down
    with the others before the frame is built, so it shows at row 1. *)
Lemma C9_counterexample : ~ rain_spawn_shows_at_row_0.
Proof.
  intros H.
  destruct (_rain_tick demo_rain) as [[[] s']|] eqn:E; [|vm_compute in E; discriminate].
  specialize (H demo_rain s' 4 eq_refl eq_refl (Forall_nil _) E
                (or_introl eq_refl)).
  vm_compute in E. injection E as <-. vm_compute in H. discriminate.
Qed.

(** C9. On a tick of the running rain: a drop is spawned, at row 0 of a
    drawn column 0..8, exactly when [random.random() < 0.35] (the double);
    then every drop, the new one included, goes one row down and those
    that would pass row 6 are dropped; the frame sent shows exactly the
    drops so obtained.  So a drop spawned on a tick shows at row 1 of
    that tick's frame, and row 0 of the frame is dark. *)
Theorem C9_rain_tick (s : App) :
  enabled mini_rain s = true -> VFD.connected (vfd s) = true ->
  Forall (fun p => in_bounds p = true) (_rain_drops s) ->
  exists s' frame,
    _rain_tick s = Some (tt, s') /\
    (forall u s1, random_random s = Some (u, s1) ->
                  (rain_spawn s <> [] <-> Qltb u _rain_p = true)) /\
    (List.length (rain_spawn s) <= 1)%nat /\
    (forall p, In p (rain_spawn s) -> fst p = 0 /\ 0 <= snd p <= 8) /\
    _rain_drops s' = rain_advance (_rain_drops s ++ rain_spawn s) /\
    (forall r c, In (r, c) (_rain_drops s')
                 <-> In (r - 1, c) (_rain_drops s ++ rain_spawn s) /\ r <= 6) /\
    VFD.wire (vfd s') = VFD.wire (vfd s) ++ [frame] /\
    List.length frame = 11%nat /\
    (forall r c, 0 <= r <= 6 -> 0 <= c <= 8 ->
                 frame_bit frame r c = true <-> In (r, c) (_rain_drops s')) /\
    (forall c, In (0, c) (rain_spawn s) -> frame_bit frame 1 c = true) /\
    (forall c, 0 <= c <= 8 -> frame_bit frame 0 c = false).
Proof.
  intros He Hconn Hin.
  destruct (rain_tick_eq s He Hin) as (r & cols & E & Hl & Hbits & Hsp).
  eexists. exists (mm_frame cols). split; [exact E|].
  assert (Ed : _rain_drops
                 (s <| rng := r |>
                    <| _rain_drops := rain_advance (_rain_drops s ++ rain_spawn s) |>
                    <| vfd := VFD.send (mm_frame cols) (vfd s) |>
                    <| timers ::= fun t => t ++ [(ms_mini_rain (ms s), cb_rain_tick)] |>)
               = rain_advance (_rain_drops s ++ rain_spawn s))
    by (destruct s; reflexivity).
  assert (Ev : vfd
                 (s <| rng := r |>
                    <| _rain_drops := rain_advance (_rain_drops s ++ rain_spawn s) |>
                    <| vfd := VFD.send (mm_frame cols) (vfd s) |>
                    <| timers ::= fun t => t ++ [(ms_mini_rain (ms s), cb_rain_tick)] |>)
               = VFD.send (mm_frame cols) (vfd s))
    by (destruct s; reflexivity).
  rewrite Ed, Ev. clear Ed Ev E.
  assert (Hfb : forall r0 c, 0 <= r0 <= 6 -> 0 <= c <= 8 ->
                  frame_bit (mm_frame cols) r0 c
                  = Py.mem (r0, c) (rain_advance (_rain_drops s ++ rain_spawn s))).
  { intros r0 c Hr Hc. rewrite frame_bit_mm_frame by assumption.
    apply Hbits; lia. }
  split; [|split; [|split; [exact Hsp|split; [reflexivity|split;
            [intros; apply rain_advance_spec|split; [|split; [|split; [|split]]]]]]]].
  - intros u s1 E1. unfold rain_spawn. rewrite E1.
    destruct (Qltb u _rain_p); [|split; congruence].
    destruct (randint_ok 0 8 s1 ltac:(lia)) as (c & r2 & E2 & _). rewrite E2.
    split; [reflexivity | discriminate].
  - unfold rain_spawn. destruct (random_random s) as [[u s1]|]; [|cbn; lia].
    destruct (Qltb u _rain_p); [|cbn; lia].
    destruct (randint 0 8 s1) as [[c ?]|]; cbn; lia.
  - rewrite wire_send, Hconn. reflexivity.
  - unfold mm_frame. cbn [List.length app]. rewrite length_map, length_rev, Hl.
    reflexivity.
  - intros r0 c Hr Hc. rewrite Hfb by assumption. apply mem_In.
  - intros c Hc. destruct (Hsp _ Hc) as [_ Hc8]. cbn [snd] in Hc8.
    rewrite Hfb by lia. apply mem_In. apply rain_advance_spec.
    split; [|lia]. apply in_or_app. right. exact Hc.
  - intros c Hc. rewrite Hfb by lia.
    destruct (Py.mem (0, c) _) eqn:Em; [|reflexivity].
    apply mem_In in Em. apply rain_advance_spec in Em. destruct Em as [Em _].
    apply in_app_or in Em. destruct Em as [Em|Em].
    + rewrite Forall_forall in Hin. specialize (Hin _ Em).
      unfold in_bounds in Hin. cbn in Hin. lia.
    + destruct (Hsp _ Em) as [H0 _]. cbn in H0. lia.
Qed.

Lemma C9_rain_tick_witness :
  exists s' frame,
    _rain_tick demo_rain = Some (tt, s') /\
    VFD.wire (vfd s') = [frame] /\ frame_bit frame 1 4 = true /\
    frame_bit frame 0 4 = false.
Proof.
  destruct (C9_rain_tick demo_rain eq_refl eq_refl (Forall_nil _))
    as (s' & frame & E & _ & _ & _ & _ & _ & Hw & _ & _ & H1 & H0).
  exists s', frame. split; [exact E|]. split; [exact Hw|]. split.
  - apply H1. left. reflexivity.
  - apply H0. lia.
Defined.

Arguments mm_frame : simpl never.
Arguments _gol_step : simpl never.

(** ** Starting an effect *)

Ltac norm := repeat (progress (cbn; unfold constant)).




Arguments gol_cols : simpl never.
Arguments bars : simpl never.

Arguments stick_cols : simpl never.
Arguments _stick_frames : simpl never.



Lemma gol_cols_ok (g : list (list Z)) :
  is_grid g -> exists cols, gol_cols g = Some cols /\ List.length cols = 9%nat.
Proof.
  intros Hg. unfold gol_cols.
  apply (foldM_invariant _ (fun _ cols => List.length cols = 9%nat)); [|reflexivity].
  intros _ r cols Hl Hr. apply In_range in Hr.
  apply (foldM_invariant _ (fun _ cols => List.length cols = 9%nat)); [|exact Hl].
  intros _ c cols' Hl' Hc. apply In_range in Hc.
  rewrite get2_cell by (try exact Hg; lia).
  destruct (Py.truthy _); [|eauto].
  rewrite or_bit_ok by (try assumption; unfold in_bounds; cbn [fst snd]; lia).
  eexists. split; [reflexivity|]. rewrite length_replace_nth. exact Hl'.
Qed.


Lemma bars_ok (val maxval : Z) : exists l, bars val maxval = Some l.
Proof.
  unfold bars.
  rewrite (foldM_total _ (fun col i => Z.lor col (Z.shiftl 1 i))); [eauto|].
  intros col i Hi. apply In_range in Hi. unfold Py.lshift.
  replace (i <? 0) with false by lia. reflexivity.
Qed.


Lemma snake_start_eq (s : App) :
  _snake_game_start s = _snake_game_tick (snake_start_state s).
Proof.
  unfold snake_start_state. open_app s.
  unfold _snake_game_start, _stop_all_mm, bind, modify, dev'. cbn.
  rewrite show_snake_score_eq. reflexivity.
Qed.


Lemma demo_gol_wf : mm_wf demo_gol.
Proof.
  split; [|split].
  - split; [reflexivity|]. cbn. auto.
  - split; [reflexivity|]. repeat constructor.
  - split; [discriminate|]. split; [repeat constructor | reflexivity].
Qed.




(** The modes kept from v7 do not stop the others: started while Game of
    Life runs, each leaves it enabled and sends its frame with no clear
    before it. *)
Lemma v7_start_keeps_others (e : Effect) :
  In e [spin; twinkle; mini_rain; mini_snake] ->
  exists s' frame,
    start e demo_gol = Some (tt, s') /\ enabled gol s' = true /\
    enabled e s' = true /\
    VFD.wire (vfd s') = [frame] /\ frame <> mm_clear_frame.
Proof.
  intros [<-|[<-|[<-|[<-|[]]]]];
    (eexists; eexists; split; [vm_compute; reflexivity|]);
    repeat split; discriminate.
Qed.

Lemma demo_ball_wf : mm_wf demo_ball.
Proof.
  split; [|split].
  - split; [reflexivity|]. cbn. auto.
  - split; [reflexivity|]. repeat constructor.
  - split; [discriminate|]. split; [repeat constructor | reflexivity].
Qed.

(** Every mode kept from v7 begins its start with the test of its
    enabled flag (clock text, clock sync, volume sweep, wifi scan, icon
    wave, marquee, cylon, spinner, twinkle, icon carousel, icon pulse,
    email blink, record blink, text bounce, rain, path snake): start
    while the mode is enabled returns the very state it was called in,
    so no attribute changes, no timer is added and nothing is sent. *)
Lemma guarded_start_noop (e : Effect) (s : App) :
  In e v7_modes -> enabled e s = true ->
  start e s = Some (tt, s) /\
  (forall s', start e s = Some (tt, s') ->
              timers s' = timers s /\ VFD.wire (vfd s') = VFD.wire (vfd s) /\
              VFD.log (vfd s') = VFD.log (vfd s)).
Proof.
  intros Hin He.
  assert (E : start e s = Some (tt, s)).
  { cbn in Hin.
    repeat (destruct Hin as [<-|Hin];
            [cbn [enabled] in He; cbn [start];
             match goal with |- ?f s = _ => unfold f end;
             unfold bind, get, ret; rewrite He; reflexivity|]).
    destruct Hin. }
  split; [exact E|]. intros s' E'. rewrite E in E'. injection E' as <-.
  repeat split.
Qed.

(** The five v8 starts have no such test: the bouncing ball started
    while it runs is not left alone. *)
Lemma ball_start_not_idempotent : ~ (forall e, start_idempotent e).
Proof.
  intros H. specialize (H ball demo_ball eq_refl).
  vm_compute in H. discriminate H.
Qed.

(** What starting the running ball does: the mini-matrix is cleared, the
    ball moves and is drawn at once, and a second tick is pending beside
    the one that was. *)
Lemma ball_restart :
  exists s',
    start ball demo_ball = Some (tt, s') /\
    enabled ball s' = true /\
    _ball_pos demo_ball = (3, 4) /\ _ball_pos s' = (4, 5) /\
    timers demo_ball = [(100, cb_ball_tick)] /\
    timers s' = [(100, cb_ball_tick); (100, cb_ball_tick)] /\
    VFD.wire (vfd s') = [mm_clear_frame; [0x1B; 0x31; 0; 0; 0; 16; 0; 0; 0; 0; 0]].
Proof. eexists. split; [vm_compute; reflexivity|]. repeat split. Qed.

(** The same for each of the five v8 modes, from [__init__]: Start
    pressed twice leaves two pending ticks of the mode. *)
Lemma v8_double_start :
  Forall (fun e =>
            exists s0 s1 s2 cb ms,
              __init__ demo_host [] = Some s0 /\
              run [ev_connect "COM3" true; ev_start e] s0 = Some s1 /\
              enabled e s1 = true /\ timers s1 = [(ms, cb)] /\
              start e s1 = Some (tt, s2) /\
              enabled e s2 = true /\ timers s2 = [(ms, cb); (ms, cb)] /\
              callback_effect cb = e)
         v8_modes.
Proof.
  repeat constructor;
    (eexists; eexists; eexists; eexists; eexists;
     split; [vm_compute; reflexivity|];
     split; [vm_compute; reflexivity|];
     split; [reflexivity|]; split; [reflexivity|];
     split; [vm_compute; reflexivity|]; repeat split).
Qed.

(** The test of the flag keeps a second Start out, not a second chain
    of ticks: no stop cancels a timer, so Start, Stop, Start of a mode
    with the test leaves two pending ticks as well, and both go on. *)
Lemma twinkle_stop_start_two_ticks :
  exists s0 s1 s2,
    __init__ demo_host [] = Some s0 /\
    run [ev_connect "COM3" true; ev_start twinkle; ev_stop twinkle;
         ev_start twinkle] s0 = Some s1 /\
    timers s1 = [(100, cb_twinkle_tick); (100, cb_twinkle_tick)] /\
    run [ev_timer cb_twinkle_tick; ev_timer cb_twinkle_tick] s1 = Some s2 /\
    timers s2 = [(100, cb_twinkle_tick); (100, cb_twinkle_tick)].
Proof.
  eexists; eexists; eexists.
  split; [vm_compute; reflexivity|]. split; [vm_compute; reflexivity|].
  split; [reflexivity|]. split; [vm_compute; reflexivity | reflexivity].
Qed.

(** C3.  Start pressed twice on the bouncing ball, from [__init__] with
    the port open, is not the no-op the contract of start asks for:
    [_ball_start] has no test of [loop_ball].  After the first Start
    one tick is pending.  The second Start, with the ball enabled,
    moves the ball, writes a clear frame and a ball frame, and leaves
    two pending ticks.  When both have fired there are two pending
    ticks again, two more frames have gone out and the ball is two
    moves further: two chains of ticks run side by side.  Start pressed
    twice on the marquee, whose start has the test, leaves the one
    tick of the first Start. *)
Theorem C3_ball_double_start :
  exists s0 s1 s2 s3 sm,
    __init__ demo_host [] = Some s0 /\
    run [ev_connect "COM3" true; ev_start ball] s0 = Some s1 /\
    enabled ball s1 = true /\
    timers s1 = [(100, cb_ball_tick)] /\ _ball_pos s1 = (4, 5) /\
    start ball s1 = Some (tt, s2) /\
    enabled ball s2 = true /\
    timers s2 = [(100, cb_ball_tick); (100, cb_ball_tick)] /\
    _ball_pos s2 = (5, 6) /\
    VFD.wire (vfd s2)
    = VFD.wire (vfd s1)
      ++ [mm_clear_frame; [0x1B; 0x31; 0; 0; 32; 0; 0; 0; 0; 0; 0]] /\
    run [ev_timer cb_ball_tick; ev_timer cb_ball_tick] s2 = Some s3 /\
    timers s3 = [(100, cb_ball_tick); (100, cb_ball_tick)] /\
    _ball_pos s3 = (5, 8) /\
    VFD.wire (vfd s3)
    = VFD.wire (vfd s2)
      ++ [[0x1B; 0x31; 0; 64; 0; 0; 0; 0; 0; 0; 0];
          [0x1B; 0x31; 32; 0; 0; 0; 0; 0; 0; 0; 0]] /\
    run [ev_connect "COM3" true; ev_start marquee; ev_start marquee] s0 = Some sm /\
    timers sm = [(120, cb_marquee_tick)].
Proof.
  eexists; eexists; eexists; eexists; eexists.
  split; [vm_compute; reflexivity|].
  split; [vm_compute; reflexivity|].
  split; [reflexivity|]. split; [reflexivity|]. split; [reflexivity|].
  split; [vm_compute; reflexivity|].
  split; [reflexivity|]. split; [reflexivity|]. split; [reflexivity|].
  split; [reflexivity|].
  split; [vm_compute; reflexivity|].
  split; [reflexivity|]. split; [reflexivity|]. split; [reflexivity|].
  split; [vm_compute; reflexivity | reflexivity].
Qed.

(** *** the grid of [__init__] *)

Lemma forM_invariant {A B} (f : B -> A -> M B) (I : list A -> B -> Prop)
      (l : list A) :
  (forall done x b s, I done b -> In x l ->
     exists b' rng', f b x s = Some (b', s <| rng := rng' |>) /\ I (done ++ [x]) b') ->
  forall b s, I [] b ->
    exists b' rng', forM l f b s = Some (b', s <| rng := rng' |>) /\ I l b'.
Proof.
  intros Hstep.
  assert (G : forall rest done b s, incl rest l -> I done b ->
                exists b' rng', forM rest f b s = Some (b', s <| rng := rng' |>) /\
                                I (done ++ rest) b').
  { induction rest as [|x t IH]; intros done b s Hin Hb; cbn [forM].
    - exists b, (rng s). unfold ret. rewrite <- set_rng_same, app_nil_r. auto.
    - destruct (Hstep done x b s Hb) as (b1 & r1 & E1 & Hb1).
      { apply Hin. left; reflexivity. }
      unfold bind. rewrite E1.
      destruct (IH (done ++ [x]) b1 (s <| rng := r1 |>)) as (b2 & r2 & E2 & Hb2).
      { intros y Hy. apply Hin. right; exact Hy. }
      { exact Hb1. }
      rewrite E2. exists b2, r2. rewrite set_rng_twice, <- app_assoc in *. auto. }
  intros b s Hb. apply (G l [] b s); [apply incl_refl | exact Hb].
Qed.

Lemma rand_grid_is_grid (s : App) :
  exists g rng', _rand_grid s = Some (g, s <| rng := rng' |>) /\ is_grid g.
Proof.
  unfold _rand_grid.
  destruct (forM_invariant
              (fun g (_ : Z) =>
                 row <- forM (Py.range 9)
                          (fun row (_ : Z) => u <- random_random ;;
                             ret (row ++ [if Qltb u rand_grid_p then 1 else 0]))
                          [] ;;
                 ret (g ++ [row]))
              (fun done g => List.length g = List.length done /\
                             Forall (fun row => List.length row = 9%nat) g)
              (Py.range 7)) with (b := @nil (list Z)) (s := s)
    as (g & r & E & Hl & Hrows).
  - intros done x g s1 [Hl Hrows] _.
    destruct (forM_invariant
                (fun row (_ : Z) => u <- random_random ;;
                   ret (row ++ [if Qltb u rand_grid_p then 1 else 0]))
                (fun done row => List.length row = List.length done)
                (Py.range 9)) with (b := @nil Z) (s := s1)
      as (row & r & E & Hrow).
    + intros done' y row s2 Hrow _. unfold bind, ret.
      destruct (random_random_ok s2) as (u & r & E). rewrite E.
      eexists; eexists; split; [reflexivity|]. rewrite !length_app, Hrow. reflexivity.
    + reflexivity.
    + unfold bind at 1. rewrite E. unfold ret. eexists; eexists; split; [reflexivity|].
      split; [rewrite !length_app, Hl; reflexivity|].
      apply Forall_app. split; [exact Hrows|]. constructor; [exact Hrow | constructor].
  - split; [reflexivity | constructor].
  - exists g, r. split; [exact E|]. split; [exact Hl | exact Hrows].
Qed.

(** A fresh [App] is in a state all the mini-matrix modes can start from. *)
Lemma init_mm_wf (h : Host) (draws : list Z) :
  exists s0, __init__ h draws = Some s0 /\ mm_wf s0.
Proof.
  unfold __init__, bind.
  destruct (rand_grid_is_grid (init_fields h draws)) as (g & r & E & Hg). rewrite E.
  unfold modify, get.
  set (s1 := (init_fields h draws) <| rng := r |> <| _gol_grid := g |>).
  destruct (rand_food_ok [(3, 2); (3, 1); (3, 0)] s1) as (food & r' & Ef & Hb & _).
  change (_g_snake _) with [(3, 2); (3, 1); (3, 0)].
  fold s1. rewrite Ef. eexists. split; [reflexivity|].
  unfold constant. cbn. split; [|split].
  - split; [reflexivity|]. cbn. auto.
  - exact Hg.
  - split; [discriminate|]. split; [repeat constructor | exact Hb].
Qed.

(** * Further properties *)

(** ** [hexstr] and [parse_hex] *)

Lemma list_ascii_app (a b : string) :
  list_ascii_of_string (a ++ b) = (list_ascii_of_string a ++ list_ascii_of_string b)%list.
Proof. induction a as [|c a IH]; cbn; [reflexivity | now rewrite IH]. Qed.

Lemma eqb_string_nil (l : list ascii) :
  String.eqb (string_of_list_ascii l) "" = match l with [] => true | _ => false end.
Proof. destruct l; reflexivity. Qed.

(** *** white space at the ends of a string *)

Lemma lstrip_decomp (l : list ascii) :
  exists ws, Forall (fun c => isspace c = true) ws /\ l = (ws ++ lstrip l)%list.
Proof.
  induction l as [|c t (ws & Hws & E)].
  - exists []. split; [constructor | reflexivity].
  - cbn [lstrip]. destruct (isspace c) eqn:Ec.
    + exists (c :: ws). split; [constructor; assumption|]. cbn. congruence.
    + exists []. split; [constructor | reflexivity].
Qed.

Lemma split_from_leading (ws l : list ascii) :
  Forall (fun c => isspace c = true) ws ->
  split_from [] (ws ++ l) = split_from [] l.
Proof.
  induction 1 as [|c ws Hc _ IH]; [reflexivity|].
  cbn [app split_from]. rewrite Hc. exact IH.
Qed.

Lemma split_from_trailing (ws l cur : list ascii) :
  Forall (fun c => isspace c = true) ws ->
  split_from cur (l ++ ws) = split_from cur l.
Proof.
  intros Hws. revert cur. induction l as [|c t IH]; intros cur.
  - cbn [app]. revert cur. induction Hws as [|c ws Hc _ IH]; intros cur; [reflexivity|].
    cbn [split_from]. rewrite Hc. rewrite (IH []).
    destruct cur; reflexivity.
  - cbn [app split_from]. destruct (isspace c); [|apply IH].
    rewrite IH. reflexivity.
Qed.

(** Replacing a separator by a space leaves white space as it is. *)
Lemma sep_keeps_space (a c : ascii) :
  isspace a = false -> isspace c = true ->
  (if Ascii.eqb c a then " "%char else c) = c.
Proof.
  intros Ha Hc. destruct (Ascii.eqb_spec c a) as [->|]; [congruence | reflexivity].
Qed.

Lemma map_sep_space (a : ascii) (ws : list ascii) :
  isspace a = false -> Forall (fun c => isspace c = true) ws ->
  map (fun c => if Ascii.eqb c a then " "%char else c) ws = ws.
Proof.
  intros Ha. induction 1 as [|c ws Hc _ IH]; cbn; [reflexivity|].
  rewrite sep_keeps_space by assumption. congruence.
Qed.

(** The pieces [parse_hex] reads: the field cut at white space, commas
    and semicolons; the [strip] and the test for an empty string change
    nothing. *)
Lemma parse_hex_tokens (s : string) :
  parse_hex s
  = let? l := mapM int16 (str_split (str_replace ";" " " (str_replace "," " " s))) in
    Py.bytes l.
Proof.
  unfold parse_hex, str_split, str_replace, strip.
  rewrite !list_ascii_of_string_of_list_ascii, eqb_string_nil.
  set (l := list_ascii_of_string s).
  set (g1 := fun c => if Ascii.eqb c "," then " "%char else c).
  set (g2 := fun c => if Ascii.eqb c ";" then " "%char else c).
  destruct (lstrip_decomp l) as (ws1 & H1 & E1).
  destruct (lstrip_decomp (rev (lstrip l))) as (ws2 & H2 & E2).
  set (m := rev (lstrip (rev (lstrip l)))) in *.
  assert (E : l = (ws1 ++ m ++ rev ws2)%list).
  { rewrite E1 at 1. f_equal. rewrite <- (rev_involutive (lstrip l)), E2 at 1.
    rewrite rev_app_distr. reflexivity. }
  assert (H2' : Forall (fun c => isspace c = true) (rev ws2)) by (apply Forall_rev; exact H2).
  assert (Es : split_from [] (map g2 (map g1 l)) = split_from [] (map g2 (map g1 m))).
  { rewrite E at 1. rewrite !map_app.
    unfold g1, g2. rewrite !(map_sep_space _ ws1), !(map_sep_space _ (rev ws2))
      by (try reflexivity; assumption).
    rewrite split_from_leading by assumption.
    apply split_from_trailing. assumption. }
  rewrite Es. destruct (map g2 (map g1 m)); reflexivity.
Qed.

(** What is true of the two digits of every byte, checked byte by byte. *)
Lemma byte_digits (b : Z) :
  0 <= b < 256 ->
  exists d1 d2,
    fmt_02X b = String d1 (String d2 "") /\
    isspace d1 = false /\ isspace d2 = false /\
    Ascii.eqb d1 "," = false /\ Ascii.eqb d2 "," = false /\
    Ascii.eqb d1 ";" = false /\ Ascii.eqb d2 ";" = false /\
    int16 (fmt_02X b) = Some b.
Proof.
  intros Hb.
  assert (H : forallb (fun b =>
                match list_ascii_of_string (fmt_02X b) with
                | [d1; d2] =>
                    negb (isspace d1) && negb (isspace d2)
                    && negb (Ascii.eqb d1 ",") && negb (Ascii.eqb d2 ",")
                    && negb (Ascii.eqb d1 ";") && negb (Ascii.eqb d2 ";")
                    && match int16 (fmt_02X b) with Some x => x =? b | None => false end
                | _ => false
                end) (Py.range 256) = true) by (vm_compute; reflexivity).
  rewrite forallb_forall in H. specialize (H b (proj2 (In_range b 256) Hb)).
  unfold fmt_02X in *. cbn [string_of_list_ascii list_ascii_of_string] in H.
  set (d1 := nth (Z.to_nat (b / 16)) _ _) in *.
  set (d2 := nth (Z.to_nat (b mod 16)) _ _) in *.
  exists d1, d2. split; [reflexivity|].
  change (string_of_list_ascii [d1; d2]) with (String d1 (String d2 "")).
  destruct (int16 _) as [x|]; [|rewrite andb_false_r in H; discriminate].
  repeat (apply andb_prop in H; destruct H as [H ?]).
  repeat match goal with
         | K : negb _ = true |- _ => apply negb_true_iff in K
         | K : (_ =? _) = true |- _ => apply Z.eqb_eq in K
         end.
  subst x. repeat split; assumption.
Qed.

Lemma hexstr_cons (b b' : Z) (t : list Z) :
  hexstr (b :: b' :: t) = (fmt_02X b ++ " " ++ hexstr (b' :: t))%string.
Proof. reflexivity. Qed.

Lemma split_hexstr (bs : list Z) :
  Forall (fun b => 0 <= b < 256) bs ->
  str_split (hexstr bs) = map fmt_02X bs /\
  str_replace "," " " (hexstr bs) = hexstr bs /\
  str_replace ";" " " (hexstr bs) = hexstr bs.
Proof.
  unfold str_split, str_replace.
  induction 1 as [|b t Hb Ht IH]; [repeat split|].
  destruct (byte_digits b Hb) as (d1 & d2 & E & S1 & S2 & C1 & C2 & K1 & K2 & _).
  destruct t as [|b' t'].
  - cbn [hexstr map str_join]. rewrite E. cbn. rewrite S1, S2, C1, C2, K1, K2.
    repeat split.
  - rewrite hexstr_cons, E. destruct IH as (I1 & I2 & I3).
    set (rest := hexstr (b' :: t')) in *.
    cbn [append list_ascii_of_string split_from map string_of_list_ascii].
    rewrite S1, S2, C1, C2, K1, K2.
    change (isspace " ") with true. change (Ascii.eqb " " ",") with false.
    change (Ascii.eqb " " ";") with false. cbn [rev app string_of_list_ascii].
    rewrite I1, I2, I3. repeat split. rewrite <- E. reflexivity.
Qed.

Lemma mapM_int16_fmt (bs : list Z) :
  Forall (fun b => 0 <= b < 256) bs -> mapM int16 (map fmt_02X bs) = Some bs.
Proof.
  induction 1 as [|b t Hb Ht IH]; [reflexivity|].
  destruct (byte_digits b Hb) as (d1 & d2 & _ & _ & _ & _ & _ & _ & _ & E).
  cbn [map mapM]. rewrite E, IH. reflexivity.
Qed.

(** X1. What [hexstr] prints for a byte string, [parse_hex] reads back as
    that byte string: the [TX:] text of the log can be pasted into the
    RAW field. *)
Theorem parse_hex_hexstr (bs : list Z) :
  Forall (fun b => 0 <= b < 256) bs -> parse_hex (hexstr bs) = Some bs.
Proof.
  intros H. rewrite parse_hex_tokens.
  destruct (split_hexstr bs H) as (E1 & E2 & E3).
  rewrite E2, E3, E1, mapM_int16_fmt by exact H. apply bytes_ok. exact H.
Qed.

Lemma parse_hex_hexstr_witness :
  hexstr [0x1B; 0x31; 0xFF] = "1B 31 FF"%string /\
  parse_hex "1B 31 FF" = Some [0x1B; 0x31; 0xFF].
Proof.
  split; [reflexivity|].
  apply (parse_hex_hexstr [0x1B; 0x31; 0xFF]).
  repeat constructor; lia.
Defined.

Ltac sep_cases c :=
  let E1 := fresh "E" in let E2 := fresh "E" in
  destruct (Ascii.eqb c ",") eqn:E1;
  [apply Ascii.eqb_eq in E1; subst; reflexivity|];
  destruct (Ascii.eqb c ";") eqn:E2;
  [apply Ascii.eqb_eq in E2; subst; reflexivity|];
  rewrite ?E1, ?E2; reflexivity.

(** X2. In the field of [parse_hex] a comma and a semicolon count as a
    space, wherever they stand. *)
Theorem parse_hex_separators (s : string) :
  parse_hex (str_replace "," " " s) = parse_hex s /\
  parse_hex (str_replace ";" " " s) = parse_hex s.
Proof.
  rewrite !parse_hex_tokens. unfold str_replace.
  rewrite !list_ascii_of_string_of_list_ascii, !map_map.
  split.
  - match goal with
    | |- context [map ?f ?l] =>
        match goal with
        | |- _ = ?rhs =>
            match rhs with
            | context [map ?g l] => rewrite (map_ext f g); [reflexivity|]
            end
        end
    end.
    intros c. sep_cases c.
  - match goal with
    | |- context [map ?f ?l] =>
        match goal with
        | |- _ = ?rhs =>
            match rhs with
            | context [map ?g l] => rewrite (map_ext f g); [reflexivity|]
            end
        end
    end.
    intros c. sep_cases c.
Qed.

(** ** The entry fields and the icon commands *)

(** X7. [_fps_to_ms] always gives a period between 16 and 1000 ms: it is
    [1000 / fps] (rounded down) for 1..60 frames a second, 1000 ms for
    anything below 1 fps and 16 ms for anything above 60 fps, and a higher
    rate never gives a longer period.  The floor of 10 ms is never
    reached. *)
Theorem fps_to_ms_range (fps : Z) :
  16 <= _fps_to_ms fps <= 1000 /\
  (1 <= fps <= 60 -> _fps_to_ms fps = 1000 / fps) /\
  (fps <= 1 -> _fps_to_ms fps = 1000) /\
  (60 <= fps -> _fps_to_ms fps = 16) /\
  (forall fps', fps <= fps' -> _fps_to_ms fps' <= _fps_to_ms fps).
Proof.
  unfold _fps_to_ms.
  assert (B : forall k, 1 <= k <= 60 -> 16 <= 1000 / k <= 1000).
  { intros k Hk. split.
    - apply Z.div_le_lower_bound; lia.
    - apply Z.div_le_upper_bound; lia. }
  assert (Mo : forall a b, 1 <= a <= b -> 1000 / b <= 1000 / a).
  { intros a b H. apply Z.div_le_compat_l; lia. }
  repeat split.
  - pose proof (B (Z.max 1 (Z.min 60 fps)) ltac:(lia)). lia.
  - pose proof (B (Z.max 1 (Z.min 60 fps)) ltac:(lia)). lia.
  - intros H. replace (Z.max 1 (Z.min 60 fps)) with fps by lia.
    pose proof (B fps H). lia.
  - intros H. replace (Z.max 1 (Z.min 60 fps)) with 1 by lia. reflexivity.
  - intros H. replace (Z.max 1 (Z.min 60 fps)) with 60 by lia. reflexivity.
  - intros fps' H.
    pose proof (B (Z.max 1 (Z.min 60 fps)) ltac:(lia)).
    pose proof (B (Z.max 1 (Z.min 60 fps')) ltac:(lia)).
    pose proof (Mo (Z.max 1 (Z.min 60 fps)) (Z.max 1 (Z.min 60 fps')) ltac:(lia)).
    lia.
Qed.

Lemma fold_left_snoc_map {A B} (F : A -> B) (l : list A) (acc : list B) :
  fold_left (fun cols c => cols ++ [F c]) l acc = acc ++ map F l.
Proof.
  revert acc. induction l as [|x t IH]; intros acc; cbn.
  - now rewrite app_nil_r.
  - rewrite IH, <- app_assoc. reflexivity.
Qed.

(** The bits a loop of [v |= (1 << r)] sets. *)
Lemma fold_left_lor_bits (p : Z -> bool) (l : list Z) (v r : Z) :
  0 <= r -> Forall (fun x => 0 <= x) l ->
  Z.testbit (fold_left (fun v x => if p x then Z.lor v (Z.shiftl 1 x) else v) l v) r
  = Z.testbit v r || (existsb (Z.eqb r) l && p r).
Proof.
  intros Hr Hl. revert v. induction Hl as [|x t Hx _ IH]; intros v; cbn [fold_left existsb].
  - now rewrite orb_false_r.
  - rewrite IH. destruct (Z.eqb_spec r x) as [->|Hne].
    + destruct (p x); cbn.
      * rewrite Z.lor_spec, Z.shiftl_1_l, Z.pow2_bits_eqb, Z.eqb_refl by lia.
        now rewrite !orb_true_r.
      * now rewrite andb_false_r.
    + cbn. destruct (p x); [|reflexivity].
      rewrite Z.lor_spec, Z.shiftl_1_l, Z.pow2_bits_eqb by lia.
      replace (x =? r) with false by (symmetry; apply Z.eqb_neq; lia).
      now rewrite orb_false_r.
Qed.

Lemma range_nonneg (n : Z) : Forall (fun x => 0 <= x) (Py.range n).
Proof. apply Forall_forall. intros x Hx. apply In_range in Hx. lia. Qed.

(** The columns [_send_mm_from_grid] builds for a grid of check boxes. *)
Lemma mm_grid_cols (mm_cells : list (list Z)) :
  is_grid mm_cells ->
  exists cols,
    Py.foldM (fun cols c =>
                let? v := Py.foldM (fun v r =>
                            let? x := get2 mm_cells r c in
                            if Py.truthy x then
                              let? b := Py.lshift 1 r in Some (Z.lor v b)
                            else Some v) (Py.range 7) 0 in
                Some (cols ++ [Z.land v 0x7F])) (Py.range 9) [] = Some cols /\
    List.length cols = 9%nat /\
    forall r c, 0 <= r <= 6 -> 0 <= c <= 8 ->
      Z.testbit (nth (Z.to_nat c) cols 0) r = alive mm_cells r c.
Proof.
  intros Hg.
  set (colval := fun c =>
         fold_left (fun v x => if alive mm_cells x c then Z.lor v (Z.shiftl 1 x) else v)
                   (Py.range 7) 0).
  exists (map (fun c => Z.land (colval c) 0x7F) (Py.range 9)).
  split; [|split].
  - rewrite (foldM_total _ (fun cols c => cols ++ [Z.land (colval c) 0x7F])).
    + rewrite fold_left_snoc_map. reflexivity.
    + intros cols c Hc. apply In_range in Hc.
      rewrite (foldM_total _ (fun v x => if alive mm_cells x c
                                         then Z.lor v (Z.shiftl 1 x) else v));
        [reflexivity|].
      intros v r Hr. apply In_range in Hr.
      rewrite get2_cell by (try exact Hg; lia). unfold alive.
      destruct (Py.truthy _); [|reflexivity].
      unfold Py.lshift. replace (r <? 0) with false by lia. reflexivity.
  - rewrite length_map. reflexivity.
  - intros r c Hr Hc.
    assert (E : nth (Z.to_nat c) (map (fun c => Z.land (colval c) 0x7F) (Py.range 9)) 0
                = Z.land (colval c) 0x7F).
    { assert (Hcases : c = 0 \/ c = 1 \/ c = 2 \/ c = 3 \/ c = 4 \/ c = 5 \/
                       c = 6 \/ c = 7 \/ c = 8) by lia.
      repeat (destruct Hcases as [->|Hcases]; [reflexivity|]). subst c. reflexivity. }
    rewrite E, testbit_land_7F by exact Hr. unfold colval.
    rewrite (fold_left_lor_bits (fun x => alive mm_cells x c)) by (try lia; apply range_nonneg).
    rewrite Z.testbit_0_l, range_mem by lia. reflexivity.
Qed.

(** X4. With the port open, [_send_mm_from_grid] sends one mini-matrix
    frame of 11 bytes, and the dot at row [r], column [c] of that frame is
    lit exactly when check box [r][c] of the editor is ticked. *)
Theorem send_mm_from_grid_frame (mm_cells : list (list Z)) (s : App) :
  is_grid mm_cells -> VFD.connected (vfd s) = true ->
  exists frame,
    _send_mm_from_grid mm_cells s
    = Some (tt, s <| vfd := VFD.send frame (vfd s) |>) /\
    VFD.wire (VFD.send frame (vfd s)) = VFD.wire (vfd s) ++ [frame] /\
    List.length frame = 11%nat /\
    forall r c, 0 <= r <= 6 -> 0 <= c <= 8 ->
      frame_bit frame r c = alive mm_cells r c.
Proof.
  intros Hg Hconn. destruct (mm_grid_cols mm_cells Hg) as (cols & E & Hl & Hbits).
  exists (mm_frame cols). split; [|split; [|split]].
  - unfold _send_mm_from_grid, bind, lift, dev. rewrite E, mm_send_cols_ok.
    reflexivity.
  - rewrite wire_send, Hconn. reflexivity.
  - unfold mm_frame. cbn [List.length app]. rewrite length_map, length_rev, Hl.
    reflexivity.
  - intros r c Hr Hc. rewrite frame_bit_mm_frame by assumption. apply Hbits; assumption.
Qed.

Lemma send_mm_from_grid_frame_witness :
  exists frame,
    _send_mm_from_grid gol_block (demo_connected demo_host [])
    = Some (tt, (demo_connected demo_host [])
                  <| vfd := VFD.send frame (vfd (demo_connected demo_host [])) |>) /\
    frame_bit frame 1 3 = true /\ frame_bit frame 0 0 = false.
Proof.
  destruct (send_mm_from_grid_frame gol_block (demo_connected demo_host []))
    as (frame & E & _ & _ & H).
  - split; [reflexivity|]. repeat constructor.
  - reflexivity.
  - exists frame. split; [exact E|]. rewrite !H by lia. split; reflexivity.
Defined.

(** *** Custom ESC and RAW *)

Lemma parse_hex_bytes (s : string) (bs : list Z) :
  parse_hex s = Some bs -> Forall (fun x => 0 <= x < 256) bs.
Proof.
  unfold parse_hex. destruct (String.eqb _ _); [intros [= <-]; constructor|].
  destruct (mapM _ _) as [l|]; [|discriminate].
  unfold Py.bytes. destruct (forallb _ l) eqn:E; [|discriminate].
  intros [= <-]. apply Forall_forall. intros x Hx.
  rewrite forallb_forall in E. specialize (E x Hx). lia.
Qed.

(** X3. [_send_esc_custom]: a code field that is not a hex number only
    shows the error box and leaves everything as it was; with a proper
    code, a bad parameter field raises, a code outside 0..255 raises, and
    otherwise the one frame [1B code params...] goes to [send]. *)
Theorem send_esc_custom_cases (e_code e_params : string) (s : App) :
  (int16 (strip e_code) = None ->
   _send_esc_custom e_code e_params s = Some (tt, s)) /\
  (forall code, int16 (strip e_code) = Some code ->
     (parse_hex e_params = None -> _send_esc_custom e_code e_params s = None) /\
     (forall params, parse_hex e_params = Some params ->
        (0 <= code < 256 ->
         _send_esc_custom e_code e_params s
         = Some (tt, s <| vfd := VFD.send ([0x1B; code] ++ params) (vfd s) |>)) /\
        (~ 0 <= code < 256 -> _send_esc_custom e_code e_params s = None))).
Proof.
  unfold _send_esc_custom. split.
  - intros ->. reflexivity.
  - intros code ->. unfold bind, lift, dev. split.
    + intros ->. reflexivity.
    + intros params E. rewrite E. split.
      * intros Hc. rewrite ESC_ok; [reflexivity | exact Hc |].
        eapply parse_hex_bytes. exact E.
      * intros Hc. unfold VFD.ESC, Py.bytes. cbn [app forallb].
        replace ((0 <=? code) && (code <? 256)) with false by lia.
        rewrite andb_false_r. reflexivity.
Qed.

Lemma send_esc_custom_cases_witness :
  _send_esc_custom "5G" "" (demo_connected demo_host [])
  = Some (tt, demo_connected demo_host []) /\
  _send_esc_custom " 1ff " "01" (demo_connected demo_host []) = None /\
  _send_esc_custom "52" "0x" (demo_connected demo_host []) = None /\
  _send_esc_custom "40" "3" (demo_connected demo_host [])
  = Some (tt, (demo_connected demo_host [])
                <| vfd := VFD.send [0x1B; 0x40; 3] (vfd (demo_connected demo_host [])) |>).
Proof.
  pose proof (send_esc_custom_cases "5G" "" (demo_connected demo_host [])) as [H1 _].
  pose proof (send_esc_custom_cases " 1ff " "01" (demo_connected demo_host [])) as [_ H2].
  pose proof (send_esc_custom_cases "52" "0x" (demo_connected demo_host [])) as [_ H3].
  pose proof (send_esc_custom_cases "40" "3" (demo_connected demo_host [])) as [_ H4].
  split; [apply H1; reflexivity|].
  split; [apply (proj2 (proj2 (H2 511 eq_refl) [1] eq_refl)); lia|].
  split; [apply (proj1 (H3 0x52 eq_refl)); reflexivity|].
  apply (proj1 (proj2 (H4 0x40 eq_refl) [3] eq_refl)). lia.
Defined.

(** X23. The RAW field replays the log: with the port open, sending the
    text [hexstr] prints for a frame (what a [TX:] line of the log
    shows) puts exactly that frame on the wire again, and a blank field
    sends the empty frame. *)
Theorem send_raw_replays (bs : list Z) (s : App) :
  Forall (fun b => 0 <= b < 256) bs -> VFD.connected (vfd s) = true ->
  exists s',
    _send_raw (hexstr bs) s = Some (tt, s') /\
    VFD.wire (vfd s') = VFD.wire (vfd s) ++ [bs] /\
    VFD.log (vfd s') = VFD.log (vfd s) ++ [VFD.LogTX bs] /\
    forall blank, strip blank = ""%string ->
      _send_raw blank s = Some (tt, s <| vfd := VFD.send [] (vfd s) |>).
Proof.
  intros H Hconn.
  assert (E : parse_hex (hexstr bs) = Some bs).
  { rewrite parse_hex_tokens.
    destruct (split_hexstr bs H) as (E1 & E2 & E3).
    rewrite E2, E3, E1, mapM_int16_fmt by exact H. apply bytes_ok. exact H. }
  exists (s <| vfd := VFD.send bs (vfd s) |>). split; [|split; [|split]].
  - unfold _send_raw, bind, lift, dev', modify. rewrite E. destruct s; reflexivity.
  - destruct s as [[p w l] ? ? ? ? ? ? ? ? ? ? ? ? ? ? ? ? ? ? ? ? ? ? ? ? ? ? ? ? ?].
    cbn in *. unfold VFD.send. rewrite Hconn. reflexivity.
  - destruct s as [[p w l] ? ? ? ? ? ? ? ? ? ? ? ? ? ? ? ? ? ? ? ? ? ? ? ? ? ? ? ? ?].
    cbn in *. unfold VFD.send. rewrite Hconn. reflexivity.
  - intros blank Hb. unfold _send_raw, bind, lift, dev', modify, parse_hex.
    rewrite Hb. destruct s; reflexivity.
Qed.

Lemma send_raw_replays_witness :
  exists s',
    _send_raw "1B 30 07 06" (demo_connected demo_host []) = Some (tt, s') /\
    VFD.wire (vfd s') = VFD.wire (vfd (demo_connected demo_host [])) ++ [[0x1B; 0x30; 7; 6]].
Proof.
  destruct (send_raw_replays [0x1B; 0x30; 7; 6] (demo_connected demo_host []))
    as (s' & E & Hw & _).
  - repeat constructor; lia.
  - reflexivity.
  - exists s'. split; [exact E | exact Hw].
Defined.

(** *** Icons *)

Lemma icon_value_app (w1 w2 : list (list Z)) (sub : Z) :
  icon_value (w1 ++ w2) sub
  = fold_left (fun acc f =>
                 match f with
                 | [0x1B; 0x30; a; val] => if a =? sub then Some val else acc
                 | _ => acc
                 end) w2 (icon_value w1 sub).
Proof. unfold icon_value. apply fold_left_app. Qed.

Ltac wire_sends Hconn :=
  repeat (rewrite wire_send, ?connected_send, Hconn);
  rewrite <- ?app_assoc; cbn [app].

(** X5. With the port open, [set_volume_level] clamps the level to 0..8
    and sends [9 + min(level, 7)] icon frames, after which bar [i] of the
    seven volume bars (0x0B..0x11) is on exactly when [i < level], and the
    red underbar 0x12 is on exactly at level 8. *)
Theorem set_volume_level_icons (level : Z) (v : VFD.t) :
  VFD.connected v = true ->
  exists v' frames,
    VFD.set_volume_level level v = Some v' /\
    VFD.wire v' = VFD.wire v ++ frames /\
    let lvl := Z.max 0 (Z.min 8 level) in
    Z.of_nat (List.length frames) = 9 + Z.min lvl 7 /\
    (forall i, 0 <= i < 7 ->
       icon_value (VFD.wire v') (0x0B + i) = Some (if i <? lvl then 1 else 0)) /\
    icon_value (VFD.wire v') 0x12 = Some (if lvl =? 8 then 1 else 0).
Proof.
  intros Hconn. unfold VFD.set_volume_level.
  set (lvl := Z.max 0 (Z.min 8 level)).
  assert (Hl : lvl = 0 \/ lvl = 1 \/ lvl = 2 \/ lvl = 3 \/ lvl = 4 \/ lvl = 5 \/
               lvl = 6 \/ lvl = 7 \/ lvl = 8) by lia.
  clearbody lvl.
  repeat (destruct Hl as [->|Hl]);
    [.. | subst lvl];
    (eexists; eexists; split; [cbn; reflexivity|]; split;
     [wire_sends Hconn; reflexivity|]; cbv zeta; split; [reflexivity|]; split;
     [intros i Hi;
      assert (Hc : i = 0 \/ i = 1 \/ i = 2 \/ i = 3 \/ i = 4 \/ i = 5 \/ i = 6) by lia;
      wire_sends Hconn; rewrite icon_value_app;
      repeat (destruct Hc as [->|Hc]; [reflexivity|]); subst i; reflexivity
     | wire_sends Hconn; rewrite icon_value_app; reflexivity]).
Qed.

Lemma set_volume_level_icons_witness :
  exists v',
    VFD.set_volume_level 8 (VFD.mk (Some true) [] []) = Some v' /\
    icon_value (VFD.wire v') 0x11 = Some 1 /\
    icon_value (VFD.wire v') 0x12 = Some 1.
Proof.
  destruct (set_volume_level_icons 8 (VFD.mk (Some true) [] []) eq_refl)
    as (v' & frames & E & _ & _ & Hb & Hu).
  exists v'. split; [exact E|]. split; [exact (Hb 6 ltac:(lia)) | exact Hu].
Defined.

(** X6. With the port open, [set_wifi_level] clamps the level to 0..3
    and sends [3 + level] icon frames, after which bar [i] of the three
    bars 0x15..0x17 is on exactly when [i < level]. *)
Theorem set_wifi_level_icons (level : Z) (v : VFD.t) :
  VFD.connected v = true ->
  exists v' frames,
    VFD.set_wifi_level level v = Some v' /\
    VFD.wire v' = VFD.wire v ++ frames /\
    let lvl := Z.max 0 (Z.min 3 level) in
    Z.of_nat (List.length frames) = 3 + lvl /\
    (forall i, 0 <= i < 3 ->
       icon_value (VFD.wire v') (0x15 + i) = Some (if i <? lvl then 1 else 0)).
Proof.
  intros Hconn. unfold VFD.set_wifi_level.
  set (lvl := Z.max 0 (Z.min 3 level)).
  assert (Hl : lvl = 0 \/ lvl = 1 \/ lvl = 2 \/ lvl = 3) by lia.
  clearbody lvl.
  repeat (destruct Hl as [->|Hl]);
    [.. | subst lvl];
    (eexists; eexists; split; [cbn; reflexivity|]; split;
     [wire_sends Hconn; reflexivity|]; cbv zeta; split; [reflexivity|];
     intros i Hi;
     assert (Hc : i = 0 \/ i = 1 \/ i = 2) by lia;
     wire_sends Hconn; rewrite icon_value_app;
     repeat (destruct Hc as [->|Hc]; [reflexivity|]); subst i; reflexivity).
Qed.

Lemma set_wifi_level_icons_witness :
  exists v',
    VFD.set_wifi_level 2 (VFD.mk (Some true) [] []) = Some v' /\
    icon_value (VFD.wire v') 0x16 = Some 1 /\
    icon_value (VFD.wire v') 0x17 = Some 0.
Proof.
  destruct (set_wifi_level_icons 2 (VFD.mk (Some true) [] []) eq_refl)
    as (v' & frames & E & _ & _ & Hb).
  exists v'. split; [exact E|].
  split; [exact (Hb 1 ltac:(lia)) | exact (Hb 2 ltac:(lia))].
Defined.

(** X8. [_connect] never raises.  With a blank port name it changes
    nothing.  Otherwise the port is open afterwards when the open
    succeeded or a port was open before; then RESET and the 2-line mode
    command are the two frames sent, and if no port is open nothing goes
    out and the log gains the open error and two "not connected"
    lines. *)
Theorem connect_cases (port : string) (ok : bool) (s : App) :
  exists s',
    _connect port ok s = Some (tt, s') /\
    (strip port = ""%string -> s' = s) /\
    (strip port <> ""%string ->
     VFD.connected (vfd s') = ok || VFD.connected (vfd s) /\
     (VFD.connected (vfd s') = true ->
      VFD.wire (vfd s') = VFD.wire (vfd s) ++ [[0x1F]; [0x1B; 0x20]]) /\
     (VFD.connected (vfd s') = false ->
      VFD.wire (vfd s') = VFD.wire (vfd s) /\
      VFD.log (vfd s')
      = VFD.log (vfd s) ++ [VFD.LogOpenError; VFD.LogNotConnected; VFD.LogNotConnected])).
Proof.
  unfold _connect. destruct (String.eqb_spec (strip port) "") as [E|E].
  - exists s. split; [reflexivity|]. split; [reflexivity | congruence].
  - eexists. split; [reflexivity|]. split; [congruence|]. intros _.
    destruct s as [[p w l] ? ? ? ? ? ? ? ? ? ? ? ? ? ? ? ? ? ? ? ? ? ? ? ? ? ? ? ? ?].
    destruct ok, p as [[|]|]; cbn;
      unfold constant, VFD.RESET, VFD.send, VFD.connected; cbn;
      rewrite <- ?app_assoc; repeat split; intros; try discriminate; reflexivity.
Qed.

(** ** Every handler returns and keeps the state well formed *)

Lemma sends_trans (v1 v2 v3 : VFD.t) : sends v1 v2 -> sends v2 v3 -> sends v1 v3.
Proof. intros H12 H23. induction H23; [exact H12 | constructor; assumption]. Qed.

Lemma sends_one (b : list Z) (v : VFD.t) : sends v (VFD.send b v).
Proof. repeat constructor. Qed.

Lemma send_s (b : list Z) (v : VFD.t) : VFD.s (VFD.send b v) = VFD.s v.
Proof.
  unfold VFD.send. destruct v as [p w l]. destruct (VFD.connected _); reflexivity.
Qed.

Lemma land_FF_range (c : Z) : 0 <= Z.land c 0xFF < 256.
Proof.
  change 0xFF with (Z.ones 8). rewrite Z.land_ones by lia.
  apply Z.mod_pos_bound. reflexivity.
Qed.

Lemma icon_bool_eq (sub : Z) (on : bool) (v : VFD.t) :
  VFD.icon_bool sub on v
  = Some (VFD.send [0x1B; 0x30; Z.land sub 0xFF; if on then 0x01 else 0x00] v).
Proof.
  unfold VFD.icon_bool. rewrite ESC_ok; [reflexivity | lia |].
  pose proof (land_FF_range sub). constructor; [lia|].
  constructor; [destruct on; lia | constructor].
Qed.

Lemma icon_brightness_eq (sub level : Z) (v : VFD.t) :
  VFD.icon_brightness sub level v
  = Some (VFD.send [0x1B; 0x30; Z.land sub 0xFF;
                    Z.land (Z.max 0 (Z.min 6 level)) 0xFF] v).
Proof.
  unfold VFD.icon_brightness. rewrite ESC_ok; [reflexivity | lia |].
  pose proof (land_FF_range sub).
  pose proof (land_FF_range (Z.max 0 (Z.min 6 level))).
  repeat constructor; lia.
Qed.

Lemma clock_set_eq (dt : datetime) (v : VFD.t) :
  valid_datetime dt ->
  VFD.clock_set dt v
  = Some (VFD.send [0x1B; 0x00; minute dt; hour dt; day dt; month dt;
                    Z.land (Z.shiftr (year dt) 8) 0xFF; Z.land (year dt) 0xFF] v).
Proof.
  intros (Hy & Hmo & Hd & Hh & Hm & Hs). unfold VFD.clock_set.
  rewrite ESC_ok; [reflexivity | lia |].
  pose proof (land_FF_range (Z.shiftr (year dt) 8)).
  pose proof (land_FF_range (year dt)).
  repeat constructor; lia.
Qed.

(** A loop of commands only sends. *)
Lemma foldM_sends {A} (f : VFD.t -> A -> option VFD.t) (l : list A) (v : VFD.t) :
  (forall v x, exists v', f v x = Some v' /\ sends v v') ->
  exists v', Py.foldM f l v = Some v' /\ sends v v'.
Proof.
  intros Hf. revert v. induction l as [|x t IH]; intros v; cbn [Py.foldM].
  - exists v. split; [reflexivity | constructor].
  - destruct (Hf v x) as (v1 & E & H1). rewrite E.
    destruct (IH v1) as (v2 & E2 & H2). exists v2. split; [exact E2|].
    eapply sends_trans; eassumption.
Qed.

Lemma set_volume_level_sends (level : Z) (v : VFD.t) :
  exists v', VFD.set_volume_level level v = Some v' /\ sends v v'.
Proof.
  unfold VFD.set_volume_level.
  set (lvl := Z.max 0 (Z.min 8 level)).
  assert (Hl : lvl = 0 \/ lvl = 1 \/ lvl = 2 \/ lvl = 3 \/ lvl = 4 \/ lvl = 5 \/
               lvl = 6 \/ lvl = 7 \/ lvl = 8) by lia.
  clearbody lvl.
  repeat (destruct Hl as [->|Hl]); [.. | subst lvl];
    (eexists; split; [cbn; reflexivity | repeat constructor]).
Qed.

Lemma set_wifi_level_sends (level : Z) (v : VFD.t) :
  exists v', VFD.set_wifi_level level v = Some v' /\ sends v v'.
Proof.
  unfold VFD.set_wifi_level.
  set (lvl := Z.max 0 (Z.min 3 level)).
  assert (Hl : lvl = 0 \/ lvl = 1 \/ lvl = 2 \/ lvl = 3) by lia.
  clearbody lvl.
  repeat (destruct Hl as [->|Hl]); [.. | subst lvl];
    (eexists; split; [cbn; reflexivity | repeat constructor]).
Qed.

Lemma all_icons_sends (lvl : Z) (l : list Z) (v : VFD.t) :
  exists v',
    Py.foldM (fun v sub => VFD.icon_brightness sub lvl v) l v
    = Some v' /\ sends v v'.
Proof.
  apply foldM_sends. intros v0 x. rewrite icon_brightness_eq.
  eexists. split; [reflexivity | apply sends_one].
Qed.

(** ** The handlers, one by one *)

Arguments VFD.set_volume_level : simpl never.
Arguments VFD.set_wifi_level : simpl never.
Arguments VFD.icon_brightness : simpl never.
Arguments VFD.icon_bool : simpl never.
Arguments VFD.clock_set : simpl never.
Arguments Py.foldM : simpl never.
Arguments Py.mod_ : simpl never.
Arguments Py.getitem : simpl never.
Arguments bounce_next : simpl never.

Ltac open_inv s :=
  match goal with
  | H : app_inv s |- _ =>
      unfold app_inv, attrs_inv, mm_wf, ball_wf, game_wf, dir_inv, food_inv,
        snake_inv in H |- *;
      revert H
  end;
  repeat match goal with K : context [s] |- _ => revert K end;
  open_app s; intros.

Ltac inv_parts H :=
  destruct H as ((Hmq & Hsp & Htw & Hic & Hip & Hem & Hrec & Hst) & Hrain &
                 ((Hbp & Hbvr & Hbvc) & Hgrid & (Hsne & Hsin & Hfood)) &
                 (Hd1 & Hd2 & Hd3) & Hfi & (Hnd & Hch & Hsc & Hs0)).

Ltac unfold_m :=
  unfold bind, get, modify, lift, dev, dev', after, ret, select_line.

Ltac sends_solve :=
  repeat first [ apply sends_refl | apply sends_step | assumption
               | eapply sends_trans; [eassumption|] ].

Ltac inv_solve :=
  repeat first [ assumption | split ];
  try (intros; discriminate);
  try (intros _; repeat split; eauto; fail);
  try solve [eauto].

Ltac finish :=
  eexists; split; [reflexivity|]; split;
  [ norm; inv_solve
  | norm; unfold VFD.write_text, VFD.mm_clear, VFD.RESET; sends_solve ].

Ltac start_handler s :=
  let Hinv := fresh "Hinv" in let Hdt := fresh "Hdt" in
  intros s Hinv Hdt; open_inv s;
  match goal with H : _ /\ _ |- _ => inv_parts H end.

Lemma clock_text_tick_ok : handler_ok _clock_text_tick.
Proof.
  start_handler s. unfold _clock_text_tick. unfold_m. norm.
  destruct l_clock_text; norm; [|finish].
  destruct (String.eqb _ _); norm; finish.
Qed.

Lemma clock_text_start_ok : handler_ok _clock_text_start.
Proof.
  start_handler s. unfold _clock_text_start, _clock_text_tick. unfold_m. norm.
  destruct l_clock_text; norm; [finish|].
  destruct (String.eqb _ _); norm; finish.
Qed.

Lemma clock_text_stop_ok : handler_ok _clock_text_stop.
Proof. start_handler s. unfold _clock_text_stop. unfold_m. norm. finish. Qed.

Lemma clock_sync_tick_ok : handler_ok _clock_sync_tick.
Proof.
  start_handler s. unfold _clock_sync_tick. unfold_m. norm.
  destruct l_clock_sync; norm; [|finish].
  rewrite clock_set_eq by assumption. norm. finish.
Qed.

Lemma clock_sync_start_ok : handler_ok _clock_sync_start.
Proof.
  start_handler s. unfold _clock_sync_start, _clock_sync_tick. unfold_m. norm.
  destruct l_clock_sync; norm; [finish|].
  rewrite clock_set_eq by assumption. norm. finish.
Qed.

Lemma vol_sweep_tick_ok (lvl step : Z) : handler_ok (_vol_sweep_tick lvl step).
Proof.
  start_handler s. unfold _vol_sweep_tick. unfold_m. norm.
  destruct l_vol_sweep; norm; [|finish].
  destruct (set_volume_level_sends lvl s_vfd) as (v' & E & Hs). rewrite E.
  destruct (bounce_next 8 lvl step). norm. finish.
Qed.

Lemma vol_sweep_start_ok : handler_ok _vol_sweep_start.
Proof.
  start_handler s. unfold _vol_sweep_start, _vol_sweep_tick. unfold_m. norm.
  destruct l_vol_sweep; norm; [finish|].
  destruct (set_volume_level_sends 0 s_vfd) as (v' & E & Hs). rewrite E.
  destruct (bounce_next 8 0 1). norm. finish.
Qed.

Lemma getitem_total {A} (l : list A) (i : Z) :
  0 <= i < Py.len l -> exists x, Py.getitem l i = Some x /\ In x l.
Proof.
  intros H. rewrite getitem_nth by exact H.
  destruct (nth_error l (Z.to_nat i)) as [x|] eqn:E.
  - exists x. split; [reflexivity|]. eapply nth_error_In; eauto.
  - apply nth_error_None in E. unfold Py.len in H. lia.
Qed.

Lemma mod_total (a b : Z) : 0 < b -> Py.mod_ a b = Some (a mod b).
Proof. intros H. unfold Py.mod_. replace (b =? 0) with false by lia. reflexivity. Qed.

Ltac do_mod :=
  rewrite mod_total by (unfold Py.len; cbn; lia).

Ltac do_getitem :=
  match goal with
  | |- context [Py.getitem ?l ?i] =>
      let x := fresh "x" in let E := fresh "E" in let Hx := fresh "Hx" in
      destruct (getitem_total l i) as (x & E & Hx);
      [ first [ apply Z.mod_pos_bound; unfold Py.len; cbn; lia
              | unfold Py.len; cbn; lia ]
      | rewrite E ]
  end.

Ltac do_volume :=
  match goal with
  | |- context [VFD.set_volume_level ?l ?w] =>
      let v' := fresh "v" in let E := fresh "E" in let Hs := fresh "Hs" in
      destruct (set_volume_level_sends l w) as (v' & E & Hs); rewrite E
  end.

Ltac do_wifi :=
  match goal with
  | |- context [VFD.set_wifi_level ?l ?w] =>
      let v' := fresh "v" in let E := fresh "E" in let Hs := fresh "Hs" in
      destruct (set_wifi_level_sends l w) as (v' & E & Hs); rewrite E
  end.

Ltac do_icons :=
  match goal with
  | |- context [Py.foldM (fun a b => VFD.icon_brightness b ?lvl a) ?l ?w] =>
      let v' := fresh "v" in let E := fresh "E" in let Hs := fresh "Hs" in
      destruct (all_icons_sends lvl l w) as (v' & E & Hs); rewrite E
  end.

Lemma wifi_scan_tick_ok (state : Z) : handler_ok (_wifi_scan_tick state).
Proof.
  start_handler s. unfold _wifi_scan_tick. unfold_m. norm.
  destruct l_wifi_scan; norm; [|finish].
  do_mod. norm. do_getitem. norm. do_wifi. norm. finish.
Qed.

Lemma wifi_scan_start_ok : handler_ok _wifi_scan_start.
Proof.
  start_handler s. unfold _wifi_scan_start, _wifi_scan_tick. unfold_m. norm.
  destruct l_wifi_scan; norm; [finish|].
  do_mod. norm. do_getitem. norm. do_wifi. norm. finish.
Qed.

Lemma wifi_scan_stop_ok : handler_ok _wifi_scan_stop.
Proof.
  start_handler s. unfold _wifi_scan_stop. unfold_m. norm. do_wifi. norm. finish.
Qed.

Lemma icon_wave_tick_ok (lvl step : Z) : handler_ok (_icon_wave_tick lvl step).
Proof.
  start_handler s. unfold _icon_wave_tick, all_icons. unfold_m. norm.
  destruct l_icon_wave; norm; [|finish].
  do_icons. norm. destruct (bounce_next 6 lvl step). norm. finish.
Qed.

Lemma icon_wave_start_ok : handler_ok _icon_wave_start.
Proof.
  start_handler s. unfold _icon_wave_start, _icon_wave_tick, all_icons. unfold_m. norm.
  destruct l_icon_wave; norm; [finish|].
  do_icons. norm. destruct (bounce_next 6 0 1). norm. finish.
Qed.

Lemma icon_wave_stop_ok : handler_ok _icon_wave_stop.
Proof.
  start_handler s. unfold _icon_wave_stop, all_icons. unfold_m. norm.
  do_icons. norm. finish.
Qed.

Arguments Py.spaces : simpl never.
Arguments String.length : simpl never.
Arguments append : simpl never.
Arguments forM : simpl never.
Arguments xor_bit : simpl never.
Arguments strip : simpl never.

Lemma string_length_app (a b : string) :
  String.length (a ++ b) = (String.length a + String.length b)%nat.
Proof.
  induction a as [|c a IH]; [reflexivity|].
  change (String c a ++ b)%string with (String c (a ++ b)).
  change (String.length (String c (a ++ b))) with (S (String.length (a ++ b))).
  rewrite IH. reflexivity.
Qed.

Lemma marquee_modulus (raw : string) :
  0 < Z.of_nat (String.length (Py.spaces 16 ++ raw ++ Py.spaces 16)) - 15.
Proof.
  rewrite !string_length_app.
  change (String.length (Py.spaces 16)) with 16%nat. lia.
Qed.

Lemma marquee_tick_ok : handler_ok _marquee_tick.
Proof.
  start_handler s. unfold _marquee_tick. unfold_m. norm.
  destruct l_marquee; norm; [|finish].
  destruct (Hmq eq_refl) as (off & ->). norm.
  rewrite mod_total by apply marquee_modulus. norm.
  destruct (String.eqb _ _); norm; finish.
Qed.

Lemma marquee_start_ok : handler_ok _marquee_start.
Proof.
  start_handler s. unfold _marquee_start, _marquee_tick. unfold_m. norm.
  destruct l_marquee; norm; [finish|].
  rewrite mod_total by apply marquee_modulus. norm.
  destruct (String.eqb _ _); norm; finish.
Qed.

Lemma marquee_stop_ok : handler_ok _marquee_stop.
Proof. start_handler s. unfold _marquee_stop. unfold_m. norm. finish. Qed.

Lemma cylon_tick_ok (pos step : Z) : handler_ok (_cylon_tick pos step).
Proof.
  start_handler s. unfold _cylon_tick. unfold_m. norm.
  destruct l_cylon; norm; [|finish].
  do_volume. destruct (bounce_next 6 pos step). norm. finish.
Qed.

Lemma cylon_start_ok : handler_ok _cylon_start.
Proof.
  start_handler s. unfold _cylon_start, _cylon_tick. unfold_m. norm.
  destruct l_cylon; norm; [finish|].
  do_volume. destruct (bounce_next 6 0 1). norm. finish.
Qed.

Lemma cylon_stop_ok : handler_ok _cylon_stop.
Proof.
  start_handler s. unfold _cylon_stop. unfold_m. norm. do_volume. norm. finish.
Qed.

Lemma vol_sweep_stop_ok : handler_ok _vol_sweep_stop.
Proof. start_handler s. unfold _vol_sweep_stop. unfold_m. norm. finish. Qed.

Lemma clock_sync_stop_ok : handler_ok _clock_sync_stop.
Proof. start_handler s. unfold _clock_sync_stop. unfold_m. norm. finish. Qed.

Lemma spin_tick_ok : handler_ok _spin_tick.
Proof.
  start_handler s. unfold _spin_tick. unfold_m. norm.
  destruct l_spin; norm; [|finish].
  destruct (Hsp eq_refl) as ((st & ->) & ->). norm.
  do_mod. norm. do_getitem. norm. rewrite mm_send_cols_ok. norm. finish.
Qed.

Lemma spin_start_ok : handler_ok _spin_start.
Proof.
  start_handler s. unfold _spin_start, _spin_tick. unfold_m. norm.
  destruct l_spin; norm; [finish|].
  do_mod. norm. do_getitem. norm. rewrite mm_send_cols_ok. norm. finish.
Qed.

Lemma spin_stop_ok : handler_ok _spin_stop.
Proof. start_handler s. unfold _spin_stop, VFD.mm_clear. unfold_m. norm. finish. Qed.

Lemma xor_bit_ok (cols : list Z) (r c : Z) :
  List.length cols = 9%nat -> 0 <= c <= 8 -> 0 <= r ->
  xor_bit cols c r
  = Some (Py.replace_nth (Z.to_nat c)
            (Z.lxor (nth (Z.to_nat c) cols 0) (Z.shiftl 1 r)) cols).
Proof.
  intros Hl Hc Hr. unfold xor_bit.
  rewrite getitem_nth by (unfold Py.len; lia).
  rewrite (nth_error_nth_some cols _ 0) by lia.
  unfold Py.lshift. replace (r <? 0) with false by lia.
  apply setitem_replace. unfold Py.len; lia.
Qed.

Lemma twinkle_loop (l : list Z) (cols : list Z) (s : App) :
  List.length cols = 9%nat ->
  exists cols' rng',
    forM l (fun cols (_ : Z) => c <- randint 0 8 ;; r <- randint 0 6 ;;
                                lift (xor_bit cols c r)) cols s
    = Some (cols', s <| rng := rng' |>) /\ List.length cols' = 9%nat.
Proof.
  intros Hl.
  apply (forM_invariant _ (fun _ cols => List.length cols = 9%nat)); [|exact Hl].
  intros done x b s0 Hb _. unfold bind.
  destruct (randint_ok 0 8 s0 ltac:(lia)) as (c & r1 & E1 & Hc). rewrite E1.
  destruct (randint_ok 0 6 (s0 <| rng := r1 |>) ltac:(lia)) as (r & r2 & E2 & Hr).
  rewrite E2. unfold lift. rewrite xor_bit_ok by (try assumption; lia).
  eexists; eexists. split; [rewrite set_rng_twice; reflexivity|].
  rewrite length_replace_nth. exact Hb.
Qed.

Ltac set_twinkle :=
  set (twinkle_body := fun cols (_ : Z) =>
         c <- randint 0 8 ;; r <- randint 0 6 ;; lift (xor_bit cols c r)).

Ltac do_twinkle :=
  match goal with
  | |- context [forM ?l _ ?b ?st] =>
      let c' := fresh "cols" in let r' := fresh "rng" in
      let E := fresh "E" in let Hl := fresh "Hl" in
      destruct (twinkle_loop l b st) as (c' & r' & E & Hl);
      [ first [assumption | reflexivity]
      | match goal with f := _ : list Z -> Z -> M (list Z) |- _ => subst f end;
        rewrite E ]
  end.

Lemma twinkle_tick_ok : handler_ok _twinkle_tick.
Proof.
  start_handler s. unfold _twinkle_tick. set_twinkle. unfold_m. norm.
  destruct l_twinkle; norm; [|finish].
  destruct (Htw eq_refl) as (cols & -> & Hcols). norm.
  do_twinkle. norm. rewrite mm_send_cols_ok. norm. finish.
  exists (map (fun c => Z.land c 0x7F) cols0). split; [reflexivity|].
  rewrite length_map. assumption.
Qed.

Lemma twinkle_start_ok : handler_ok _twinkle_start.
Proof.
  start_handler s. unfold _twinkle_start, _twinkle_tick. set_twinkle. unfold_m. norm.
  destruct l_twinkle; norm; [finish|].
  do_twinkle. norm. rewrite mm_send_cols_ok. norm. finish.
  exists (map (fun c => Z.land c 0x7F) cols). split; [reflexivity|].
  rewrite length_map. assumption.
Qed.

Lemma twinkle_stop_ok : handler_ok _twinkle_stop.
Proof. start_handler s. unfold _twinkle_stop. unfold_m. norm. finish. Qed.

Lemma icon_carousel_tick_ok : handler_ok _icon_carousel_tick.
Proof.
  start_handler s. unfold _icon_carousel_tick, all_icons. unfold_m. norm.
  destruct l_icon_carousel; norm; [|finish].
  destruct (Hic eq_refl) as (i & ->). norm.
  do_icons. norm. rewrite icon_brightness_eq. norm. finish.
Qed.

Lemma icon_carousel_start_ok : handler_ok _icon_carousel_start.
Proof.
  start_handler s. unfold _icon_carousel_start, _icon_carousel_tick, all_icons.
  unfold_m. norm.
  destruct l_icon_carousel; norm; [finish|].
  do_icons. norm. rewrite icon_brightness_eq. norm. finish.
Qed.

Lemma icon_carousel_stop_ok : handler_ok _icon_carousel_stop.
Proof.
  start_handler s. unfold _icon_carousel_stop, all_icons. unfold_m. norm.
  do_icons. norm. finish.
Qed.

Lemma icon_pulse_loop (phase : Z) (l : list Z) (v : VFD.t) :
  exists v',
    Py.foldM (fun v i =>
                VFD.icon_brightness (0x00 + i)
                  (if (phase + i * 2) mod 12 <=? 6 then (phase + i * 2) mod 12
                   else 12 - (phase + i * 2) mod 12) v) l v
    = Some v' /\ sends v v'.
Proof.
  apply foldM_sends. intros v0 x. rewrite icon_brightness_eq.
  eexists. split; [reflexivity | apply sends_one].
Qed.

Lemma icon_pulse_tick_ok : handler_ok _icon_pulse_tick.
Proof.
  start_handler s. unfold _icon_pulse_tick. unfold_m. norm.
  destruct l_icon_pulse; norm; [|finish].
  destruct (Hip eq_refl) as (p & ->). norm.
  match goal with
  | |- context [Py.foldM _ ?l ?w] =>
      destruct (icon_pulse_loop p l w) as (v' & E & Hs)
  end.
  cbn in E. rewrite E. norm. finish.
Qed.

Lemma icon_pulse_start_ok : handler_ok _icon_pulse_start.
Proof.
  start_handler s. unfold _icon_pulse_start, _icon_pulse_tick. unfold_m. norm.
  destruct l_icon_pulse; norm; [finish|].
  match goal with
  | |- context [Py.foldM _ ?l ?w] =>
      destruct (icon_pulse_loop 0 l w) as (v' & E & Hs)
  end.
  cbn in E. rewrite E. norm. finish.
Qed.

Lemma icon_pulse_stop_ok : handler_ok _icon_pulse_stop.
Proof.
  start_handler s. unfold _icon_pulse_stop, all_icons. unfold_m. norm.
  do_icons. norm. finish.
Qed.

Lemma email_blink_tick_ok : handler_ok _email_blink_tick.
Proof.
  start_handler s. unfold _email_blink_tick, VFD.set_email_white, VFD.set_email_red.
  unfold_m. norm.
  destruct l_email_blink; norm; [|finish].
  destruct (Hem eq_refl) as (st & ->). norm.
  rewrite icon_bool_eq. norm. rewrite icon_bool_eq. norm. finish.
Qed.

Lemma email_blink_start_ok : handler_ok _email_blink_start.
Proof.
  start_handler s.
  unfold _email_blink_start, _email_blink_tick, VFD.set_email_white, VFD.set_email_red.
  unfold_m. norm.
  destruct l_email_blink; norm; [finish|].
  rewrite icon_bool_eq. norm. rewrite icon_bool_eq. norm. finish.
Qed.

Lemma email_blink_stop_ok : handler_ok _email_blink_stop.
Proof.
  start_handler s. unfold _email_blink_stop, VFD.set_email_white, VFD.set_email_red.
  unfold_m. norm. rewrite icon_bool_eq. norm. rewrite icon_bool_eq. norm. finish.
Qed.

Lemma record_blink_tick_ok : handler_ok _record_blink_tick.
Proof.
  start_handler s. unfold _record_blink_tick, VFD.set_record. unfold_m. norm.
  destruct l_record_blink; norm; [|finish].
  destruct (Hrec eq_refl) as (on & ->). norm.
  rewrite icon_bool_eq. norm. finish.
Qed.

Lemma record_blink_start_ok : handler_ok _record_blink_start.
Proof.
  start_handler s. unfold _record_blink_start, _record_blink_tick, VFD.set_record.
  unfold_m. norm.
  destruct l_record_blink; norm; [finish|].
  rewrite icon_bool_eq. norm. finish.
Qed.

Lemma record_blink_stop_ok : handler_ok _record_blink_stop.
Proof.
  start_handler s. unfold _record_blink_stop, VFD.set_record. unfold_m. norm.
  rewrite icon_bool_eq. norm. finish.
Qed.

Lemma text_bounce_tick_ok : handler_ok _text_bounce_tick.
Proof.
  start_handler s. unfold _text_bounce_tick. unfold_m. norm.
  destruct l_text_bounce; norm; [|finish].
  destruct (String.eqb (bounce_line s_host) "0"); norm;
    repeat match goal with
           | |- context [if ?c then _ else _] => destruct c; norm
           end;
    finish.
Qed.

Lemma text_bounce_start_ok : handler_ok _text_bounce_start.
Proof.
  start_handler s. unfold _text_bounce_start, _text_bounce_tick. unfold_m. norm.
  destruct l_text_bounce; norm; [finish|].
  destruct (String.eqb (bounce_line s_host) "0"); norm;
    repeat match goal with
           | |- context [if ?c then _ else _] => destruct c; norm
           end;
    finish.
Qed.

Lemma text_bounce_stop_ok : handler_ok _text_bounce_stop.
Proof. start_handler s. unfold _text_bounce_stop. unfold_m. norm. finish. Qed.

(** *** rain *)

Lemma rows_descend_cons (p : Z * Z) (t : list (Z * Z)) :
  rows_descend (p :: t) <-> Forall (fun q => fst q < fst p) t /\ rows_descend t.
Proof.
  revert p. induction t as [|q t IH]; intros p.
  - cbn. split; [intros _; split; [constructor | exact I] | intros _; exact I].
  - change (rows_descend (p :: q :: t)) with (fst q < fst p /\ rows_descend (q :: t)).
    split.
    + intros [Hq Ht]. split; [|exact Ht]. constructor; [exact Hq|].
      apply IH in Ht. destruct Ht as [Ht _].
      eapply Forall_impl; [|exact Ht]. cbn. intros; lia.
    + intros [Hall Ht]. inversion Hall; subst. split; assumption.
Qed.

Lemma rain_advance_cons (p : Z * Z) (t : list (Z * Z)) :
  rain_advance (p :: t)
  = ((if fst p + 1 <=? 6 then [(fst p + 1, snd p)] else []) ++ rain_advance t)%list.
Proof. reflexivity. Qed.

Lemma rain_wf_advance (l : list (Z * Z)) :
  Forall (fun p => 0 <= fst p <= 6 /\ 0 <= snd p <= 8) l -> rows_descend l ->
  rain_wf (rain_advance l).
Proof.
  induction 1 as [|p t Hp Ht IH]; intros Hd.
  - split; [constructor | exact I].
  - apply rows_descend_cons in Hd. destruct Hd as [Hlt Hd].
    destruct (IH Hd) as [Hb Hs]. rewrite rain_advance_cons.
    destruct (Z.leb_spec (fst p + 1) 6) as [Hle|Hgt]; cbn [app]; [|split; assumption].
    split.
    + constructor; [cbn; lia | exact Hb].
    + apply rows_descend_cons. split; [|exact Hs].
      apply Forall_forall. intros [r c] Hin. apply rain_advance_spec in Hin.
      destruct Hin as [Hin _]. rewrite Forall_forall in Hlt.
      specialize (Hlt _ Hin). cbn in *. lia.
Qed.

Lemma rain_wf_spawn (drops sp : list (Z * Z)) :
  rain_wf drops -> (List.length sp <= 1)%nat ->
  (forall p, In p sp -> fst p = 0 /\ 0 <= snd p <= 8) ->
  rain_wf (rain_advance (drops ++ sp)).
Proof.
  intros [Hb Hd] Hlen Hsp. apply rain_wf_advance.
  - apply Forall_app. split.
    + eapply Forall_impl; [|exact Hb]. cbn. intros; lia.
    + apply Forall_forall. intros p Hp. destruct (Hsp p Hp). lia.
  - destruct sp as [|q [|? ?]]; [rewrite app_nil_r; exact Hd | | cbn in Hlen; lia].
    destruct (Hsp q (or_introl eq_refl)) as [Hq _].
    clear Hlen Hsp. induction drops as [|p t IH]; [exact I|].
    inversion Hb; subst. apply rows_descend_cons in Hd. destruct Hd as [Hlt Hd].
    cbn [app]. apply rows_descend_cons. split.
    + apply Forall_app. split; [exact Hlt|]. constructor; [lia | constructor].
    + apply IH; assumption.
Qed.

Lemma rain_wf_bounds (drops : list (Z * Z)) :
  rain_wf drops -> Forall (fun p => in_bounds p = true) drops.
Proof.
  intros [Hb _]. eapply Forall_impl; [|exact Hb].
  intros [r c]. unfold in_bounds. cbn. lia.
Qed.

Lemma rain_spawn_length (s : App) : (List.length (rain_spawn s) <= 1)%nat.
Proof.
  unfold rain_spawn. destruct (random_random s) as [[u s1]|]; [|cbn; lia].
  destruct (Qltb u _rain_p); [|cbn; lia].
  destruct (randint 0 8 s1) as [[c ?]|]; cbn; lia.
Qed.

Lemma rain_tick_ok : handler_ok _rain_tick.
Proof.
  intros s Hinv Hdt. destruct (enabled mini_rain s) eqn:He.
  - assert (Hr : rain_wf (_rain_drops s)) by apply Hinv.
    destruct (rain_tick_eq s He (rain_wf_bounds _ Hr)) as (r & cols & E & _ & _ & Hsp).
    pose proof (rain_wf_spawn _ _ Hr (rain_spawn_length s) Hsp) as Hr'.
    rewrite E. clear E Hsp He. revert Hr'. generalize (rain_spawn s) as sp. intros sp.
    open_inv s. match goal with H : _ /\ _ |- _ => inv_parts H end.
    finish.
  - exists s. split; [|split; [assumption | constructor]].
    revert He. clear. open_app s. intros ->. reflexivity.
Qed.

(** A start that is its guard, some assignments and the first tick. *)
Lemma handler_ok_guard (flag : App -> bool) (f : App -> App) (m m' : M unit) :
  (forall s, m' s = if flag s then Some (tt, s) else m (f s)) ->
  (forall s, app_inv s -> flag s = false ->
             app_inv (f s) /\ sends (vfd s) (vfd (f s)) /\ host (f s) = host s) ->
  handler_ok m -> handler_ok m'.
Proof.
  intros Hm Hf Hok s Hinv Hdt. rewrite Hm. destruct (flag s) eqn:E.
  - exists s. split; [reflexivity|]. split; [exact Hinv | constructor].
  - destruct (Hf s Hinv E) as (Hinv' & Hs & Hh).
    destruct (Hok (f s) Hinv') as (s' & E' & Hinv'' & Hs').
    { rewrite Hh. exact Hdt. }
    exists s'. split; [exact E'|]. split; [exact Hinv''|].
    eapply sends_trans; eassumption.
Qed.

Lemma handler_ok_pre (f : App -> App) (m m' : M unit) :
  (forall s, m' s = m (f s)) ->
  (forall s, app_inv s ->
             app_inv (f s) /\ sends (vfd s) (vfd (f s)) /\ host (f s) = host s) ->
  handler_ok m -> handler_ok m'.
Proof.
  intros Hm Hf Hok.
  apply (handler_ok_guard (fun _ => false) f m m'); [exact Hm | | exact Hok].
  intros s Hinv _. apply Hf. exact Hinv.
Qed.

Ltac pre_solve s :=
  let Hinv := fresh "Hinv" in
  intros s Hinv; intros; open_inv s;
  match goal with H : _ /\ _ |- _ => inv_parts H end;
  split; [norm; inv_solve
         | split; [norm; unfold VFD.mm_clear; sends_solve | reflexivity]].

Lemma rain_start_ok : handler_ok _rain_start.
Proof.
  apply (handler_ok_guard
           (fun s => loop_mini_rain (loops s))
           (fun s => s <| loops -> loop_mini_rain := true |> <| _rain_drops := [] |>)
           _rain_tick).
  - intros s. unfold _rain_start, bind, get, modify. cbn.
    destruct (loop_mini_rain (loops s)); reflexivity.
  - pre_solve s.
  - exact rain_tick_ok.
Qed.

Lemma rain_stop_ok : handler_ok _rain_stop.
Proof.
  start_handler s. unfold _rain_stop. unfold_m. norm. finish.
Qed.

(** *** the path snake *)

Lemma snake_path_bounds : Forall (fun p => in_bounds p = true) _snake_path.
Proof.
  apply Forall_forall. intros p Hp.
  assert (H : forallb in_bounds _snake_path = true) by (vm_compute; reflexivity).
  rewrite forallb_forall in H. apply H. exact Hp.
Qed.

Lemma snake_segment (l : list Z) :
  exists seg,
    Py.foldM (fun seg k =>
                let? i := Py.mod_ k (Py.len _snake_path) in
                let? rc := Py.getitem _snake_path i in
                Some (seg ++ [rc])) l [] = Some seg /\
    Forall (fun p => in_bounds p = true) seg.
Proof.
  apply (foldM_invariant _ (fun _ seg => Forall (fun p => in_bounds p = true) seg));
    [|constructor].
  intros done k seg Hseg _.
  assert (Hlen : 0 < Py.len _snake_path) by (vm_compute; reflexivity).
  rewrite mod_total by exact Hlen.
  destruct (getitem_total _snake_path (k mod Py.len _snake_path)) as (rc & E & Hin).
  { apply Z.mod_pos_bound. exact Hlen. }
  rewrite E. eexists. split; [reflexivity|].
  apply Forall_app. split; [exact Hseg|]. constructor; [|constructor].
  pose proof snake_path_bounds as Hb. rewrite Forall_forall in Hb. apply Hb. exact Hin.
Qed.

Arguments _snake_path : simpl never.
Arguments Py.len : simpl never.
Arguments Py.range2 : simpl never.

Lemma snake_tick_ok : handler_ok _snake_tick.
Proof.
  start_handler s. unfold _snake_tick. unfold_m. norm.
  destruct l_mini_snake; norm; [|finish].
  match goal with
  | |- context [Py.foldM _ ?l []] => destruct (snake_segment l) as (seg & E & Hseg)
  end.
  rewrite E. norm.
  destruct (plot_ok seg Hseg (repeat 0 9) eq_refl) as (cols & Ep & _).
  cbn in Ep. rewrite Ep. norm. rewrite mm_send_cols_ok. norm. finish.
Qed.

Lemma snake_start_ok : handler_ok _snake_start.
Proof.
  apply (handler_ok_guard
           (fun s => loop_mini_snake (loops s))
           (fun s => s <| loops -> loop_mini_snake := true |> <| _snake_idx := 0 |>)
           _snake_tick).
  - intros s. unfold _snake_start, bind, get, modify. cbn.
    destruct (loop_mini_snake (loops s)); reflexivity.
  - pre_solve s.
  - exact snake_tick_ok.
Qed.

Lemma snake_stop_ok : handler_ok _snake_stop.
Proof. start_handler s. unfold _snake_stop. unfold_m. norm. finish. Qed.

(** *** the v8 mini-matrix modes *)

Lemma ball_tick_ok : handler_ok _ball_tick.
Proof.
  start_handler s. destruct s_ball as [r c], s_vel as [vr vc].
  unfold in_bounds in Hbp. cbn [fst snd] in *.
  unfold _ball_tick. unfold_m. norm.
  destruct l_ball; norm; [|finish; unfold in_bounds; cbn [fst snd]; lia].
  destruct ((r + vr <? 0) || (6 <? r + vr)) eqn:Er;
    destruct ((c + vc <? 0) || (8 <? c + vc)) eqn:Ec;
    (rewrite or_bit_ok by (try reflexivity; unfold in_bounds; cbn [fst snd]; lia));
    rewrite mm_send_cols_ok; norm; finish;
    try (unfold in_bounds; cbn [fst snd]; lia); lia.
Qed.

Lemma ball_start_ok : handler_ok _ball_start.
Proof.
  apply (handler_ok_pre
           (fun s => (stop_all_state s) <| loops -> loop_ball := true |>) _ball_tick).
  - intros s. destruct s. reflexivity.
  - unfold stop_all_state. pre_solve s.
  - exact ball_tick_ok.
Qed.

Lemma ball_stop_ok : handler_ok _ball_stop.
Proof. start_handler s. unfold _ball_stop. unfold_m. norm. finish. Qed.

Lemma stick_frames_length :
  Forall (fun f => List.length f = 9%nat) _stick_frames.
Proof. repeat constructor. Qed.

Lemma stick_cols_ok (frame : list Z) (col : Z) :
  List.length frame = 9%nat -> exists cols, stick_cols frame col = Some cols.
Proof.
  intros Hl. unfold stick_cols.
  destruct (foldM_invariant
              (fun cols i =>
                 let src := i - (9 - col) in
                 if (0 <=? src) && (src <? 9) then
                   let? x := Py.getitem frame src in Py.setitem cols i x
                 else Some cols)
              (fun _ cols => List.length cols = 9%nat) (Py.range 9))
    with (b := repeat 0 9) as (cols & E & _); [| reflexivity | eauto].
  intros done i cols Hc Hi. apply In_range in Hi. cbv zeta.
  destruct ((0 <=? i - (9 - col)) && (i - (9 - col) <? 9)) eqn:Eb; [|eauto].
  destruct (getitem_total frame (i - (9 - col))) as (x & Ex & _).
  { unfold Py.len. lia. }
  rewrite Ex, setitem_replace by (unfold Py.len; lia).
  eexists. split; [reflexivity|]. rewrite length_replace_nth. exact Hc.
Qed.

Lemma stickman_tick_ok : handler_ok _stickman_tick.
Proof.
  start_handler s. unfold _stickman_tick. unfold_m. norm.
  destruct l_stickman; norm; [|finish].
  destruct (Hst eq_refl) as (i & ->). norm.
  rewrite mod_total by (vm_compute; reflexivity). norm.
  destruct (getitem_total _stick_frames (i mod Py.len _stick_frames))
    as (frame & E & Hin).
  { apply Z.mod_pos_bound. vm_compute; reflexivity. }
  rewrite E. norm.
  pose proof stick_frames_length as Hf. rewrite Forall_forall in Hf.
  destruct (stick_cols_ok frame (s_scol - 1) (Hf _ Hin)) as (cols & Ec).
  rewrite Ec. norm. rewrite mm_send_cols_ok. norm.
  destruct (s_scol - 1 <=? 0); norm; finish.
Qed.

Lemma stickman_start_ok : handler_ok _stickman_start.
Proof.
  apply (handler_ok_pre
           (fun s => (stop_all_state s) <| loops -> loop_stickman := true |>
                       <| _stick_col := 9 |> <| _stick_idx := Some 0 |>)
           _stickman_tick).
  - intros s. destruct s. reflexivity.
  - unfold stop_all_state. pre_solve s.
  - exact stickman_tick_ok.
Qed.

Lemma stickman_stop_ok : handler_ok _stickman_stop.
Proof. start_handler s. unfold _stickman_stop. unfold_m. norm. finish. Qed.

Lemma gol_tick_ok : handler_ok _gol_tick.
Proof.
  start_handler s. unfold _gol_tick. unfold_m. norm.
  destruct l_gol; norm; [|finish].
  destruct (gol_cols_ok _ Hgrid) as (cols & Ec & _).
  destruct (gol_step_spec _ Hgrid) as (out & Eo & Hout & _).
  rewrite Ec. norm. rewrite mm_send_cols_ok. norm. rewrite Eo. norm. finish.
Qed.

Lemma gol_start_ok : handler_ok _gol_start.
Proof.
  apply (handler_ok_pre
           (fun s => (stop_all_state s) <| loops -> loop_gol := true |>) _gol_tick).
  - intros s. destruct s. reflexivity.
  - unfold stop_all_state. pre_solve s.
  - exact gol_tick_ok.
Qed.

Lemma gol_stop_ok : handler_ok _gol_stop.
Proof. start_handler s. unfold _gol_stop. unfold_m. norm. finish. Qed.

Lemma gol_randomize_ok : handler_ok _gol_randomize.
Proof.
  intros s Hinv Hdt. unfold _gol_randomize, bind, modify.
  destruct (rand_grid_is_grid s) as (g & r & E & Hg). rewrite E.
  clear E. open_inv s. match goal with H : _ /\ _ |- _ => inv_parts H end.
  finish.
Qed.

Lemma clock_bars_tick_ok : handler_ok _clock_bars_tick.
Proof.
  start_handler s. unfold _clock_bars_tick. unfold_m. norm.
  destruct l_clock_bars; norm; [|finish].
  destruct (bars_ok (hour (now s_host)) 23) as (bh & Eh).
  destruct (bars_ok (minute (now s_host)) 59) as (bm & Em).
  destruct (bars_ok (second (now s_host)) 59) as (bs & Es).
  rewrite Eh. norm. rewrite Em. norm. rewrite Es. norm.
  rewrite mm_send_cols_ok. norm. finish.
Qed.

Lemma clock_bars_start_ok : handler_ok _clock_bars_start.
Proof.
  apply (handler_ok_pre
           (fun s => (stop_all_state s) <| loops -> loop_clock_bars := true |>)
           _clock_bars_tick).
  - intros s. destruct s. reflexivity.
  - unfold stop_all_state. pre_solve s.
  - exact clock_bars_tick_ok.
Qed.

Lemma clock_bars_stop_ok : handler_ok _clock_bars_stop.
Proof. start_handler s. unfold _clock_bars_stop. unfold_m. norm. finish. Qed.

(** *** the snake game *)

Lemma NoDup_removelast {A} (l : list A) : NoDup l -> NoDup (removelast l).
Proof.
  induction 1 as [|x t Hx Ht IH]; cbn; [constructor|].
  destruct t as [|y t']; [constructor|].
  constructor; [|exact IH].
  intros Hin. apply Hx. apply In_removelast in Hin. exact Hin.
Qed.

Lemma chain_removelast (l : list (Z * Z)) : chain l -> chain (removelast l).
Proof.
  induction l as [|p t IH]; [auto|].
  destruct t as [|q t']; [auto|].
  intros [Hpq Ht]. specialize (IH Ht).
  change (removelast (p :: q :: t')) with (p :: removelast (q :: t')).
  destruct t' as [|r t'']; [exact I|].
  change (removelast (q :: r :: t'')) with (q :: removelast (r :: t'')) in *.
  split; assumption.
Qed.

Lemma chain_cons (p : Z * Z) (l : list (Z * Z)) :
  (forall q, hd_error l = Some q -> adjacent p q) -> chain l -> chain (p :: l).
Proof.
  destruct l as [|q t]; [intros; exact I|].
  intros H Hc. split; [apply H; reflexivity | exact Hc].
Qed.

Lemma hd_removelast {A} (l : list A) (q : A) :
  hd_error (removelast l) = Some q -> hd_error l = Some q.
Proof. destruct l as [|x [|y t]]; cbn; congruence. Qed.

Lemma next_head_adjacent (s : App) (q : Z * Z) :
  is_dir (_g_pending s) -> hd_error (_g_snake s) = Some q -> adjacent (next_head s) q.
Proof.
  unfold next_head, adjacent. destruct (_g_snake s) as [|hd tl]; [discriminate|].
  intros Hd [= <-]. cbn [fst snd].
  destruct Hd as [-> | [-> | [-> | ->]]]; cbn [fst snd]; lia.
Qed.

Lemma len_removelast_cons {A} (x : A) (l : list A) :
  l <> [] -> Py.len (x :: removelast l) = Py.len l.
Proof.
  intros Hne. unfold Py.len.
  destruct l as [|y t]; [congruence|].
  rewrite length_removelast_cons. reflexivity.
Qed.

Lemma tick_rel_snake (s s' : App) :
  game_wf s -> dir_inv s -> snake_inv s -> tick_rel s s' -> snake_inv s'.
Proof.
  intros (Hne & _ & _) (_ & Hp & _) (Hnd & Hch & Hsc & Hs0) H.
  destruct H as [(E1 & _ & _ & _ & E5) | Hc E1 E2 E3 E4 E5
                | Hc Hf E1 E2 E3 E4 E5
                | Hc Hf E1 E2 E3 Hb Hfree Hfull E5];
    unfold snake_inv; rewrite E1, E5.
  - auto.
  - auto.
  - apply collides_false in Hc. destruct Hc as [_ Hni].
    split; [|split].
    + constructor; [|apply NoDup_removelast; exact Hnd].
      intros Hin. apply Hni. apply In_removelast in Hin. exact Hin.
    + apply chain_cons; [|apply chain_removelast; exact Hch].
      intros q Hq. apply next_head_adjacent; [exact Hp|].
      apply hd_removelast. exact Hq.
    + rewrite len_removelast_cons by exact Hne. auto.
  - apply collides_false in Hc. destruct Hc as [_ Hni].
    split; [|split].
    + constructor; assumption.
    + apply chain_cons; [|exact Hch].
      intros q Hq. apply next_head_adjacent; assumption.
    + unfold Py.len in *. cbn [List.length]. lia.
Qed.

Ltac open_all s :=
  unfold app_inv, attrs_inv, mm_wf, ball_wf, game_wf, dir_inv, food_inv,
    snake_inv in *;
  repeat match goal with K : context [s] |- _ => revert K end;
  open_app s; intros;
  repeat match goal with H : _ /\ _ |- _ => destruct H end.

Ltac finish_game :=
  split;
  [ norm; inv_solve
  | norm; unfold score_sends, game_over_sends, VFD.write_text, VFD.mm_clear;
    sends_solve ].

Lemma snake_game_tick_ok : handler_ok _snake_game_tick.
Proof.
  intros s Hinv Hdt.
  pose proof Hinv as (_ & _ & (_ & _ & Hwf) & Hdir & Hfood & Hsn).
  destruct (snake_tick_rel s Hwf) as (s' & E & Hrel & _).
  pose proof (tick_rel_wf _ _ Hwf Hrel) as Hwf'.
  destruct (tick_rel_dir _ _ Hdir Hrel) as (Hdir' & _).
  pose proof (tick_rel_food _ _ Hwf Hfood Hrel) as Hfood'.
  pose proof (tick_rel_snake _ _ Hwf Hdir Hsn Hrel) as Hsn'.
  clear Hrel. exists s'. split; [exact E|].
  destruct (enabled snake_game s) eqn:He.
  2:{ rewrite (snake_tick_disabled s He) in E. injection E as <-.
      split; [exact Hinv | constructor]. }
  destruct (_g_paused s) eqn:Hp.
  { rewrite (snake_tick_paused s He Hp) in E. injection E as <-.
    clear He Hp. open_all s. finish_game. }
  destruct (collides s) eqn:Hc.
  { rewrite (snake_tick_game_over s He Hp (proj1 Hwf) Hc) in E. injection E as <-.
    clear He Hp Hc. open_all s. finish_game. }
  destruct (Py.pair_eqb (next_head s) (_g_food s)) eqn:Hf.
  - destruct (snake_tick_eat s He Hp Hwf Hc Hf) as (food & rng' & cols & E2 & _).
    rewrite E2 in E. injection E as <-.
    clear He Hp Hc Hf E2. open_all s. finish_game.
  - destruct (snake_tick_move s He Hp Hwf Hc Hf) as (cols & E2 & _).
    rewrite E2 in E. injection E as <-.
    clear He Hp Hc Hf E2. open_all s. finish_game.
Qed.

Lemma snake_game_start_ok : handler_ok _snake_game_start.
Proof.
  apply (handler_ok_pre snake_start_state _snake_game_tick).
  - apply snake_start_eq.
  - intros s Hinv. unfold snake_start_state. open_inv s.
    match goal with H : _ /\ _ |- _ => inv_parts H end.
    split; [norm; inv_solve|]. split; [|reflexivity].
    norm. unfold score_sends, VFD.mm_clear. sends_solve.
  - exact snake_game_tick_ok.
Qed.

Lemma status_text_eq (txt : string) (s : App) :
  _status_text txt s
  = Some (tt, s <| vfd := VFD.send (Py.encode_ascii_ignore
                                      (Py.slice (txt ++ Py.spaces 16)%string 0 16))
                            (VFD.send [0x1B; 0x51] (VFD.send [0x1B; 0x22] (vfd s))) |>).
Proof. destruct s. reflexivity. Qed.

Lemma snake_game_toggle_pause_ok : handler_ok _snake_game_toggle_pause.
Proof.
  start_handler s. unfold _snake_game_toggle_pause. unfold_m. norm.
  destruct l_snake_game; norm; [|finish].
  destruct g_paused; norm; rewrite status_text_eq; norm; finish.
Qed.

Lemma snake_game_reset_ok : handler_ok _snake_game_reset.
Proof.
  intros s Hinv Hdt.
  set (s1 := s <| _g_snake := [(3, 2); (3, 1); (3, 0)] |>
               <| _g_dir := (0, 1) |> <| _g_pending := (0, 1) |>).
  destruct (rand_food_ok [(3, 2); (3, 1); (3, 0)] s1)
    as (food & rng' & E & Hb & Hfree & _).
  specialize (Hfree free_cells_start). apply in_free_cells in Hfree.
  destruct Hfree as [_ Hmem].
  assert (Hni : ~ In food [(3, 2); (3, 1); (3, 0)]).
  { intros Hin. apply mem_In in Hin. congruence. }
  clear Hmem. subst s1. open_inv s.
  match goal with H : _ /\ _ |- _ => inv_parts H end.
  unfold _snake_game_reset. unfold_m. norm.
  rewrite E. norm. rewrite show_snake_score_eq. norm.
  eexists. split; [reflexivity|]. split.
  - norm. inv_solve; try discriminate.
    + unfold is_dir. auto.
    + unfold is_dir. auto.
    + repeat constructor; cbn; intuition discriminate.
  - norm. unfold score_sends, VFD.mm_clear. sends_solve.
Qed.

Lemma snake_key_ok (k : Key) :
  handler_ok (_snake_key (fst (key_dir k)) (snd (key_dir k))).
Proof.
  start_handler s. unfold _snake_key. unfold_m. destruct g_dir as [pr pc]. norm.
  destruct (Py.pair_eqb _ _) eqn:E; norm; [finish|].
  apply pair_eqb_neq in E.
  finish; destruct k; cbn in *; unfold is_dir; auto.
Qed.

(** *** the event loop *)

Lemma stop_ok (e : Effect) : handler_ok (stop e).
Proof.
  destruct e; cbn [stop].
  - apply clock_text_stop_ok.
  - apply clock_sync_stop_ok.
  - apply vol_sweep_stop_ok.
  - apply wifi_scan_stop_ok.
  - apply icon_wave_stop_ok.
  - apply marquee_stop_ok.
  - apply cylon_stop_ok.
  - apply spin_stop_ok.
  - apply twinkle_stop_ok.
  - apply icon_carousel_stop_ok.
  - apply icon_pulse_stop_ok.
  - apply email_blink_stop_ok.
  - apply record_blink_stop_ok.
  - apply text_bounce_stop_ok.
  - apply rain_stop_ok.
  - apply snake_stop_ok.
  - apply ball_stop_ok.
  - apply stickman_stop_ok.
  - apply gol_stop_ok.
  - apply clock_bars_stop_ok.
  - intros s Hinv _. exists s. split; [reflexivity|]. split; [exact Hinv | constructor].
Qed.

Lemma start_ok (e : Effect) : handler_ok (start e).
Proof.
  destruct e; cbn [start].
  - apply clock_text_start_ok.
  - apply clock_sync_start_ok.
  - apply vol_sweep_start_ok.
  - apply wifi_scan_start_ok.
  - apply icon_wave_start_ok.
  - apply marquee_start_ok.
  - apply cylon_start_ok.
  - apply spin_start_ok.
  - apply twinkle_start_ok.
  - apply icon_carousel_start_ok.
  - apply icon_pulse_start_ok.
  - apply email_blink_start_ok.
  - apply record_blink_start_ok.
  - apply text_bounce_start_ok.
  - apply rain_start_ok.
  - apply snake_start_ok.
  - apply ball_start_ok.
  - apply stickman_start_ok.
  - apply gol_start_ok.
  - apply clock_bars_start_ok.
  - apply snake_game_start_ok.
Qed.

Lemma run_callback_ok (cb : Callback) : handler_ok (run_callback cb).
Proof.
  destruct cb; cbn [run_callback].
  - apply clock_text_tick_ok.
  - apply clock_sync_tick_ok.
  - apply vol_sweep_tick_ok.
  - apply wifi_scan_tick_ok.
  - apply icon_wave_tick_ok.
  - apply marquee_tick_ok.
  - apply cylon_tick_ok.
  - apply spin_tick_ok.
  - apply twinkle_tick_ok.
  - apply icon_carousel_tick_ok.
  - apply icon_pulse_tick_ok.
  - apply email_blink_tick_ok.
  - apply record_blink_tick_ok.
  - apply text_bounce_tick_ok.
  - apply rain_tick_ok.
  - apply snake_tick_ok.
  - apply ball_tick_ok.
  - apply stickman_tick_ok.
  - apply gol_tick_ok.
  - apply clock_bars_tick_ok.
  - apply snake_game_tick_ok.
Qed.

Lemma fire_ok (cb : Callback) : handler_ok (fire cb).
Proof.
  intros s Hinv Hdt. unfold fire, bind, get, modify.
  destruct (take_timer cb (timers s)) as [t'|].
  - destruct (run_callback_ok cb (s <| timers := t' |>)) as (s' & E & Hinv' & Hs).
    + clear Hdt. open_inv s. match goal with H : _ /\ _ |- _ => inv_parts H end.
      norm. inv_solve.
    + destruct s; exact Hdt.
    + exists s'. split; [exact E|]. split; [exact Hinv'|].
      destruct s; exact Hs.
  - exists s. split; [reflexivity|]. split; [exact Hinv | constructor].
Qed.

Lemma connect_ok (port : string) (ok : bool) (s : App) :
  app_inv s ->
  exists s', _connect port ok s = Some (tt, s') /\ app_inv s' /\
             (vfd s' = vfd s \/ sends (VFD.open ok (vfd s)) (vfd s')).
Proof.
  intros Hinv. unfold _connect. destruct (String.eqb _ _).
  - exists s. split; [reflexivity|]. split; [exact Hinv | left; reflexivity].
  - open_inv s. match goal with H : _ /\ _ |- _ => inv_parts H end.
    unfold_m. norm. eexists. split; [reflexivity|]. split; [norm; inv_solve|].
    right. norm. unfold VFD.RESET. sends_solve.
Qed.

Lemma disconnect_ok (s : App) :
  app_inv s ->
  exists s', _disconnect s = Some (tt, s') /\ app_inv s' /\
             vfd s' = VFD.close (vfd s).
Proof.
  intros Hinv. open_inv s. match goal with H : _ /\ _ |- _ => inv_parts H end.
  unfold _disconnect. unfold_m. norm. eexists. split; [reflexivity|].
  split; [norm; inv_solve | reflexivity].
Qed.

Lemma event_ok (ev : Event) (s : App) :
  app_inv s -> valid_datetime (now (host s)) ->
  exists s', handle ev s = Some (tt, s') /\ app_inv s' /\
             port_step ev (vfd s) (vfd s').
Proof.
  intros Hinv Hdt. destruct ev; cbn [handle port_step].
  - apply connect_ok. exact Hinv.
  - apply disconnect_ok. exact Hinv.
  - apply start_ok; assumption.
  - apply stop_ok; assumption.
  - apply snake_key_ok; assumption.
  - apply snake_game_toggle_pause_ok; assumption.
  - apply snake_game_reset_ok; assumption.
  - apply gol_randomize_ok; assumption.
  - apply fire_ok; assumption.
Qed.

Lemma app_inv_host (h : Host) (s : App) : app_inv s -> app_inv (s <| host := h |>).
Proof.
  intros Hinv. open_inv s. match goal with H : _ /\ _ |- _ => inv_parts H end.
  norm. inv_solve.
Qed.

Lemma run_hosted_inv (evs : list (Host * Event)) :
  hosts_ok evs ->
  forall s, app_inv s -> exists s', run_hosted evs s = Some s' /\ app_inv s'.
Proof.
  induction 1 as [|[h ev] rest Hh _ IH]; intros s Hinv; cbn [run_hosted].
  - eauto.
  - destruct (event_ok ev (s <| host := h |>)) as (s1 & E & Hinv1 & _).
    + apply app_inv_host. exact Hinv.
    + destruct s; exact Hh.
    + rewrite E. cbn [snd]. apply IH. exact Hinv1.
Qed.

Lemma init_app_inv (h : Host) (draws : list Z) :
  exists s0, __init__ h draws = Some s0 /\ app_inv s0 /\
             VFD.connected (vfd s0) = false /\ VFD.wire (vfd s0) = [].
Proof.
  unfold __init__, bind.
  destruct (rand_grid_is_grid (init_fields h draws)) as (g & r & E & Hg). rewrite E.
  unfold modify, get.
  set (s1 := (init_fields h draws) <| rng := r |> <| _gol_grid := g |>).
  destruct (rand_food_ok [(3, 2); (3, 1); (3, 0)] s1) as (food & r' & Ef & Hb & Hfree & _).
  change (_g_snake _) with [(3, 2); (3, 1); (3, 0)].
  fold s1. rewrite Ef. eexists. split; [reflexivity|].
  specialize (Hfree free_cells_start). apply in_free_cells in Hfree.
  destruct Hfree as [_ Hmem].
  assert (Hni : ~ In food [(3, 2); (3, 1); (3, 0)]).
  { intros Hin. apply mem_In in Hin. congruence. }
  unfold constant. cbn. split; [|split; reflexivity].
  unfold app_inv, attrs_inv, mm_wf, ball_wf, game_wf, dir_inv, food_inv, snake_inv.
  cbn. inv_solve; try discriminate; unfold is_dir; auto.
  repeat constructor; cbn; intuition discriminate.
Qed.

(** ** What holds along every run *)

(** X9. The engine never raises: from [App.__init__], any sequence of
    events (connect, disconnect, starting and stopping any effect, timer
    callbacks of any effect in any order, snake keys, pause, reset, Game
    of Life randomize), with any entry texts and any proper datetime read
    at each event, runs to the end. *)
Theorem engine_never_raises (h : Host) (draws : list Z) (evs : list (Host * Event)) :
  hosts_ok evs ->
  exists s0 s, __init__ h draws = Some s0 /\ run_hosted evs s0 = Some s.
Proof.
  intros Hh. destruct (init_app_inv h draws) as (s0 & E & Hinv & _).
  destruct (run_hosted_inv evs Hh s0 Hinv) as (s & Er & _).
  exists s0, s. split; assumption.
Qed.

Lemma engine_never_raises_witness :
  exists s0 s,
    __init__ demo_host [] = Some s0 /\
    run_hosted [(demo_host, ev_start marquee); (demo_host, ev_timer cb_marquee_tick);
                (demo_host, ev_connect "COM3" true); (demo_host, ev_start stickman);
                (demo_host, ev_timer cb_stickman_tick);
                (demo_host, ev_timer cb_spin_tick); (demo_host, ev_stop stickman);
                (demo_host, ev_disconnect)] s0 = Some s.
Proof.
  apply (engine_never_raises demo_host []).
  repeat (constructor; [cbn; unfold valid_datetime; cbn; lia|]). constructor.
Defined.

Lemma sends_closed (v v' : VFD.t) :
  sends v v' -> VFD.connected v = false ->
  VFD.connected v' = false /\ VFD.wire v' = VFD.wire v.
Proof.
  intros H Hc. induction H as [|b v' H [IH1 IH2]]; [auto|].
  rewrite connected_send, wire_send, IH1. auto.
Qed.

Lemma run_hosted_closed (evs : list (Host * Event)) :
  hosts_ok evs -> never_opens evs ->
  forall s, app_inv s -> VFD.connected (vfd s) = false ->
  exists s', run_hosted evs s = Some s' /\
             VFD.connected (vfd s') = false /\ VFD.wire (vfd s') = VFD.wire (vfd s).
Proof.
  induction 1 as [|[h ev] rest Hh _ IH]; intros Hno s Hinv Hc; cbn [run_hosted].
  - eauto.
  - inversion Hno as [|? ? Hev Hrest]; subst. cbn [snd] in Hev.
    destruct (event_ok ev (s <| host := h |>)) as (s1 & E & Hinv1 & Hp).
    + apply app_inv_host. exact Hinv.
    + destruct s; exact Hh.
    + rewrite E. cbn [snd].
      assert (Hv : vfd (s <| host := h |>) = vfd s) by (destruct s; reflexivity).
      rewrite Hv in Hp.
      assert (G : VFD.connected (vfd s1) = false /\ VFD.wire (vfd s1) = VFD.wire (vfd s)).
      { destruct ev; cbn [port_step] in Hp;
          try (apply sends_closed; assumption).
        - destruct ok; [destruct Hev|].
          destruct Hp as [->|Hp]; [auto|].
          apply sends_closed in Hp.
          + destruct Hp as [-> ->]. destruct (vfd s) as [p w l]. auto.
          + destruct (vfd s) as [p w l]. exact Hc.
        - rewrite Hp. destruct (vfd s) as [[[|]|] w l]; cbn in *; auto; discriminate. }
      destruct G as [G1 G2].
      destruct (IH Hrest s1 Hinv1 G1) as (s' & Er & Hc' & Hw).
      exists s'. split; [exact Er|]. split; [exact Hc'|]. congruence.
Qed.

(** X10. As long as no open of the port succeeds, nothing is written to
    it, whatever is started, stopped or ticked: the port stays closed and
    the wire stays empty. *)
Theorem closed_port_writes_nothing
        (h : Host) (draws : list Z) (evs : list (Host * Event)) :
  hosts_ok evs -> never_opens evs ->
  exists s0 s,
    __init__ h draws = Some s0 /\ run_hosted evs s0 = Some s /\
    VFD.connected (vfd s) = false /\ VFD.wire (vfd s) = [].
Proof.
  intros Hh Hno. destruct (init_app_inv h draws) as (s0 & E & Hinv & Hc & Hw).
  destruct (run_hosted_closed evs Hh Hno s0 Hinv Hc) as (s & Er & Hc' & Hw').
  exists s0, s. repeat split; try assumption. congruence.
Qed.

Lemma closed_port_writes_nothing_witness :
  exists s0 s,
    __init__ demo_host [] = Some s0 /\
    run_hosted [(demo_host, ev_connect "COM9" false); (demo_host, ev_start ball);
                (demo_host, ev_timer cb_ball_tick); (demo_host, ev_start snake_game);
                (demo_host, ev_disconnect); (demo_host, ev_stop ball)] s0 = Some s /\
    VFD.connected (vfd s) = false /\ VFD.wire (vfd s) = [].
Proof.
  apply (closed_port_writes_nothing demo_host []).
  - repeat (constructor; [cbn; unfold valid_datetime; cbn; lia|]). constructor.
  - repeat (constructor; [exact I|]). constructor.
Defined.

(** *** the rain *)

Lemma rows_descend_length (l : list (Z * Z)) :
  rows_descend l -> Forall (fun p => 1 <= fst p) l ->
  match l with
  | [] => True
  | p :: _ => Z.of_nat (List.length l) <= fst p
  end.
Proof.
  induction l as [|p t IH]; [auto|].
  intros Hd Hb. inversion Hb as [|? ? Hp Ht]; subst.
  destruct t as [|q t']; [cbn; lia|].
  destruct Hd as [Hqp Hd]. specialize (IH Hd Ht).
  cbn [List.length] in *. lia.
Qed.

Lemma rows_descend_NoDup (l : list (Z * Z)) :
  rows_descend l -> NoDup (map fst l).
Proof.
  induction l as [|p t IH]; [constructor|].
  intros Hd. apply rows_descend_cons in Hd. destruct Hd as [Hlt Hd].
  cbn [map]. constructor; [|apply IH; exact Hd].
  intros Hin. apply in_map_iff in Hin. destruct Hin as (q & Eq & Hq).
  rewrite Forall_forall in Hlt. specialize (Hlt q Hq). lia.
Qed.

(** X11. Whatever has happened since [App.__init__], the rain holds at
    most 6 drops, no two of them on one row, each on rows 1..6 and
    columns 0..8. *)
Theorem rain_one_drop_per_row
        (h : Host) (draws : list Z) (evs : list (Host * Event)) :
  hosts_ok evs ->
  exists s0 s,
    __init__ h draws = Some s0 /\ run_hosted evs s0 = Some s /\
    (List.length (_rain_drops s) <= 6)%nat /\
    NoDup (map fst (_rain_drops s)) /\
    Forall (fun p => 1 <= fst p <= 6 /\ 0 <= snd p <= 8) (_rain_drops s).
Proof.
  intros Hh. destruct (init_app_inv h draws) as (s0 & E & Hinv & _).
  destruct (run_hosted_inv evs Hh s0 Hinv) as (s & Er & (_ & (Hb & Hd) & _)).
  exists s0, s. split; [exact E|]. split; [exact Er|].
  split; [|split; [apply rows_descend_NoDup; exact Hd | exact Hb]].
  pose proof (rows_descend_length _ Hd) as Hl.
  destruct (_rain_drops s) as [|p t]; [cbn; lia|].
  inversion Hb as [|? ? Hp _]; subst.
  assert (Hl' : Z.of_nat (List.length (p :: t)) <= fst p).
  { apply Hl. eapply Forall_impl; [|exact Hb]. cbn. intros; lia. }
  lia.
Qed.

Lemma rain_one_drop_per_row_witness :
  exists s0 s,
    __init__ demo_host [] = Some s0 /\
    run_hosted [(demo_host, ev_start mini_rain); (demo_host, ev_timer cb_rain_tick);
                (demo_host, ev_timer cb_rain_tick); (demo_host, ev_stop mini_rain);
                (demo_host, ev_start mini_rain)] s0 = Some s /\
    (List.length (_rain_drops s) <= 6)%nat /\
    NoDup (map fst (_rain_drops s)) /\
    Forall (fun p => 1 <= fst p <= 6 /\ 0 <= snd p <= 8) (_rain_drops s).
Proof.
  apply (rain_one_drop_per_row demo_host []).
  repeat (constructor; [cbn; unfold valid_datetime; cbn; lia|]). constructor.
Defined.

(** *** the snake *)

Lemma snake_on_cells (l : list (Z * Z)) :
  Forall (fun p => in_bounds p = true) l -> incl l all_cells.
Proof.
  intros H p Hp. rewrite Forall_forall in H. specialize (H p Hp).
  destruct p as [r c]. unfold in_bounds in H. cbn [fst snd] in H.
  unfold all_cells. apply in_flat_map. exists r.
  split; [apply In_range; lia|]. apply in_map. apply In_range. lia.
Qed.

(** X12. Whatever has happened since [App.__init__], the snake of the
    game is a chain of neighbouring cells of the 7 x 9 grid with no cell
    twice, its length is the score plus 3, and the score is between 0 and
    60. *)
Theorem snake_shape (h : Host) (draws : list Z) (evs : list (Host * Event)) :
  hosts_ok evs ->
  exists s0 s,
    __init__ h draws = Some s0 /\ run_hosted evs s0 = Some s /\
    NoDup (_g_snake s) /\ chain (_g_snake s) /\
    Forall on_grid (_g_snake s) /\
    Py.len (_g_snake s) = _g_score s + 3 /\ 0 <= _g_score s <= 60.
Proof.
  intros Hh. destruct (init_app_inv h draws) as (s0 & E & Hinv & _).
  destruct (run_hosted_inv evs Hh s0 Hinv)
    as (s & Er & (_ & _ & (_ & _ & (_ & Hin & _)) & _ & _ & (Hnd & Hch & Hsc & Hs0))).
  exists s0, s. split; [exact E|]. split; [exact Er|].
  split; [exact Hnd|]. split; [exact Hch|]. split; [|split; [lia|]].
  - eapply Forall_impl; [|exact Hin]. intros p. apply in_bounds_on_grid.
  - pose proof (NoDup_incl_length Hnd (snake_on_cells _ Hin)) as Hlen.
    change (List.length all_cells) with 63%nat in Hlen.
    unfold Py.len in Hsc. lia.
Qed.

Lemma snake_shape_witness :
  exists s0 s,
    __init__ demo_host [0; 0; 5] = Some s0 /\
    run_hosted [(demo_host, ev_start snake_game); (demo_host, ev_key key_down);
                (demo_host, ev_timer cb_snake_game_tick); (demo_host, ev_start twinkle);
                (demo_host, ev_timer cb_snake_game_tick); (demo_host, ev_reset)] s0
    = Some s /\
    NoDup (_g_snake s) /\ chain (_g_snake s) /\
    Forall on_grid (_g_snake s) /\
    Py.len (_g_snake s) = _g_score s + 3 /\ 0 <= _g_score s <= 60.
Proof.
  apply (snake_shape demo_host [0; 0; 5]).
  repeat (constructor; [cbn; unfold valid_datetime; cbn; lia|]). constructor.
Defined.

(** X13. Whatever has happened since [App.__init__], the ball is on the
    grid with both velocity components 1 or -1, the Game-of-Life grid is
    7 rows of 9 cells, and the game has a non-empty snake and its food on
    the grid. *)
Theorem mm_state_well_formed (h : Host) (draws : list Z) (evs : list (Host * Event)) :
  hosts_ok evs ->
  exists s0 s,
    __init__ h draws = Some s0 /\ run_hosted evs s0 = Some s /\ mm_wf s.
Proof.
  intros Hh. destruct (init_app_inv h draws) as (s0 & E & Hinv & _).
  destruct (run_hosted_inv evs Hh s0 Hinv) as (s & Er & (_ & _ & Hmm & _)).
  exists s0, s. split; [exact E|]. split; [exact Er | exact Hmm].
Qed.

Lemma mm_state_well_formed_witness :
  exists s0 s,
    __init__ demo_host [] = Some s0 /\
    run_hosted [(demo_host, ev_start ball); (demo_host, ev_timer cb_ball_tick);
                (demo_host, ev_gol_randomize); (demo_host, ev_start gol);
                (demo_host, ev_timer cb_gol_tick)] s0 = Some s /\
    mm_wf s.
Proof.
  apply (mm_state_well_formed demo_host []).
  repeat (constructor; [cbn; unfold valid_datetime; cbn; lia|]). constructor.
Defined.

(** ** What one tick sends *)

(** ** Stopping a mode *)

Lemma disabled_tick (cb : Callback) (s : App) :
  enabled (callback_effect cb) s = false -> run_callback cb s = Some (tt, s).
Proof.
  destruct cb; cbn [callback_effect enabled run_callback]; intros He;
    match goal with
    | |- ?f _ _ _ = _ => unfold f
    | |- ?f _ _ = _ => unfold f
    | |- ?f _ = _ => unfold f
    end;
    unfold bind, get, ret; rewrite He; reflexivity.
Qed.

Lemma stop_state (e : Effect) (s : App) :
  e <> snake_game ->
  exists s', stop e s = Some (tt, s') /\ enabled e s' = false /\
             timers s' = timers s /\ sends (vfd s) (vfd s').
Proof.
  intros Hne. open_app s. destruct e; try congruence; clear Hne;
    cbn [stop];
    match goal with |- exists _, ?f _ = _ /\ _ => unfold f end;
    unfold all_icons, VFD.set_email_white, VFD.set_email_red, VFD.set_record;
    unfold_m; norm;
    try do_wifi; try do_icons; try do_volume;
    rewrite ?icon_bool_eq; norm; rewrite ?icon_bool_eq; norm;
    (eexists; split; [reflexivity|]; split; [reflexivity|]; split; [reflexivity|]);
    norm; unfold VFD.mm_clear; sends_solve.
Qed.

(** X14. Stopping an effect (other than the snake game) clears its flag
    and cancels no timer; a tick of that effect that arrives afterwards
    does nothing at all: it sends nothing, changes no attribute and does
    not re-arm itself, so the pending timer of a stopped effect dies out
    when it fires. *)
Theorem stop_then_tick (e : Effect) (cb : Callback) (s : App) :
  e <> snake_game -> callback_effect cb = e ->
  exists s',
    stop e s = Some (tt, s') /\ enabled e s' = false /\ timers s' = timers s /\
    run_callback cb s' = Some (tt, s') /\
    forall s'', fire cb s' = Some (tt, s'') ->
      vfd s'' = vfd s' /\ enabled e s'' = false /\
      (timers s'' = timers s' \/ take_timer cb (timers s') = Some (timers s'')).
Proof.
  intros Hne Hcb. destruct (stop_state e s Hne) as (s' & E & He & Ht & _).
  exists s'. split; [exact E|]. split; [exact He|]. split; [exact Ht|].
  rewrite <- Hcb in He. split; [apply disabled_tick; exact He|].
  intros s'' Ef. unfold fire, bind, get, modify in Ef.
  destruct (take_timer cb (timers s')) as [t'|] eqn:Et.
  - rewrite disabled_tick in Ef by (destruct s'; exact He).
    injection Ef as <-. rewrite <- Hcb.
    split; [destruct s'; reflexivity|]. split; [destruct s'; exact He|].
    right. destruct s'; reflexivity.
  - injection Ef as <-. rewrite <- Hcb. auto.
Qed.

Lemma stop_then_tick_witness :
  exists s',
    stop twinkle demo_twinkle = Some (tt, s') /\
    enabled twinkle s' = false /\ timers s' = [(100, cb_twinkle_tick)] /\
    run_callback cb_twinkle_tick s' = Some (tt, s').
Proof.
  destruct (stop_then_tick twinkle cb_twinkle_tick demo_twinkle)
    as (s' & E & He & Ht & Hr & _).
  - discriminate.
  - reflexivity.
  - exists s'. repeat split; assumption.
Defined.

(** ** What the frames show *)

Lemma or_bit_bits (cols : list Z) (r0 c0 : Z) :
  List.length cols = 9%nat -> in_bounds (r0, c0) = true ->
  exists cols',
    or_bit cols c0 r0 = Some cols' /\ List.length cols' = 9%nat /\
    forall r c, 0 <= r -> 0 <= c <= 8 ->
      Z.testbit (nth (Z.to_nat c) cols' 0) r
      = Z.testbit (nth (Z.to_nat c) cols 0) r || Py.pair_eqb (r, c) (r0, c0).
Proof.
  intros Hl Hb.
  destruct (plot_bits [(r0, c0)] ltac:(repeat constructor; exact Hb) cols Hl)
    as (cols' & E & Hl' & Hbits).
  change (plot [(r0, c0)] cols) with (let? b := or_bit cols c0 r0 in Some b) in E.
  destruct (or_bit cols c0 r0) as [x|]; [|discriminate]. injection E as ->.
  exists cols'. split; [reflexivity|]. split; [exact Hl'|].
  intros r c Hr Hc. rewrite Hbits by assumption.
  unfold Py.mem. cbn [existsb]. rewrite orb_false_r. reflexivity.
Qed.

(** X15. One tick of the bouncing ball moves the ball by one row and one
    column, keeps it on the grid with unit velocity components, sends one
    frame in which exactly the dot of the new position is lit, and
    re-arms the timer with the ball period. *)
Theorem ball_tick_frame (s : App) :
  enabled ball s = true -> VFD.connected (vfd s) = true -> ball_wf s ->
  exists s' frame,
    _ball_tick s = Some (tt, s') /\ ball_wf s' /\
    Z.abs (fst (_ball_pos s') - fst (_ball_pos s)) = 1 /\
    Z.abs (snd (_ball_pos s') - snd (_ball_pos s)) = 1 /\
    VFD.wire (vfd s') = VFD.wire (vfd s) ++ [frame] /\
    (forall r c, 0 <= r <= 6 -> 0 <= c <= 8 ->
       (frame_bit frame r c = true <-> (r, c) = _ball_pos s')) /\
    timers s' = timers s ++ [(ms_ball (ms s), cb_ball_tick)].
Proof.
  intros He Hconn (Hpos & Hvr & Hvc). revert He Hconn Hpos Hvr Hvc.
  open_app s. destruct s_ball as [r c], s_vel as [vr vc].
  unfold in_bounds. cbn [fst snd]. intros He Hconn Hpos Hvr Hvc. subst.
  unfold _ball_tick. unfold_m. norm.
  assert (G : forall r2 c2, in_bounds (r2, c2) = true ->
            exists cols, or_bit [0; 0; 0; 0; 0; 0; 0; 0; 0] c2 r2 = Some cols /\
              VFD.wire (VFD.send (mm_frame cols) s_vfd) = VFD.wire s_vfd ++ [mm_frame cols] /\
              forall r0 c0, 0 <= r0 <= 6 -> 0 <= c0 <= 8 ->
                (frame_bit (mm_frame cols) r0 c0 = true <-> (r0, c0) = (r2, c2))).
  { intros r2 c2 Hb.
    destruct (or_bit_bits (repeat 0 9) r2 c2 eq_refl Hb) as (cols & E & Hl & Hbits).
    exists cols. split; [exact E|]. split; [rewrite wire_send, Hconn; reflexivity|].
    intros r0 c0 Hr0 Hc0. rewrite frame_bit_mm_frame by assumption.
    rewrite Hbits by lia. rewrite nth_zeros, Z.testbit_0_l. cbn [orb].
    apply pair_eqb_eq. }
  destruct ((r + vr <? 0) || (6 <? r + vr)) eqn:Er;
    destruct ((c + vc <? 0) || (8 <? c + vc)) eqn:Ec; norm;
    match goal with
    | |- context [or_bit _ ?c2 ?r2] =>
        destruct (G r2 c2) as (cols & E & Hw & Hbits);
        [unfold in_bounds; cbn [fst snd]; lia|]
    end;
    rewrite E; norm; rewrite mm_send_cols_ok; norm;
    (eexists; exists (mm_frame cols); split; [reflexivity|]);
    norm; unfold ball_wf, in_bounds; cbn [fst snd _ball_pos _ball_vel];
    repeat split; try lia; try exact Hw; try apply Hbits; try assumption.
Qed.

Lemma ball_tick_frame_witness :
  exists s' frame,
    _ball_tick demo_ball = Some (tt, s') /\
    VFD.wire (vfd s') = [frame] /\ frame_bit frame 4 5 = true /\
    frame_bit frame 3 4 = false.
Proof.
  destruct (ball_tick_frame demo_ball eq_refl eq_refl (proj1 demo_ball_wf))
    as (s' & frame & E & _ & _ & _ & Hw & Hbits & _).
  exists s', frame. split; [exact E|]. split; [exact Hw|].
  assert (Ep : _ball_pos s' = (4, 5)).
  { vm_compute in E. injection E as <-. reflexivity. }
  rewrite Ep in Hbits. split.
  - apply Hbits; [lia | lia | reflexivity].
  - destruct (frame_bit frame 3 4) eqn:Eb; [|reflexivity].
    apply Hbits in Eb; [discriminate | lia | lia].
Defined.

(** The columns [_gol_tick] draws: dot [(r, c)] is lit when the cell is
    alive. *)
Lemma gol_cols_bits (g : list (list Z)) :
  is_grid g ->
  exists cols,
    gol_cols g = Some cols /\ List.length cols = 9%nat /\
    forall r c, 0 <= r <= 6 -> 0 <= c <= 8 ->
      Z.testbit (nth (Z.to_nat c) cols 0) r = alive g r c.
Proof.
  intros Hg. unfold gol_cols.
  destruct (foldM_invariant
              (fun cols r =>
                 Py.foldM (fun cols c =>
                             let? x := get2 g r c in
                             if Py.truthy x then or_bit cols c r else Some cols)
                          (Py.range 9) cols)
              (fun done cols =>
                 List.length cols = 9%nat /\
                 forall r c, 0 <= r -> 0 <= c <= 8 ->
                   Z.testbit (nth (Z.to_nat c) cols 0) r
                   = existsb (Z.eqb r) done && alive g r c)
              (Py.range 7)) with (b := repeat 0 9) as (cols & E & Hl & Hbits).
  - intros done x cols [Hl Hbits] Hx. apply In_range in Hx.
    destruct (foldM_invariant
                (fun cols c =>
                   let? v := get2 g x c in
                   if Py.truthy v then or_bit cols c x else Some cols)
                (fun done' cols' =>
                   List.length cols' = 9%nat /\
                   forall r c, 0 <= r -> 0 <= c <= 8 ->
                     Z.testbit (nth (Z.to_nat c) cols' 0) r
                     = existsb (Z.eqb r) done && alive g r c
                       || (r =? x) && existsb (Z.eqb c) done' && alive g r c)
                (Py.range 9)) with (b := cols) as (cols' & E' & Hl' & Hbits').
    + intros done' y cols1 [Hl1 Hb1] Hy. apply In_range in Hy.
      rewrite get2_cell by (try exact Hg; lia). fold (alive g x y).
      destruct (alive g x y) eqn:Ea.
      * destruct (or_bit_bits cols1 x y Hl1) as (cols2 & E2 & Hl2 & Hb2).
        { unfold in_bounds. cbn [fst snd]. lia. }
        exists cols2. split; [exact E2|]. split; [exact Hl2|].
        intros r c Hr Hc. rewrite Hb2, Hb1, existsb_snoc by assumption.
        unfold Py.pair_eqb. cbn [fst snd].
        destruct (Z.eqb_spec r x) as [->|]; destruct (Z.eqb_spec c y) as [->|];
          rewrite ?Ea; cbn; rewrite ?orb_true_r, ?orb_false_r, ?andb_true_r,
            ?andb_false_r; reflexivity.
      * exists cols1. split; [reflexivity|]. split; [exact Hl1|].
        intros r c Hr Hc. rewrite Hb1, existsb_snoc by assumption.
        destruct (Z.eqb_spec r x) as [->|]; destruct (Z.eqb_spec c y) as [->|];
          rewrite ?Ea; cbn; rewrite ?orb_true_r, ?orb_false_r, ?andb_true_r,
            ?andb_false_r; reflexivity.
    + split; [exact Hl|]. intros r c Hr Hc. rewrite Hbits by assumption.
      cbn [existsb]. rewrite andb_false_r, orb_false_r. reflexivity.
    + exists cols'. split; [exact E'|]. split; [exact Hl'|].
      intros r c Hr Hc. rewrite Hbits', existsb_snoc by assumption.
      rewrite range_mem by lia.
      destruct (existsb (Z.eqb r) done), (r =? x), (alive g r c); reflexivity.
  - split; [reflexivity|]. intros r c Hr Hc. rewrite nth_zeros, Z.testbit_0_l.
    reflexivity.
  - exists cols. split; [exact E|]. split; [exact Hl|].
    intros r c Hr Hc. rewrite Hbits by lia. rewrite range_mem by lia. reflexivity.
Qed.

(** X16. One tick of the Game of Life sends one frame showing the
    current generation (dot [r][c] lit exactly when cell [r][c] is
    alive), then replaces the grid by the next generation under
    Conway's rule on the bounded grid, and re-arms the timer. *)
Theorem gol_tick_frame (s : App) :
  enabled gol s = true -> VFD.connected (vfd s) = true -> is_grid (_gol_grid s) ->
  exists s' frame,
    _gol_tick s = Some (tt, s') /\
    VFD.wire (vfd s') = VFD.wire (vfd s) ++ [frame] /\
    (forall r c, 0 <= r <= 6 -> 0 <= c <= 8 ->
       frame_bit frame r c = alive (_gol_grid s) r c) /\
    is_grid (_gol_grid s') /\
    (forall r c, 0 <= r < 7 -> 0 <= c < 9 ->
       cell (_gol_grid s') r c = conway (_gol_grid s) r c) /\
    timers s' = timers s ++ [(ms_gol (ms s), cb_gol_tick)].
Proof.
  intros He Hconn Hg.
  destruct (gol_cols_bits _ Hg) as (cols & Ec & Hl & Hbits).
  destruct (gol_step_spec _ Hg) as (out & Eo & Hout & Hcells).
  revert He Hconn Hg Ec Hbits Eo Hcells. open_app s. intros He Hconn Hg Ec Hbits Eo Hcells.
  subst. unfold _gol_tick. unfold_m. norm.
  rewrite Ec. norm. rewrite mm_send_cols_ok. norm. rewrite Eo. norm.
  eexists. exists (mm_frame cols). split; [reflexivity|]. norm.
  split; [rewrite wire_send, Hconn; reflexivity|].
  split; [intros r c Hr Hc; rewrite frame_bit_mm_frame by assumption; apply Hbits; assumption|].
  split; [exact Hout|]. split; [exact Hcells | reflexivity].
Qed.

Lemma gol_tick_frame_witness :
  exists s' frame,
    _gol_tick demo_gol = Some (tt, s') /\
    VFD.wire (vfd s') = [frame] /\
    frame_bit frame 1 3 = true /\ frame_bit frame 0 0 = false /\
    cell (_gol_grid s') 1 3 = 1.
Proof.
  destruct (gol_tick_frame demo_gol eq_refl eq_refl (proj1 (proj2 demo_gol_wf)))
    as (s' & frame & E & Hw & Hbits & _ & Hcells & _).
  exists s', frame. split; [exact E|]. split; [exact Hw|].
  rewrite !Hbits, Hcells by lia. repeat split.
Defined.

(** *** the stickman *)

(** The columns [stick_cols] copies: column [i] takes column
    [i - (9 - k)] of the sprite when there is one, and stays dark
    otherwise. *)
Lemma stick_cols_spec (sprite : list Z) (k : Z) :
  List.length sprite = 9%nat ->
  exists cols,
    stick_cols sprite k = Some cols /\ List.length cols = 9%nat /\
    forall i, 0 <= i <= 8 ->
      nth (Z.to_nat i) cols 0
      = if (0 <=? i - (9 - k)) && (i - (9 - k) <? 9)
        then nth (Z.to_nat (i - (9 - k))) sprite 0 else 0.
Proof.
  intros Hl. unfold stick_cols.
  destruct (foldM_invariant
              (fun cols i =>
                 let src := i - (9 - k) in
                 if (0 <=? src) && (src <? 9) then
                   let? x := Py.getitem sprite src in Py.setitem cols i x
                 else Some cols)
              (fun done cols =>
                 List.length cols = 9%nat /\
                 forall i, 0 <= i <= 8 ->
                   nth (Z.to_nat i) cols 0
                   = if existsb (Z.eqb i) done
                     then (if (0 <=? i - (9 - k)) && (i - (9 - k) <? 9)
                           then nth (Z.to_nat (i - (9 - k))) sprite 0 else 0)
                     else 0)
              (Py.range 9)) with (b := repeat 0 9) as (cols & E & Hc & Hn).
  - intros done x cols [Hc Hn] Hx. apply In_range in Hx. cbv zeta.
    destruct ((0 <=? x - (9 - k)) && (x - (9 - k) <? 9)) eqn:Eb.
    + rewrite getitem_nth by (unfold Py.len; lia).
      rewrite (nth_error_nth_some sprite _ 0) by lia.
      rewrite setitem_replace by (unfold Py.len; lia).
      eexists. split; [reflexivity|]. split; [rewrite length_replace_nth; exact Hc|].
      intros i Hi. rewrite nth_replace_nth by lia. rewrite existsb_snoc.
      destruct (Z.eqb_spec i x) as [->|Hne].
      * rewrite Nat.eqb_refl, orb_true_r, Eb. reflexivity.
      * replace (Nat.eqb _ _) with false by (symmetry; apply Nat.eqb_neq; lia).
        rewrite orb_false_r. apply Hn. exact Hi.
    + exists cols. split; [reflexivity|]. split; [exact Hc|].
      intros i Hi. rewrite existsb_snoc, Hn by exact Hi.
      destruct (Z.eqb_spec i x) as [->|Hne].
      * rewrite Eb, orb_true_r. destruct (existsb _ done); reflexivity.
      * rewrite orb_false_r. reflexivity.
  - split; [reflexivity|]. intros i Hi. rewrite nth_zeros. reflexivity.
  - exists cols. split; [exact E|]. split; [exact Hc|].
    intros i Hi. rewrite Hn, range_mem by lia. reflexivity.
Qed.

(** X17. One tick of the stickman decrements the column counter
    [_stick_col] and sends one frame in which column [i] shows column
    [i - (9 - col)] of the current sprite, [col] being the decremented
    counter, when that is one of its 9 columns and is dark otherwise:
    the sprite is drawn shifted to the right by [9 - col] columns.  When
    the counter reaches 0 it goes back to 9 and the next sprite is
    taken; otherwise the sprite stays the same. *)
Theorem stickman_tick_frame (s : App) (idx : Z) :
  enabled stickman s = true -> VFD.connected (vfd s) = true ->
  _stick_idx s = Some idx ->
  exists s' frame sprite,
    _stickman_tick s = Some (tt, s') /\
    Py.getitem _stick_frames (idx mod 4) = Some sprite /\
    VFD.wire (vfd s') = VFD.wire (vfd s) ++ [frame] /\
    (forall r i, 0 <= r <= 6 -> 0 <= i <= 8 ->
       frame_bit frame r i
       = if (0 <=? i - (9 - (_stick_col s - 1))) && (i - (9 - (_stick_col s - 1)) <? 9)
         then Z.testbit (nth (Z.to_nat (i - (9 - (_stick_col s - 1)))) sprite 0) r
         else false) /\
    (if _stick_col s - 1 <=? 0
     then _stick_col s' = 9 /\ _stick_idx s' = Some (idx + 1)
     else _stick_col s' = _stick_col s - 1 /\ _stick_idx s' = Some idx).
Proof.
  intros He Hconn Hi.
  destruct (getitem_total _stick_frames (idx mod Py.len _stick_frames))
    as (sprite & E & Hin).
  { apply Z.mod_pos_bound. vm_compute; reflexivity. }
  pose proof stick_frames_length as Hf. rewrite Forall_forall in Hf.
  destruct (stick_cols_spec sprite (_stick_col s - 1) (Hf _ Hin))
    as (cols & Ec & Hl & Hn).
  revert He Hconn Hi Ec Hn. open_app s. intros He Hconn Hi Ec Hn. subst.
  unfold _stickman_tick. unfold_m. norm.
  rewrite mod_total by (vm_compute; reflexivity). norm. rewrite E. norm.
  rewrite Ec. norm. rewrite mm_send_cols_ok. norm.
  assert (Hbits : forall r i, 0 <= r <= 6 -> 0 <= i <= 8 ->
            frame_bit (mm_frame cols) r i
            = if (0 <=? i - (9 - (s_scol - 1))) && (i - (9 - (s_scol - 1)) <? 9)
              then Z.testbit (nth (Z.to_nat (i - (9 - (s_scol - 1)))) sprite 0) r
              else false).
  { intros r i Hr Hi. rewrite frame_bit_mm_frame, Hn by assumption.
    destruct (_ && _); [reflexivity | apply Z.testbit_0_l]. }
  destruct (s_scol - 1 <=? 0); norm;
    (eexists; exists (mm_frame cols), sprite; split; [reflexivity|]);
    (split; [exact E|]); norm;
    (split; [rewrite wire_send, Hconn; reflexivity|]);
    (split; [exact Hbits|]); split; reflexivity.
Qed.

Lemma stickman_tick_frame_witness :
  exists s' frame,
    _stickman_tick demo_stickman = Some (tt, s') /\
    frame_bit frame 3 3 = true /\ frame_bit frame 3 2 = false /\
    _stick_col s' = 8.
Proof.
  destruct (stickman_tick_frame demo_stickman 0 eq_refl eq_refl eq_refl)
    as (s' & frame & sprite & E & Es & _ & Hbits & Hcol).
  exists s', frame. split; [exact E|].
  vm_compute in Es. injection Es as <-.
  rewrite !Hbits by lia. split; [reflexivity|]. split; [reflexivity|].
  apply Hcol.
Defined.

(** *** the path snake *)

Lemma length_range2 (a b : Z) :
  List.length (Py.range2 a b) = Z.to_nat (b - a).
Proof. unfold Py.range2. rewrite length_map, length_seq. reflexivity. Qed.

Lemma snake_segment_eq (l : list Z) :
  Py.foldM (fun seg k =>
              let? i := Py.mod_ k (Py.len _snake_path) in
              let? rc := Py.getitem _snake_path i in
              Some (seg ++ [rc])) l []
  = Some (map (fun k => nth (Z.to_nat (k mod 63)) _snake_path (0, 0)) l).
Proof.
  rewrite (foldM_total _ (fun seg k =>
             seg ++ [nth (Z.to_nat (k mod 63)) _snake_path (0, 0)])).
  - rewrite fold_left_snoc_map. reflexivity.
  - intros seg k _.
    assert (Hlen : Py.len _snake_path = 63) by (vm_compute; reflexivity).
    rewrite Hlen, mod_total by lia.
    pose proof (Z.mod_pos_bound k 63 ltac:(lia)) as Hk.
    rewrite getitem_nth by (rewrite Hlen; exact Hk).
    rewrite (nth_error_nth_some _ _ (0, 0)); [reflexivity|].
    unfold Py.len in Hlen. lia.
Qed.

(** X18. One tick of the path snake sends one frame whose lit dots are
    exactly the cells of the serpentine path at the positions
    [max(0, idx - 10) .. idx] (taken modulo 63), that is
    [min(idx, 10) + 1] path positions, and advances [idx] by one. *)
Theorem snake_tick_frame (s : App) :
  enabled mini_snake s = true -> VFD.connected (vfd s) = true ->
  exists s' frame,
    _snake_tick s = Some (tt, s') /\
    VFD.wire (vfd s') = VFD.wire (vfd s) ++ [frame] /\
    _snake_idx s' = _snake_idx s + 1 /\
    let segment :=
      map (fun k => nth (Z.to_nat (k mod 63)) _snake_path (0, 0))
          (Py.range2 (Z.max 0 (_snake_idx s - 10)) (_snake_idx s + 1)) in
    (forall r c, 0 <= r <= 6 -> 0 <= c <= 8 ->
       (frame_bit frame r c = true <-> In (r, c) segment)) /\
    (0 <= _snake_idx s ->
     Z.of_nat (List.length segment) = Z.min (_snake_idx s) 10 + 1).
Proof.
  intros He Hconn.
  pose proof (snake_segment_eq
                (Py.range2 (Z.max 0 (_snake_idx s - 10)) (_snake_idx s + 1))) as Es.
  set (segment := map (fun k => nth (Z.to_nat (k mod 63)) _snake_path (0, 0))
                      (Py.range2 (Z.max 0 (_snake_idx s - 10)) (_snake_idx s + 1))) in *.
  assert (Hseg : Forall (fun p => in_bounds p = true) segment).
  { destruct (snake_segment (Py.range2 (Z.max 0 (_snake_idx s - 10)) (_snake_idx s + 1)))
      as (seg & E & Hs).
    rewrite Es in E. injection E as <-. exact Hs. }
  destruct (plot_bits segment Hseg (repeat 0 9) eq_refl) as (cols & Ep & Hl & Hbits).
  assert (Hlen : 0 <= _snake_idx s ->
                 Z.of_nat (List.length segment) = Z.min (_snake_idx s) 10 + 1).
  { intros H0. unfold segment. rewrite length_map, length_range2. lia. }
  assert (Hb : forall r c, 0 <= r -> 0 <= c <= 8 ->
                 Z.testbit (nth (Z.to_nat c) cols 0) r = Py.mem (r, c) segment).
  { intros r c Hr Hc. rewrite Hbits by assumption.
    rewrite nth_zeros, Z.testbit_0_l. reflexivity. }
  clear Hbits. clearbody segment. revert He Hconn Es Hlen.
  open_app s. intros He Hconn Es Hlen. subst.
  unfold _snake_tick, _snake_len. unfold_m. norm.
  rewrite Es. norm. cbn in Ep. rewrite Ep. norm. rewrite mm_send_cols_ok. norm.
  eexists. exists (mm_frame cols). split; [reflexivity|]. norm.
  split; [rewrite wire_send, Hconn; reflexivity|]. split; [reflexivity|].
  split; [|exact Hlen].
  intros r c Hr Hc. rewrite frame_bit_mm_frame, Hb by (try assumption; lia).
  apply mem_In.
Qed.

Lemma snake_tick_frame_witness :
  exists s' frame,
    _snake_tick demo_path_snake = Some (tt, s') /\
    VFD.wire (vfd s') = [frame] /\ _snake_idx s' = 13 /\
    frame_bit frame 1 5 = true /\ frame_bit frame 0 1 = false.
Proof.
  destruct (snake_tick_frame demo_path_snake eq_refl eq_refl)
    as (s' & frame & E & Hw & Hi & Hbits & _).
  exists s', frame. split; [exact E|]. split; [exact Hw|]. split; [exact Hi|].
  split.
  - apply Hbits; [lia | lia | vm_compute; tauto].
  - destruct (frame_bit frame 0 1) eqn:Eb; [|reflexivity].
    apply Hbits in Eb; [|lia|lia]. vm_compute in Eb.
    repeat (destruct Eb as [Eb|Eb]; [discriminate|]). destruct Eb.
Defined.

(** *** the marquee *)

Lemma length_substring (n m : nat) (txt : string) :
  (n + m <= String.length txt)%nat -> String.length (substring n m txt) = m.
Proof.
  revert n m. induction txt as [|c t IH]; intros n m H.
  - change (String.length "") with 0%nat in H.
    assert (n = 0%nat) by lia. assert (m = 0%nat) by lia. subst. reflexivity.
  - change (String.length (String c t)) with (S (String.length t)) in H.
    destruct n as [|n'].
    + destruct m as [|m']; [reflexivity|].
      change (substring 0 (S m') (String c t)) with (String c (substring 0 m' t)).
      change (String.length (String c (substring 0 m' t)))
        with (S (String.length (substring 0 m' t))).
      rewrite IH by lia. reflexivity.
    + change (substring (S n') m (String c t)) with (substring n' m t).
      apply IH. lia.
Qed.

(** X19. One tick of the marquee selects the chosen line, homes the
    cursor and writes a window of exactly 16 characters of the text
    padded with 16 spaces on each side, starting at the offset taken
    modulo [len(text) + 17]; then it advances the offset by one and
    re-arms the timer. *)
Theorem marquee_tick_window (s : App) (off : Z) :
  enabled marquee s = true -> VFD.connected (vfd s) = true ->
  _marquee_offset s = Some off ->
  let raw := marquee_text (host s) in
  let n := Z.of_nat (String.length raw) in
  let i := off mod (n + 17) in
  let chunk := Py.slice (Py.spaces 16 ++ raw ++ Py.spaces 16)%string i (i + 16) in
  exists s',
    _marquee_tick s = Some (tt, s') /\
    0 <= i <= n + 16 /\ String.length chunk = 16%nat /\
    VFD.wire (vfd s')
    = VFD.wire (vfd s)
      ++ [[0x1B; if String.eqb (marquee_line (host s)) "0" then 0x21 else 0x22];
          [0x1B; 0x51]; Py.encode_ascii_ignore chunk] /\
    _marquee_offset s' = Some (off + 1) /\
    timers s' = timers s ++ [(ms_marquee (ms s), cb_marquee_tick)].
Proof.
  intros He Hconn Ho raw n i chunk.
  assert (Hlen : Z.of_nat (String.length (Py.spaces 16 ++ raw ++ Py.spaces 16)) - 15
                 = n + 17).
  { rewrite !string_length_app. change (String.length (Py.spaces 16)) with 16%nat.
    unfold n. lia. }
  assert (Hi : 0 <= i <= n + 16).
  { unfold i. pose proof (Z.mod_pos_bound off (n + 17) ltac:(unfold n; lia)). lia. }
  assert (Hc : String.length chunk = 16%nat).
  { unfold chunk, Py.slice. replace (Z.to_nat (i + 16 - i)) with 16%nat by lia.
    apply length_substring. lia. }
  exists (s <| vfd := VFD.send (Py.encode_ascii_ignore chunk)
                       (VFD.send [0x1B; 0x51]
                          (VFD.send [0x1B; if String.eqb (marquee_line (host s)) "0"
                                           then 0x21 else 0x22] (vfd s))) |>
            <| _marquee_offset := Some (off + 1) |>
            <| timers ::= fun t => t ++ [(ms_marquee (ms s), cb_marquee_tick)] |>).
  split; [|split; [exact Hi|split; [exact Hc|]]].
  - subst chunk i. rewrite <- Hlen. clear Hlen Hi Hc. subst n raw.
    revert He Hconn Ho. open_app s. intros He Hconn Ho. subst.
    unfold _marquee_tick. unfold_m. norm.
    rewrite mod_total by apply marquee_modulus. norm.
    destruct (String.eqb _ _); reflexivity.
  - clear Hlen Hi Hc. revert He Hconn Ho. clearbody chunk. open_app s.
    intros He Hconn Ho. norm.
    rewrite !wire_send, !connected_send, Hconn, <- !app_assoc. repeat split.
Qed.

Lemma marquee_tick_window_witness :
  exists s',
    _marquee_tick demo_marquee = Some (tt, s') /\
    VFD.wire (vfd s')
    = [[0x1B; 0x21]; [0x1B; 0x51];
       Py.encode_ascii_ignore "HELLO           "] /\
    _marquee_offset s' = Some 17.
Proof.
  destruct (marquee_tick_window demo_marquee 16 eq_refl eq_refl eq_refl)
    as (s' & E & _ & _ & Hw & Ho & _).
  exists s'. split; [exact E|]. split; [exact Hw | exact Ho].
Defined.

(** *** the sweeps *)

Lemma bounce_next_spec (hi v step : Z) :
  1 <= hi -> 0 <= v <= hi -> step = 1 \/ step = -1 ->
  exists nxt step',
    bounce_next hi v step = (nxt, step') /\
    0 <= nxt <= hi /\ (step' = 1 \/ step' = -1) /\ Z.abs (nxt - v) = 1 /\
    nxt = v + step' /\
    step' = (if (0 <=? v + step) && (v + step <=? hi) then step else - step).
Proof.
  intros Hhi Hv Hs. unfold bounce_next.
  destruct (Z.ltb_spec hi (v + step)) as [H1|H1].
  - replace (hi - 1 <? 0) with false by lia.
    replace (v + step <=? hi) with false by lia. rewrite andb_false_r.
    exists (hi - 1), (-1). repeat split; lia.
  - replace (v + step <=? hi) with true by lia. rewrite andb_true_r.
    destruct (Z.ltb_spec (v + step) 0) as [H2|H2].
    + replace (0 <=? v + step) with false by lia.
      exists 1, 1. repeat split; lia.
    + replace (0 <=? v + step) with true by lia.
      exists (v + step), step. repeat split; lia.
Qed.

(** X20. The volume sweep, the Cylon scanner and the icon wave bounce:
    from a level within their range (0..8, 0..6 and 0..6) and a step of
    1 or -1, the tick returns and re-arms itself with the step it was
    given as long as [level + step] stays within the range, and with
    the reversed step when [level + step] would leave it (at the top
    going up, at 0 going down); the next level is the current one plus
    the step kept or reversed in this way, so it is within the range
    and one away from the current level.  The sweep shows the level on
    the volume bars, the Cylon scanner shows level + 1. *)
Theorem sweep_ticks_bounce (lvl step : Z) (s : App) :
  0 <= lvl -> step = 1 \/ step = -1 ->
  (lvl <= 8 -> enabled vol_sweep s = true ->
   exists s' nxt step',
     _vol_sweep_tick lvl step s = Some (tt, s') /\
     VFD.set_volume_level lvl (vfd s) = Some (vfd s') /\
     timers s' = timers s ++ [(ms_vol_sweep (ms s), cb_vol_sweep_tick nxt step')] /\
     0 <= nxt <= 8 /\ (step' = 1 \/ step' = -1) /\ nxt = lvl + step' /\
     step' = (if (0 <=? lvl + step) && (lvl + step <=? 8) then step else - step)) /\
  (lvl <= 6 -> enabled cylon s = true ->
   exists s' nxt step',
     _cylon_tick lvl step s = Some (tt, s') /\
     VFD.set_volume_level (lvl + 1) (vfd s) = Some (vfd s') /\
     timers s' = timers s ++ [(ms_cylon (ms s), cb_cylon_tick nxt step')] /\
     0 <= nxt <= 6 /\ (step' = 1 \/ step' = -1) /\ nxt = lvl + step' /\
     step' = (if (0 <=? lvl + step) && (lvl + step <=? 6) then step else - step)) /\
  (lvl <= 6 -> enabled icon_wave s = true ->
   exists s' nxt step',
     _icon_wave_tick lvl step s = Some (tt, s') /\
     timers s' = timers s ++ [(ms_icon_wave (ms s), cb_icon_wave_tick nxt step')] /\
     0 <= nxt <= 6 /\ (step' = 1 \/ step' = -1) /\ nxt = lvl + step' /\
     step' = (if (0 <=? lvl + step) && (lvl + step <=? 6) then step else - step)).
Proof.
  intros H0 Hs. split; [|split].
  - intros Hl He.
    destruct (bounce_next_spec 8 lvl step ltac:(lia) ltac:(lia) Hs)
      as (nxt & step' & Eb & Hn & Hs' & _ & Hmove & Hrev).
    destruct (set_volume_level_sends lvl (vfd s)) as (v' & Ev & _).
    revert He Ev. open_app s. intros He Ev. subst l_vol_sweep.
    unfold _vol_sweep_tick. unfold_m. norm. rewrite Ev, Eb. norm.
    eexists; exists nxt, step'. split; [reflexivity|]. norm.
    repeat split; try assumption; lia.
  - intros Hl He.
    destruct (bounce_next_spec 6 lvl step ltac:(lia) ltac:(lia) Hs)
      as (nxt & step' & Eb & Hn & Hs' & _ & Hmove & Hrev).
    destruct (set_volume_level_sends (lvl + 1) (vfd s)) as (v' & Ev & _).
    revert He Ev. open_app s. intros He Ev. subst l_cylon.
    unfold _cylon_tick. unfold_m. norm.
    replace (Z.min 7 (Z.max 0 (lvl + 1))) with (lvl + 1) by lia.
    rewrite Ev, Eb. norm.
    eexists; exists nxt, step'. split; [reflexivity|]. norm.
    repeat split; try assumption; lia.
  - intros Hl He.
    destruct (bounce_next_spec 6 lvl step ltac:(lia) ltac:(lia) Hs)
      as (nxt & step' & Eb & Hn & Hs' & _ & Hmove & Hrev).
    revert He. open_app s. intros He. subst l_icon_wave.
    unfold _icon_wave_tick, all_icons. unfold_m. norm. do_icons. rewrite Eb. norm.
    eexists; exists nxt, step'. split; [reflexivity|]. norm.
    repeat split; try assumption; lia.
Qed.

Lemma sweep_ticks_bounce_witness :
  (exists s' nxt step',
     _vol_sweep_tick 8 1 demo_sweep = Some (tt, s') /\
     timers s' = [(120, cb_vol_sweep_tick nxt step')] /\
     nxt = 7 /\ step' = -1) /\
  (exists s' nxt step',
     _vol_sweep_tick 3 (-1) demo_sweep = Some (tt, s') /\
     timers s' = [(120, cb_vol_sweep_tick nxt step')] /\
     nxt = 2 /\ step' = -1).
Proof.
  split.
  - destruct (proj1 (sweep_ticks_bounce 8 1 demo_sweep ltac:(lia) (or_introl eq_refl))
                ltac:(lia) eq_refl)
      as (s' & nxt & step' & E & _ & Ht & Hn & Hs & Hmove & Hrev).
    exists s', nxt, step'. split; [exact E|]. split; [exact Ht|].
    cbn in Hrev. lia.
  - destruct (proj1 (sweep_ticks_bounce 3 (-1) demo_sweep ltac:(lia) (or_intror eq_refl))
                ltac:(lia) eq_refl)
      as (s' & nxt & step' & E & _ & Ht & Hn & Hs & Hmove & Hrev).
    exists s', nxt, step'. split; [exact E|]. split; [exact Ht|].
    cbn in Hrev. lia.
Defined.

(** *** the clock bars *)

Lemma existsb_range (r h : Z) :
  existsb (Z.eqb r) (Py.range h) = (0 <=? r) && (r <? h).
Proof.
  destruct ((0 <=? r) && (r <? h)) eqn:E.
  - apply range_mem. lia.
  - destruct (existsb _ _) eqn:Ex; [|reflexivity].
    apply existsb_exists in Ex. destruct Ex as (x & Hx & Hr).
    apply In_range in Hx. apply Z.eqb_eq in Hr. lia.
Qed.

Lemma fold_left_ones (l : list Z) (v r : Z) :
  0 <= r -> Forall (fun x => 0 <= x) l ->
  Z.testbit (fold_left (fun v x => Z.lor v (Z.shiftl 1 x)) l v) r
  = Z.testbit v r || existsb (Z.eqb r) l.
Proof.
  intros Hr Hl.
  pose proof (fold_left_lor_bits (fun _ => true) l v r Hr Hl) as H.
  cbv beta in H. rewrite andb_true_r in H. exact H.
Qed.

Lemma bars_spec (val maxval : Z) :
  0 < maxval -> 0 <= val <= maxval ->
  exists col,
    bars val maxval = Some [col; col; col] /\
    0 <= bar_height val maxval <= 7 /\
    forall r, 0 <= r -> Z.testbit col r = (r <? bar_height val maxval).
Proof.
  intros Hm Hv. unfold bars. fold (bar_height val maxval).
  assert (Hh : 0 <= bar_height val maxval <= 7).
  { unfold bar_height. split.
    - apply Z.div_pos; lia.
    - assert ((14 * val + maxval) / (2 * maxval) < 8); [|lia].
      apply Z.div_lt_upper_bound; lia. }
  rewrite (foldM_total _ (fun v x => Z.lor v (Z.shiftl 1 x))).
  - eexists. split; [reflexivity|]. split; [exact Hh|].
    intros r Hr. rewrite fold_left_ones by (try lia; apply range_nonneg).
    rewrite Z.testbit_0_l, existsb_range. cbn [orb].
    replace (0 <=? r) with true by lia. reflexivity.
  - intros col i Hi. apply In_range in Hi. unfold Py.lshift.
    replace (i <? 0) with false by lia. reflexivity.
Qed.

(** X21. One tick of the clock bars sends one frame in which columns
    0..2, 3..5 and 6..8 are bars for the hour, minute and second: the top
    [h] rows lit, where [h] is [7 * value / max] rounded to the nearest
    integer (max 23 for the hour, 59 otherwise), between 0 and 7. *)
Theorem clock_bars_frame (s : App) :
  enabled clock_bars s = true -> VFD.connected (vfd s) = true ->
  valid_datetime (now (host s)) ->
  exists s' frame,
    _clock_bars_tick s = Some (tt, s') /\
    VFD.wire (vfd s') = VFD.wire (vfd s) ++ [frame] /\
    (forall r c, 0 <= r <= 6 -> 0 <= c <= 8 ->
       frame_bit frame r c
       = (r <? (if c <? 3 then bar_height (hour (now (host s))) 23
                else if c <? 6 then bar_height (minute (now (host s))) 59
                else bar_height (second (now (host s))) 59))) /\
    0 <= bar_height (hour (now (host s))) 23 <= 7 /\
    0 <= bar_height (minute (now (host s))) 59 <= 7 /\
    0 <= bar_height (second (now (host s))) 59 <= 7.
Proof.
  intros He Hconn (_ & _ & _ & Hh & Hm & Hs).
  destruct (bars_spec (hour (now (host s))) 23 ltac:(lia) ltac:(lia))
    as (ch & Eh & Hhh & Hbh).
  destruct (bars_spec (minute (now (host s))) 59 ltac:(lia) ltac:(lia))
    as (cm & Em & Hhm & Hbm).
  destruct (bars_spec (second (now (host s))) 59 ltac:(lia) ltac:(lia))
    as (cs & Es & Hhs & Hbs).
  exists (s <| vfd := VFD.send (mm_frame [ch; ch; ch; cm; cm; cm; cs; cs; cs]) (vfd s) |>
            <| timers ::= fun t => t ++ [(ms_clock_bars (ms s), cb_clock_bars_tick)] |>),
         (mm_frame [ch; ch; ch; cm; cm; cm; cs; cs; cs]).
  split; [|split; [|split; [|repeat split; lia]]].
  - clear Hbh Hbm Hbs Hhh Hhm Hhs Hh Hm Hs. revert He Hconn Eh Em Es.
    open_app s. intros He Hconn Eh Em Es. subst l_clock_bars.
    unfold _clock_bars_tick. unfold_m. norm.
    rewrite Eh. norm. rewrite Em. norm. rewrite Es. norm.
    rewrite mm_send_cols_ok. reflexivity.
  - revert Hconn. clear. open_app s. intros Hconn.
    rewrite wire_send, Hconn. reflexivity.
  - intros r c Hr Hc. rewrite frame_bit_mm_frame by (try reflexivity; assumption).
    assert (Hcases : c = 0 \/ c = 1 \/ c = 2 \/ c = 3 \/ c = 4 \/ c = 5 \/
                     c = 6 \/ c = 7 \/ c = 8) by lia.
    repeat (destruct Hcases as [->|Hcases];
            [first [apply Hbh | apply Hbm | apply Hbs]; lia|]).
    subst c. apply Hbs. lia.
Qed.

Lemma clock_bars_frame_witness :
  exists s' frame,
    _clock_bars_tick demo_clock_bars = Some (tt, s') /\
    VFD.wire (vfd s') = [frame] /\
    frame_bit frame 3 0 = true /\ frame_bit frame 4 0 = false /\
    frame_bit frame 4 8 = true.
Proof.
  destruct (clock_bars_frame demo_clock_bars eq_refl eq_refl)
    as (s' & frame & E & Hw & Hbits & _).
  - unfold valid_datetime. cbn. lia.
  - exists s', frame. split; [exact E|]. split; [exact Hw|].
    rewrite !Hbits by lia. repeat split.
Defined.

(** *** the icon carousel *)

(** X22. One tick of the icon carousel leaves exactly one of the eight
    icons 0..7 lit, the one numbered [idx mod 8], at brightness 6, the
    other seven at 0, and advances [idx] by one. *)
Theorem icon_carousel_one_lit (s : App) (idx : Z) :
  enabled icon_carousel s = true -> VFD.connected (vfd s) = true ->
  _icon_carousel_idx s = Some idx ->
  exists s',
    _icon_carousel_tick s = Some (tt, s') /\
    _icon_carousel_idx s' = Some (idx + 1) /\
    (forall i, 0 <= i < 8 ->
       icon_value (VFD.wire (vfd s')) i = Some (if i =? idx mod 8 then 6 else 0)).
Proof.
  intros He Hconn Hi.
  pose proof (Z.mod_pos_bound idx 8 ltac:(lia)) as Hm.
  assert (Hland : Z.land (idx mod 8) 0xFF = idx mod 8).
  { change 0xFF with (Z.ones 8). rewrite Z.land_ones by lia.
    apply Z.mod_small. lia. }
  revert He Hconn Hi. open_app s. intros He Hconn Hi. subst.
  unfold _icon_carousel_tick, all_icons.
  change (Py.range2 0x00 0x08) with [0; 1; 2; 3; 4; 5; 6; 7].
  unfold_m. norm. unfold Py.foldM. norm.
  repeat (rewrite icon_brightness_eq; norm).
  rewrite Hland.
  eexists. split; [reflexivity|]. norm. split; [reflexivity|].
  intros i Hi8.
  repeat (rewrite wire_send, ?connected_send, Hconn).
  rewrite <- ?app_assoc. cbn [app]. rewrite icon_value_app.
  assert (Hc : i = 0 \/ i = 1 \/ i = 2 \/ i = 3 \/ i = 4 \/ i = 5 \/ i = 6 \/ i = 7)
    by lia.
  remember (i =? idx mod 8) as b eqn:Hb. rewrite Z.eqb_sym in Hb.
  repeat (destruct Hc as [->|Hc];
          [cbn; rewrite <- Hb; destruct b; reflexivity|]).
  subst i. cbn. rewrite <- Hb. destruct b; reflexivity.
Qed.

Lemma icon_carousel_one_lit_witness :
  exists s',
    _icon_carousel_tick demo_carousel = Some (tt, s') /\
    icon_value (VFD.wire (vfd s')) 2 = Some 6 /\
    icon_value (VFD.wire (vfd s')) 1 = Some 0 /\
    icon_value (VFD.wire (vfd s')) 7 = Some 0.
Proof.
  destruct (icon_carousel_one_lit demo_carousel 10 eq_refl eq_refl eq_refl)
    as (s' & E & _ & H).
  exists s'. split; [exact E|].
  split; [exact (H 2 ltac:(lia))|]. split; [exact (H 1 ltac:(lia)) | exact (H 7 ltac:(lia))].
Defined.
